(** * Library Management System (real_world_example.py)

    A shallow embedding of the in-memory library example: catalog items,
    patrons, the observer hub, the transaction log and the circulation
    operations of [LibrarySystem], followed by the properties of the
    specification that were checked against it.

    Conventions of the embedding.
    - Python objects held in the system's dictionaries are records; a method
      that mutates [self] returns the updated record, and the system writes
      it back under the key it was found under (the dictionary holds the
      object itself, so the mutation is visible there).
    - Python dictionaries keep insertion order; they are association lists
      with unique keys ([Dict]).
    - [datetime.now()] is an input: every call site takes its own reading.
    - Exceptions are an explicit outcome ([Raised]); the state reached when
      an exception leaves a method is part of the result.
    - Python floats are modelled by [PyFloat.pyfloat]: the rational a finite
      float denotes, the two infinities and NaN.  Rounding is not modelled.
    - Strings are byte strings; [lower] folds the ASCII letters.
    - [getattr] finds the properties of an item and the fields behind
      them, as the classes define them; what an item has from its class
      beside these (methods, [__doc__], what [object] gives every
      instance) depends on the interpreter and is an input, like the
      clock. *)

From Stdlib Require Import ZArith QArith Qabs Bool List String Ascii Lia Lqa.
From Stdlib Require Import DecimalString Permutation Sorted.
Import ListNotations.

Local Open Scope Z_scope.

(* ================================================================== *)
(** * Part I: the embedding *)

(* ------------------------------------------------------------------ *)
(** ** Outcomes of a call *)

Inductive exn : Type :=
| OverflowError   (* datetime / timedelta out of range *)
| KeyError        (* missing dictionary key *)
| ObserverError.  (* raised inside an observer's update *)

Inductive outcome (A : Type) : Type :=
| Returned (a : A)
| Raised (e : exn).
Arguments Returned {A} a.
Arguments Raised {A} e.

Definition bind_outcome {A B} (m : outcome A) (k : A -> outcome B) : outcome B :=
  match m with
  | Returned a => k a
  | Raised e => Raised e
  end.

(* ------------------------------------------------------------------ *)
(** ** datetime and timedelta *)

Module DateTime.

(** A naive [datetime]: microseconds since 0001-01-01T00:00:00. *)
Definition datetime : Type := Z.
(** A [timedelta]: a signed number of microseconds. *)
Definition timedelta : Type := Z.

Definition US_PER_DAY : Z := 86400000000.

(** [datetime.max] is 9999-12-31T23:59:59.999999, the last microsecond of
    day 3652059 of the proleptic calendar. *)
Definition MAXORDINAL : Z := 3652059.
Definition datetime_max : datetime := MAXORDINAL * US_PER_DAY - 1.

(** [timedelta(days=d)]: the constructor refuses more than 999999999 days
    in either direction. *)
Definition MAX_DELTA_DAYS : Z := 999999999.
Definition timedelta_of_days (d : Z) : outcome timedelta :=
  if MAX_DELTA_DAYS <? Z.abs d then Raised OverflowError
  else Returned (d * US_PER_DAY).

(** [t + delta]: the sum must be a representable date. *)
Definition add (t : datetime) (delta : timedelta) : outcome datetime :=
  let r := t + delta in
  if (r <? 0) || (datetime_max <? r) then Raised OverflowError
  else Returned r.

(** [a - b] of two datetimes, and the [.days] field of the difference
    (timedelta normalises with a floor, so [.days] is negative as soon as
    the difference is). *)
Definition sub (a b : datetime) : timedelta := a - b.
Definition days (delta : timedelta) : Z := delta / US_PER_DAY.

(** [a > b] on datetimes. *)
Definition gtb (a b : datetime) : bool := b <? a.

(** [datetime.now() + timedelta(days=due_days)] *)
Definition plus_days (now : datetime) (due_days : Z) : outcome datetime :=
  bind_outcome (timedelta_of_days due_days) (add now).

End DateTime.

(* ------------------------------------------------------------------ *)
(** ** Floats *)

Module PyFloat.

Inductive pyfloat : Type :=
| Fin (q : Q)
| Inf (negative : bool)
| NaN.

Definition zero : pyfloat := Fin 0.
Definition quarter : pyfloat := Fin (1 # 4).
Definition of_int (z : Z) : pyfloat := Fin (inject_Z z).

(** [a < b]; every comparison with NaN is false. *)
Definition ltb (a b : pyfloat) : bool :=
  match a, b with
  | NaN, _ | _, NaN => false
  | Fin x, Fin y => negb (Qle_bool y x)
  | Fin _, Inf n => negb n
  | Inf n, Fin _ => n
  | Inf n, Inf m => n && negb m
  end.

(** [a <= b] *)
Definition leb (a b : pyfloat) : bool :=
  match a, b with
  | NaN, _ | _, NaN => false
  | Fin x, Fin y => Qle_bool x y
  | Fin _, Inf n => negb n
  | Inf n, Fin _ => n
  | Inf n, Inf m => n || negb m
  end.

(** [a > b] *)
Definition gtb (a b : pyfloat) : bool := ltb b a.

(** [a == b] *)
Definition eqb (a b : pyfloat) : bool :=
  match a, b with
  | Fin x, Fin y => Qeq_bool x y
  | Inf n, Inf m => Bool.eqb n m
  | _, _ => false
  end.

Definition add (a b : pyfloat) : pyfloat :=
  match a, b with
  | NaN, _ | _, NaN => NaN
  | Fin x, Fin y => Fin (x + y)
  | Fin _, Inf n => Inf n
  | Inf n, Fin _ => Inf n
  | Inf n, Inf m => if Bool.eqb n m then Inf n else NaN
  end.

Definition sub (a b : pyfloat) : pyfloat :=
  match a, b with
  | NaN, _ | _, NaN => NaN
  | Fin x, Fin y => Fin (x - y)
  | Fin _, Inf n => Inf (negb n)
  | Inf n, Fin _ => Inf n
  | Inf n, Inf m => if Bool.eqb n m then NaN else Inf n
  end.

Definition Qnegative (x : Q) : bool := negb (Qle_bool 0 x).

Definition mul (a b : pyfloat) : pyfloat :=
  match a, b with
  | NaN, _ | _, NaN => NaN
  | Fin x, Fin y => Fin (x * y)
  | Fin x, Inf n | Inf n, Fin x =>
      if Qeq_bool x 0 then NaN else Inf (xorb n (Qnegative x))
  | Inf n, Inf m => Inf (xorb n m)
  end.

Definition is_nan (a : pyfloat) : bool :=
  match a with NaN => true | _ => false end.

(** Two decimal digits of a natural number below 100. *)
Definition two_digits (n : Z) : string :=
  let s := NilZero.string_of_uint (N.to_uint (Z.to_N n)) in
  if n <? 10 then String "0" s else s.

(** Round a non-negative rational to the nearest integer, ties to even. *)
Definition round_half_even (x : Q) : Z :=
  let n := Qnum x in
  let d := Zpos (Qden x) in
  let fl := n / d in
  let r := n mod d in
  match 2 * r ?= d with
  | Lt => fl
  | Gt => fl + 1
  | Eq => if Z.even fl then fl else fl + 1
  end.

(** [f"{x:.2f}"] *)
Definition format_2f (a : pyfloat) : string :=
  match a with
  | NaN => "nan"
  | Inf n => if n then "-inf" else "inf"
  | Fin x =>
      let neg := Qnegative x in
      let cents := round_half_even (Qabs x * inject_Z 100) in
      let whole := NilZero.string_of_uint (N.to_uint (Z.to_N (cents / 100))) in
      let body := String.append whole (String "." (two_digits (cents mod 100))) in
      if neg then String "-" body else body
  end.

End PyFloat.

(* ------------------------------------------------------------------ *)
(** ** Dictionaries with string keys, in insertion order *)

Module Dict.

Definition dict (V : Type) : Type := list (string * V).

Definition empty {V} : dict V := [].

(** [d.get(k)] *)
Fixpoint get {V} (k : string) (d : dict V) : option V :=
  match d with
  | [] => None
  | (k', v) :: rest => if String.eqb k' k then Some v else get k rest
  end.

(** [k in d] *)
Definition contains {V} (k : string) (d : dict V) : bool :=
  match get k d with
  | Some _ => true
  | None => false
  end.

(** [d[k] = v]: an existing key keeps its place, a new one goes last. *)
Fixpoint set {V} (k : string) (v : V) (d : dict V) : dict V :=
  match d with
  | [] => [(k, v)]
  | (k', v') :: rest =>
      if String.eqb k' k then (k, v) :: rest else (k', v') :: set k v rest
  end.

(** [del d[k]]; every call site has checked [k in d] before. *)
Fixpoint del {V} (k : string) (d : dict V) : dict V :=
  match d with
  | [] => []
  | (k', v') :: rest =>
      if String.eqb k' k then rest else (k', v') :: del k rest
  end.

Definition keys {V} (d : dict V) : list string := map fst d.
Definition values {V} (d : dict V) : list V := map snd d.
Definition items {V} (d : dict V) : list (string * V) := d.

(** Keys are unique, as in every Python dictionary. *)
Definition wf {V} (d : dict V) : Prop := NoDup (keys d).

End Dict.

(* ------------------------------------------------------------------ *)
(** ** Strings *)

Module Str.

Definition lower_ascii (c : ascii) : ascii :=
  let n := nat_of_ascii c in
  if ((65 <=? n)%nat && (n <=? 90)%nat)%bool then ascii_of_nat (n + 32) else c.

(** [s.lower()] *)
Fixpoint lower (s : string) : string :=
  match s with
  | EmptyString => EmptyString
  | String c rest => String (lower_ascii c) (lower rest)
  end.

(** [needle in hay] on strings: [needle] occurs as a contiguous block. *)
Fixpoint contains (needle hay : string) : bool :=
  if String.prefix needle hay then true
  else match hay with
       | EmptyString => false
       | String _ rest => contains needle rest
       end.

End Str.

(* ------------------------------------------------------------------ *)
(** ** Python values seen through [getattr] and in search criteria *)

Inductive pyval : Type :=
| VNone
| VBool (b : bool)
| VInt (z : Z)
| VFloat (f : PyFloat.pyfloat)
| VStr (s : string)
| VStrList (l : list string)
| VDatetime (t : DateTime.datetime)
| VOther (identity : nat).  (* any other object, equal to itself only *)

Definition int_of_bool (b : bool) : Z := if b then 1 else 0.

(** [a == b]: [bool] is a subclass of [int], and [int] and [float] compare
    by value. *)
Definition py_eq (a b : pyval) : bool :=
  match a, b with
  | VNone, VNone => true
  | VBool x, VBool y => Bool.eqb x y
  | VBool x, VInt y | VInt y, VBool x => int_of_bool x =? y
  | VBool x, VFloat y | VFloat y, VBool x =>
      PyFloat.eqb (PyFloat.of_int (int_of_bool x)) y
  | VInt x, VInt y => x =? y
  | VInt x, VFloat y | VFloat y, VInt x => PyFloat.eqb (PyFloat.of_int x) y
  | VFloat x, VFloat y => PyFloat.eqb x y
  | VStr x, VStr y => String.eqb x y
  | VStrList x, VStrList y => if list_eq_dec string_dec x y then true else false
  | VDatetime x, VDatetime y => x =? y
  | VOther x, VOther y => Nat.eqb x y
  | _, _ => false
  end.

(** [a != b] *)
Definition py_ne (a b : pyval) : bool := negb (py_eq a b).

(* ------------------------------------------------------------------ *)
(** ** Library items: [LibraryItem], [Book], [EBook], [DVD] *)

Module LibraryItem.

Record BookFields : Type := {
  _author : string;
  _isbn : string;
  _pages : Z;
  _publisher : string;
  _year : Z;
  _genre : option string
}.

Record EBookFields : Type := {
  _file_format : string;
  _size_mb : PyFloat.pyfloat;
  _download_count : Z
}.

Record DVDFields : Type := {
  _director : string;
  _runtime : Z;
  _release_year : Z;
  _actors : list string
}.

(** The concrete class of an item; [EBook] inherits the fields of [Book]. *)
Inductive variant : Type :=
| Book (b : BookFields)
| EBook (b : BookFields) (e : EBookFields)
| DVD (d : DVDFields).

Record t : Type := {
  _title : string;
  _item_id : string;
  _checked_out : bool;
  _added_date : DateTime.datetime;
  fields : variant
}.

Definition title (self : t) : string := _title self.
Definition item_id (self : t) : string := _item_id self.
Definition is_checked_out (self : t) : bool := _checked_out self.

Definition with_checked_out (self : t) (b : bool) : t :=
  {| _title := _title self; _item_id := _item_id self; _checked_out := b;
     _added_date := _added_date self; fields := fields self |}.

(** [LibraryItem.__init__]: a new item is not checked out. *)
Definition init (title item_id : string) (now : DateTime.datetime) (v : variant) : t :=
  {| _title := title; _item_id := item_id; _checked_out := false;
     _added_date := now; fields := v |}.

(** [check_out]: the result and the item afterwards. *)
Definition check_out (self : t) : bool * t :=
  if _checked_out self then (false, self)
  else (true, with_checked_out self true).

(** [check_in] *)
Definition check_in (self : t) : bool * t :=
  if negb (_checked_out self) then (false, self)
  else (true, with_checked_out self false).

Definition opt_str (o : option string) : pyval :=
  match o with
  | Some s => VStr s
  | None => VNone
  end.

Definition book_attributes (b : BookFields) : list (string * pyval) :=
  [ ("author", VStr (_author b)); ("_author", VStr (_author b));
    ("isbn", VStr (_isbn b)); ("_isbn", VStr (_isbn b));
    ("pages", VInt (_pages b)); ("_pages", VInt (_pages b));
    ("publisher", VStr (_publisher b)); ("_publisher", VStr (_publisher b));
    ("year", VInt (_year b)); ("_year", VInt (_year b));
    ("genre", opt_str (_genre b)); ("_genre", opt_str (_genre b)) ]%string.

Definition ebook_attributes (e : EBookFields) : list (string * pyval) :=
  [ ("file_format", VStr (_file_format e)); ("_file_format", VStr (_file_format e));
    ("size_mb", VFloat (_size_mb e)); ("_size_mb", VFloat (_size_mb e));
    ("download_count", VInt (_download_count e));
    ("_download_count", VInt (_download_count e)) ]%string.

Definition dvd_attributes (d : DVDFields) : list (string * pyval) :=
  [ ("director", VStr (_director d)); ("_director", VStr (_director d));
    ("runtime", VInt (_runtime d)); ("_runtime", VInt (_runtime d));
    ("release_year", VInt (_release_year d)); ("_release_year", VInt (_release_year d));
    ("actors", VStrList (_actors d)); ("_actors", VStrList (_actors d)) ]%string.

(** The data attributes of an item: the properties its class defines and
    the fields [__init__] sets behind them. *)
Definition attributes (self : t) : list (string * pyval) :=
  [ ("title", VStr (_title self)); ("_title", VStr (_title self));
    ("item_id", VStr (_item_id self)); ("_item_id", VStr (_item_id self));
    ("is_checked_out", VBool (_checked_out self));
    ("_checked_out", VBool (_checked_out self));
    ("added_date", VDatetime (_added_date self));
    ("_added_date", VDatetime (_added_date self)) ]%string
  ++ match fields self with
     | Book b => book_attributes b
     | EBook b e => book_attributes b ++ ebook_attributes e
     | DVD d => dvd_attributes d
     end.

(** What else [getattr] finds on an item, by name: the methods of its
    class (bound to the item), the class attributes [__doc__] and
    [__module__], and what [object] and [ABC] give every instance
    ([__class__], [__dict__], [__weakref__], [__init__], [__eq__],
    [_abc_impl], ...).  Which names there are and what some of them hold
    (the text of [__doc__], the name in [__module__]) depends on the
    interpreter that runs the file and on how it is loaded, so this table
    is an input of the embedding.  A value that is not a number, a string,
    [None], a list of strings or a date is a [VOther]. *)
Definition class_attributes : Type := t -> string -> option pyval.

(** [getattr(item, key)], [None] when [hasattr(item, key)] is false.  A
    property or a field of the item is found first: no method or inherited
    attribute has the name of one. *)
Definition getattr (from_class : class_attributes) (self : t) (key : string)
  : option pyval :=
  match Dict.get key (attributes self) with
  | Some value => Some value
  | None => from_class self key
  end.

(** [DVD.add_actor(actor)]: the list of actors keeps its order and takes
    a name once. *)
Definition add_actor (d : DVDFields) (actor : string) : DVDFields :=
  if existsb (String.eqb actor) (_actors d) then d
  else {| _director := _director d; _runtime := _runtime d;
          _release_year := _release_year d;
          _actors := _actors d ++ [actor] |}.

End LibraryItem.

(* ------------------------------------------------------------------ *)
(** ** People: [Patron] and [Librarian] *)

Module Patron.

Record t : Type := {
  _name : string;
  _email : string;
  _person_id : string;
  _registered_date : DateTime.datetime;
  _address : string;
  _phone : string;
  _borrowed_items : Dict.dict DateTime.datetime;  (* item_id -> due_date *)
  _fine_amount : PyFloat.pyfloat
}.

Definition name (self : t) : string := _name self.
Definition person_id (self : t) : string := _person_id self.
Definition fine_amount (self : t) : PyFloat.pyfloat := _fine_amount self.
Definition borrowed_items (self : t) : Dict.dict DateTime.datetime :=
  _borrowed_items self.

(** [Patron.__init__]: nothing borrowed, nothing owed. *)
Definition init (name email address phone person_id : string)
    (now : DateTime.datetime) : t :=
  {| _name := name; _email := email; _person_id := person_id;
     _registered_date := now; _address := address; _phone := phone;
     _borrowed_items := Dict.empty; _fine_amount := PyFloat.zero |}.

Definition with_borrowed_items (self : t) (b : Dict.dict DateTime.datetime) : t :=
  {| _name := _name self; _email := _email self; _person_id := _person_id self;
     _registered_date := _registered_date self; _address := _address self;
     _phone := _phone self; _borrowed_items := b;
     _fine_amount := _fine_amount self |}.

Definition with_fine_amount (self : t) (f : PyFloat.pyfloat) : t :=
  {| _name := _name self; _email := _email self; _person_id := _person_id self;
     _registered_date := _registered_date self; _address := _address self;
     _phone := _phone self; _borrowed_items := _borrowed_items self;
     _fine_amount := f |}.

(** [borrow_item(item, due_days)].  [now] is the reading of
    [datetime.now()] for the due date.  The flag of the item is set by
    [item.check_out()] before the due date is computed, so an overflow of
    the date arithmetic leaves the item flagged and the mapping untouched. *)
Definition borrow_item (self : t) (item : LibraryItem.t) (due_days : Z)
    (now : DateTime.datetime) : outcome bool * t * LibraryItem.t :=
  if LibraryItem.is_checked_out item
     || Dict.contains (LibraryItem.item_id item) (_borrowed_items self)
  then (Returned false, self, item)
  else
    let '(ok, item1) := LibraryItem.check_out item in
    if ok then
      match DateTime.plus_days now due_days with
      | Returned due_date =>
          (Returned true,
           with_borrowed_items self
             (Dict.set (LibraryItem.item_id item1) due_date (_borrowed_items self)),
           item1)
      | Raised e => (Raised e, self, item1)
      end
    else (Returned false, self, item1).

(** [return_item(item)].  [now_cmp] is the reading compared with the due
    date, [now_days] the later reading the days late are counted from. *)
Definition return_item (self : t) (item : LibraryItem.t)
    (now_cmp now_days : DateTime.datetime)
  : (bool * PyFloat.pyfloat) * t * LibraryItem.t :=
  match Dict.get (LibraryItem.item_id item) (_borrowed_items self) with
  | None => ((false, PyFloat.zero), self, item)
  | Some due_date =>
      let self1 :=
        with_borrowed_items self
          (Dict.del (LibraryItem.item_id item) (_borrowed_items self)) in
      let item1 := snd (LibraryItem.check_in item) in
      if DateTime.gtb now_cmp due_date then
        let days_late := DateTime.days (DateTime.sub now_days due_date) in
        let fine := PyFloat.mul (PyFloat.of_int days_late) PyFloat.quarter in
        ((true, fine),
         with_fine_amount self1 (PyFloat.add (_fine_amount self1) fine),
         item1)
      else ((true, PyFloat.zero), self1, item1)
  end.

(** [pay_fine(amount)] *)
Definition pay_fine (self : t) (amount : PyFloat.pyfloat) : bool * t :=
  if PyFloat.leb amount PyFloat.zero || PyFloat.gtb amount (_fine_amount self)
  then (false, self)
  else (true, with_fine_amount self (PyFloat.sub (_fine_amount self) amount)).

End Patron.

Module Librarian.

Record t : Type := {
  _name : string;
  _email : string;
  _person_id : string;
  _registered_date : DateTime.datetime;
  _employee_id : string;
  _department : string;
  _admin_access : bool
}.

Definition person_id (self : t) : string := _person_id self.

End Librarian.

(* ------------------------------------------------------------------ *)
(** ** Observers and the subject *)

Module Observer.

(** The two observers of the example only print.  [Observer] is an abstract
    class, so any subclass may be attached; [Custom raises] is one whose
    [update(message)] raises when [raises message] holds and otherwise
    returns. *)
Inductive impl : Type :=
| EmailNotifier (email_address : string)
| SMSNotifier (phone_number : string)
| Custom (raises : string -> bool).

(** [obs_id] stands for the identity of the object: [in] and [remove] on
    the observer list compare observers by identity. *)
Record t : Type := {
  obs_id : nat;
  obs_impl : impl
}.

(** [observer.update(message)] *)
Definition update (self : t) (message : string) : outcome unit :=
  match obs_impl self with
  | EmailNotifier _ => Returned tt
  | SMSNotifier _ => Returned tt
  | Custom raises => if raises message then Raised ObserverError else Returned tt
  end.

End Observer.

(** One entry per call of [update]: the observer called and the message. *)
Definition trace : Type := list (nat * string).

Module Subject.

Definition same (a b : Observer.t) : bool :=
  Nat.eqb (Observer.obs_id a) (Observer.obs_id b).

(** [attach(observer)] *)
Definition attach (observers : list Observer.t) (observer : Observer.t)
  : list Observer.t :=
  if existsb (same observer) observers then observers
  else observers ++ [observer].

(** [list.remove]: the first equal element; a missing one is the
    [ValueError] that [detach] swallows. *)
Fixpoint remove_first (observer : Observer.t) (observers : list Observer.t)
  : list Observer.t :=
  match observers with
  | [] => []
  | o :: rest => if same o observer then rest else o :: remove_first observer rest
  end.

(** [detach(observer)] *)
Definition detach (observers : list Observer.t) (observer : Observer.t)
  : list Observer.t :=
  remove_first observer observers.

(** [notify(message)]: the loop over [self._observers].  There is no
    [try] around [observer.update]: the first exception ends the loop and
    leaves [notify]. *)
Fixpoint notify (observers : list Observer.t) (message : string)
  : outcome unit * trace :=
  match observers with
  | [] => (Returned tt, [])
  | observer :: rest =>
      match Observer.update observer message with
      | Returned _ =>
          let '(r, calls) := notify rest message in
          (r, (Observer.obs_id observer, message) :: calls)
      | Raised e => (Raised e, [(Observer.obs_id observer, message)])
      end
  end.

End Subject.

(* ------------------------------------------------------------------ *)
(** ** Transactions *)

Module Transaction.

(** The [details] dictionaries the system writes, one constructor per
    shape. *)
Inductive details : Type :=
| OfItem (item_id : string)                         (* {"item_id"} *)
| OfPatron (patron_id : string)                     (* {"patron_id"} *)
| OfLibrarian (librarian_id : string)               (* {"librarian_id"} *)
| OfCheckOut (patron_id item_id : string) (due_days : Z)
| OfReturn (patron_id item_id : string) (fine : PyFloat.pyfloat).

(** [{"timestamp": ..., "type": ..., "details": ...}]; the timestamp is
    kept as the datetime whose ISO text the code stores. *)
Record t : Type := {
  timestamp : DateTime.datetime;
  type : string;
  details_of : details
}.

(** [transaction["details"]["item_id"]] *)
Definition details_item_id (d : details) : outcome string :=
  match d with
  | OfItem i => Returned i
  | OfCheckOut _ i _ => Returned i
  | OfReturn _ i _ => Returned i
  | OfPatron _ => Raised KeyError
  | OfLibrarian _ => Raised KeyError
  end.

End Transaction.

(* ------------------------------------------------------------------ *)
(** ** The library system *)

(** [popular_items.sort(key=lambda x: x[1], reverse=True)]: Python's sort
    is stable, also under [reverse=True]; pairs with equal counts keep the
    order they had. *)
Fixpoint insert_by_count {A} (x : A * Z) (sorted : list (A * Z)) : list (A * Z) :=
  match sorted with
  | [] => [x]
  | y :: rest =>
      if snd y <=? snd x then x :: y :: rest
      else y :: insert_by_count x rest
  end.

Definition sort_by_count_desc {A} (l : list (A * Z)) : list (A * Z) :=
  fold_right insert_by_count [] l.

(** [l[:limit]]: a negative limit counts from the end of the list. *)
Definition slice_to {A} (l : list A) (limit : Z) : list A :=
  if limit <? 0
  then firstn (Z.to_nat (Z.max 0 (Z.of_nat (List.length l) + limit))) l
  else firstn (Z.to_nat limit) l.

Module LibrarySystem.

Record t : Type := {
  _name : string;
  _observers : list Observer.t;
  _items : Dict.dict LibraryItem.t;
  _patrons : Dict.dict Patron.t;
  _librarians : Dict.dict Librarian.t;
  _transaction_log : list Transaction.t
}.

(** [LibrarySystem.__init__] *)
Definition init (name : string) : t :=
  {| _name := name; _observers := []; _items := Dict.empty;
     _patrons := Dict.empty; _librarians := Dict.empty;
     _transaction_log := [] |}.

Definition with_observers (self : t) (o : list Observer.t) : t :=
  {| _name := _name self; _observers := o; _items := _items self;
     _patrons := _patrons self; _librarians := _librarians self;
     _transaction_log := _transaction_log self |}.

Definition with_items (self : t) (i : Dict.dict LibraryItem.t) : t :=
  {| _name := _name self; _observers := _observers self; _items := i;
     _patrons := _patrons self; _librarians := _librarians self;
     _transaction_log := _transaction_log self |}.

Definition with_patrons (self : t) (p : Dict.dict Patron.t) : t :=
  {| _name := _name self; _observers := _observers self; _items := _items self;
     _patrons := p; _librarians := _librarians self;
     _transaction_log := _transaction_log self |}.

Definition with_librarians (self : t) (l : Dict.dict Librarian.t) : t :=
  {| _name := _name self; _observers := _observers self; _items := _items self;
     _patrons := _patrons self; _librarians := l;
     _transaction_log := _transaction_log self |}.

Definition with_transaction_log (self : t) (l : list Transaction.t) : t :=
  {| _name := _name self; _observers := _observers self; _items := _items self;
     _patrons := _patrons self; _librarians := _librarians self;
     _transaction_log := l |}.

(** *** Methods as state transformers

    A method maps the system before the call to its outcome, the system
    after the call and the calls of [update] it caused. *)
Definition M (A : Type) : Type := t -> outcome A * t * trace.

Definition ret {A} (a : A) : M A := fun s => (Returned a, s, []).

Definition bind {A B} (m : M A) (k : A -> M B) : M B :=
  fun s =>
    let '(r, s1, calls1) := m s in
    match r with
    | Returned a =>
        let '(r2, s2, calls2) := k a s1 in
        (r2, s2, calls1 ++ calls2)
    | Raised e => (Raised e, s1, calls1)
    end.

Definition get_state : M t := fun s => (Returned s, s, []).
Definition modify (f : t -> t) : M unit := fun s => (Returned tt, f s, []).

Notation "x <- m ;; k" := (bind m (fun x => k))
  (at level 61, m at next level, right associativity).
Notation "m ;; k" := (bind m (fun _ => k))
  (at level 61, right associativity).

Definition result_of {A} (r : outcome A * t * trace) : outcome A := fst (fst r).
Definition state_of {A} (r : outcome A * t * trace) : t := snd (fst r).
Definition calls_of {A} (r : outcome A * t * trace) : trace := snd r.

(** [get_item], [get_patron], [get_librarian] *)
Definition get_item (self : t) (item_id : string) : option LibraryItem.t :=
  Dict.get item_id (_items self).
Definition get_patron (self : t) (patron_id : string) : option Patron.t :=
  Dict.get patron_id (_patrons self).
Definition get_librarian (self : t) (librarian_id : string) : option Librarian.t :=
  Dict.get librarian_id (_librarians self).

(** The object stored under a key after a method mutated it. *)
Definition store_item (item_id : string) (item : LibraryItem.t) (self : t) : t :=
  with_items self (Dict.set item_id item (_items self)).
Definition store_patron (patron_id : string) (patron : Patron.t) (self : t) : t :=
  with_patrons self (Dict.set patron_id patron (_patrons self)).

(** The system with one more record at the end of its log. *)
Definition logged (self : t) (transaction_type : string)
    (details : Transaction.details) (now : DateTime.datetime) : t :=
  with_transaction_log self
    (_transaction_log self ++
     [{| Transaction.timestamp := now;
         Transaction.type := transaction_type;
         Transaction.details_of := details |}]).

(** [_log_transaction(transaction_type, details)] *)
Definition _log_transaction (transaction_type : string)
    (details : Transaction.details) (now : DateTime.datetime) : M unit :=
  modify (fun s => logged s transaction_type details now).

(** [attach], [detach], [notify] inherited from [Subject] *)
Definition attach (observer : Observer.t) : M unit :=
  modify (fun s => with_observers s (Subject.attach (_observers s) observer)).
Definition detach (observer : Observer.t) : M unit :=
  modify (fun s => with_observers s (Subject.detach (_observers s) observer)).
Definition notify (message : string) : M unit :=
  fun s =>
    let '(r, calls) := Subject.notify (_observers s) message in
    (r, s, calls).

(** What a method that ends with a broadcast and [return a] gives its
    caller: [a], or the exception that left [notify]. *)
Definition after_notify {A} (n : outcome unit * trace) (a : A) : outcome A :=
  match fst n with
  | Returned _ => Returned a
  | Raised e => Raised e
  end.

(** [add_item(item)] *)
Definition add_item (item : LibraryItem.t) (now : DateTime.datetime) : M bool :=
  s <- get_state ;;
  if Dict.contains (LibraryItem.item_id item) (_items s) then ret false
  else
    modify (fun s => with_items s (Dict.set (LibraryItem.item_id item) item (_items s))) ;;
    _log_transaction "add_item" (Transaction.OfItem (LibraryItem.item_id item)) now ;;
    notify ("New item added: " ++ LibraryItem.title item)%string ;;
    ret true.

(** [remove_item(item_id)] *)
Definition remove_item (item_id : string) (now : DateTime.datetime) : M bool :=
  s <- get_state ;;
  match Dict.get item_id (_items s) with
  | None => ret false
  | Some item =>
      if LibraryItem.is_checked_out item then ret false
      else
        modify (fun s => with_items s (Dict.del item_id (_items s))) ;;
        _log_transaction "remove_item" (Transaction.OfItem item_id) now ;;
        notify ("Item removed: " ++ LibraryItem.title item)%string ;;
        ret true
  end.

(** [register_patron(patron)] *)
Definition register_patron (patron : Patron.t) (now : DateTime.datetime) : M bool :=
  s <- get_state ;;
  if Dict.contains (Patron.person_id patron) (_patrons s) then ret false
  else
    modify (fun s => with_patrons s (Dict.set (Patron.person_id patron) patron (_patrons s))) ;;
    _log_transaction "register_patron" (Transaction.OfPatron (Patron.person_id patron)) now ;;
    notify ("New patron registered: " ++ Patron.name patron)%string ;;
    ret true.

(** [add_librarian(librarian)]: logged, not broadcast. *)
Definition add_librarian (librarian : Librarian.t) (now : DateTime.datetime) : M bool :=
  s <- get_state ;;
  if Dict.contains (Librarian.person_id librarian) (_librarians s) then ret false
  else
    modify (fun s =>
      with_librarians s
        (Dict.set (Librarian.person_id librarian) librarian (_librarians s))) ;;
    _log_transaction "add_librarian"
      (Transaction.OfLibrarian (Librarian.person_id librarian)) now ;;
    ret true.

(** [patron.borrow_item(item, due_days)] on the two objects looked up
    under [patron_id] and [item_id]; what the method did to them is seen
    in the dictionaries, also when it raised. *)
Definition call_borrow_item (patron_id item_id : string) (patron : Patron.t)
    (item : LibraryItem.t) (due_days : Z) (now : DateTime.datetime) : M bool :=
  fun s =>
    let '(r, patron1, item1) := Patron.borrow_item patron item due_days now in
    (r, store_item item_id item1 (store_patron patron_id patron1 s), []).

(** [patron.return_item(item)], likewise. *)
Definition call_return_item (patron_id item_id : string) (patron : Patron.t)
    (item : LibraryItem.t) (now_cmp now_days : DateTime.datetime)
  : M (bool * PyFloat.pyfloat) :=
  fun s =>
    let '(r, patron1, item1) := Patron.return_item patron item now_cmp now_days in
    (Returned r, store_item item_id item1 (store_patron patron_id patron1 s), []).

(** [check_out_item(patron_id, item_id, due_days)]; [now_due] is the
    reading the due date is computed from, [now_log] the one of the log. *)
Definition check_out_item (patron_id item_id : string) (due_days : Z)
    (now_due now_log : DateTime.datetime) : M bool :=
  s <- get_state ;;
  match get_patron s patron_id, get_item s item_id with
  | Some patron, Some item =>
      borrowed <- call_borrow_item patron_id item_id patron item due_days now_due ;;
      if borrowed : bool then
        _log_transaction "check_out"
          (Transaction.OfCheckOut patron_id item_id due_days) now_log ;;
        notify (Patron.name patron ++ " has borrowed: " ++ LibraryItem.title item)%string ;;
        ret true
      else ret false
  | _, _ => ret false
  end.

(** The message of a return: the fee is named when it is positive. *)
Definition return_message (patron : Patron.t) (item : LibraryItem.t)
    (fine : PyFloat.pyfloat) : string :=
  let message := (Patron.name patron ++ " has returned: " ++ LibraryItem.title item)%string in
  if PyFloat.gtb fine PyFloat.zero
  then (message ++ " with a late fee of $" ++ PyFloat.format_2f fine)%string
  else message.

(** [return_item(patron_id, item_id)] *)
Definition return_item (patron_id item_id : string)
    (now_cmp now_days now_log : DateTime.datetime) : M (bool * PyFloat.pyfloat) :=
  s <- get_state ;;
  match get_patron s patron_id, get_item s item_id with
  | Some patron, Some item =>
      r <- call_return_item patron_id item_id patron item now_cmp now_days ;;
      let '(success, fine) := r in
      if success : bool then
        _log_transaction "return_item"
          (Transaction.OfReturn patron_id item_id fine) now_log ;;
        notify (return_message patron item fine) ;;
        ret (true, fine)
      else ret (false, PyFloat.zero)
  | _, _ => ret (false, PyFloat.zero)
  end.

(** *** Search *)

(** The loop over [kwargs.items()] for one item: [false] is a [break]
    with [match = False].  [from_class] is what [hasattr] and [getattr]
    find on an item beside its properties and fields. *)
Fixpoint criteria_match (from_class : LibraryItem.class_attributes)
    (item : LibraryItem.t) (kwargs : list (string * pyval)) : bool :=
  match kwargs with
  | [] => true
  | (key, value) :: rest =>
      if String.eqb key "checked_out" then
        if py_ne (VBool (LibraryItem.is_checked_out item)) value then false
        else criteria_match from_class item rest
      else
        match LibraryItem.getattr from_class item key with
        | Some item_value =>
            match item_value, value with
            | VStr item_text, VStr text =>
                (* isinstance(item_value, str) and isinstance(value, str) *)
                if negb (Str.contains (Str.lower text) (Str.lower item_text))
                then false
                else criteria_match from_class item rest
            | _, _ =>
                if py_ne item_value value then false
                else criteria_match from_class item rest
            end
        | None => false
        end
  end.

(** [search_items] with its keyword arguments *)
Definition search_items (from_class : LibraryItem.class_attributes) (self : t)
    (kwargs : list (string * pyval)) : list LibraryItem.t :=
  filter (fun item => criteria_match from_class item kwargs)
         (Dict.values (_items self)).

(** *** Analytics *)

Definition get_checked_out_items (self : t) : list LibraryItem.t :=
  filter LibraryItem.is_checked_out (Dict.values (_items self)).

Definition get_available_items (self : t) : list LibraryItem.t :=
  filter (fun item => negb (LibraryItem.is_checked_out item)) (Dict.values (_items self)).

(** The first loop of [get_popular_items]: the counting pass over the
    transaction log. *)
Fixpoint count_checkouts (log : list Transaction.t) (checkout_counts : Dict.dict Z)
  : outcome (Dict.dict Z) :=
  match log with
  | [] => Returned checkout_counts
  | transaction :: rest =>
      if String.eqb (Transaction.type transaction) "check_out" then
        match Transaction.details_item_id (Transaction.details_of transaction) with
        | Returned item_id =>
            let seen :=
              match Dict.get item_id checkout_counts with
              | Some n => n
              | None => 0
              end in
            count_checkouts rest (Dict.set item_id (seen + 1) checkout_counts)
        | Raised e => Raised e
        end
      else count_checkouts rest checkout_counts
  end.

(** The second loop: the counted ids that [get_item] still finds. *)
Fixpoint collect_popular (self : t) (counts : list (string * Z))
  : list (LibraryItem.t * Z) :=
  match counts with
  | [] => []
  | (item_id, count) :: rest =>
      match get_item self item_id with
      | Some item => (item, count) :: collect_popular self rest
      | None => collect_popular self rest
      end
  end.

(** [get_popular_items(limit)] *)
Definition get_popular_items (self : t) (limit : Z)
  : outcome (list (LibraryItem.t * Z)) :=
  bind_outcome (count_checkouts (_transaction_log self) Dict.empty)
    (fun checkout_counts =>
       Returned
         (slice_to
            (sort_by_count_desc (collect_popular self (Dict.items checkout_counts)))
            limit)).

(** The inner loop of [get_overdue_items]: the loans of one patron that
    are due before [now] and whose item [get_item] finds. *)
Fixpoint patron_overdue (self : t) (now : DateTime.datetime)
    (borrowed : list (string * DateTime.datetime))
  : list (LibraryItem.t * DateTime.datetime) :=
  match borrowed with
  | [] => []
  | (item_id, due_date) :: rest =>
      if DateTime.gtb now due_date then
        match get_item self item_id with
        | Some item => (item, due_date) :: patron_overdue self now rest
        | None => patron_overdue self now rest
        end
      else patron_overdue self now rest
  end.

(** The outer loop: a patron gets an entry only for a list that is not
    empty. *)
Fixpoint collect_overdue (self : t) (now : DateTime.datetime)
    (patrons : list (string * Patron.t))
    (overdue_items : Dict.dict (list (LibraryItem.t * DateTime.datetime)))
  : Dict.dict (list (LibraryItem.t * DateTime.datetime)) :=
  match patrons with
  | [] => overdue_items
  | (patron_id, patron) :: rest =>
      match patron_overdue self now (Dict.items (Patron.borrowed_items patron)) with
      | [] => collect_overdue self now rest overdue_items
      | first :: others =>
          collect_overdue self now rest
            (Dict.set patron_id (first :: others) overdue_items)
      end
  end.

(** [get_overdue_items()]; [now] is the one reading of the clock the
    method takes. *)
Definition get_overdue_items (self : t) (now : DateTime.datetime)
  : Dict.dict (list (LibraryItem.t * DateTime.datetime)) :=
  collect_overdue self now (Dict.items (_patrons self)) Dict.empty.

End LibrarySystem.

(* ------------------------------------------------------------------ *)
(** ** Reachable states

    The states a client reaches from a new [LibrarySystem] through its
    public operations.  The items and patrons handed to [add_item] and
    [register_patron] are as their constructors build them (an item taken
    out of the catalog earlier is in that state again: [remove_item] only
    removes items that are not checked out).  [step_pay_fine] is
    [get_patron(patron_id).pay_fine(amount)]: the patron object is the one
    the registry holds.  A call that raises still moves the system to the
    state it had reached. *)

Module Reach.
Import LibrarySystem.

(** The exception a call ended with, if any. *)
Definition raised {A} (r : outcome A * t * trace) : option exn :=
  match result_of r with
  | Returned _ => None
  | Raised e => Some e
  end.

(** [step s e s']: one call takes the system from [s] to [s'] and ends
    with the exception [e], or returns when [e] is [None]. *)
Inductive step (s : t) : option exn -> t -> Prop :=
| step_attach observer :
    step s (raised (attach observer s)) (state_of (attach observer s))
| step_detach observer :
    step s (raised (detach observer s)) (state_of (detach observer s))
| step_add_item title item_id added fields now :
    step s
      (raised (add_item (LibraryItem.init title item_id added fields) now s))
      (state_of (add_item (LibraryItem.init title item_id added fields) now s))
| step_remove_item item_id now :
    step s (raised (remove_item item_id now s))
           (state_of (remove_item item_id now s))
| step_register_patron name email address phone person_id registered now :
    step s
      (raised (register_patron
                 (Patron.init name email address phone person_id registered)
                 now s))
      (state_of (register_patron
                   (Patron.init name email address phone person_id registered)
                   now s))
| step_add_librarian librarian now :
    step s (raised (add_librarian librarian now s))
           (state_of (add_librarian librarian now s))
| step_check_out_item patron_id item_id due_days now_due now_log :
    step s
      (raised (check_out_item patron_id item_id due_days now_due now_log s))
      (state_of (check_out_item patron_id item_id due_days now_due now_log s))
| step_return_item patron_id item_id now_cmp now_days now_log :
    step s
      (raised (return_item patron_id item_id now_cmp now_days now_log s))
      (state_of (return_item patron_id item_id now_cmp now_days now_log s))
| step_pay_fine patron_id patron amount :
    get_patron s patron_id = Some patron ->
    step s None (store_patron patron_id (snd (Patron.pay_fine patron amount)) s).

Inductive reachable : t -> Prop :=
| reachable_init name : reachable (init name)
| reachable_step s e s' : reachable s -> step s e s' -> reachable s'.

(** The states reached by calls none of which ended with an
    [OverflowError]. *)
Inductive reachable_without_overflow : t -> Prop :=
| calm_init name : reachable_without_overflow (init name)
| calm_step s e s' :
    reachable_without_overflow s -> step s e s' ->
    e <> Some OverflowError ->
    reachable_without_overflow s'.

End Reach.

(* ------------------------------------------------------------------ *)
(** ** Vocabulary of the properties *)

Module Props.
Import LibrarySystem.

(** The registered patrons whose borrowed mapping has [item_id] as a key. *)
Definition holders (s : t) (item_id : string) : list string :=
  Dict.keys
    (filter (fun entry => Dict.contains item_id (Patron.borrowed_items (snd entry)))
            (_patrons s)).

(** The loan invariant of the data model: a catalog item is flagged as
    checked out exactly when one registered patron holds its id. *)
Definition loan_invariant (s : t) : Prop :=
  forall item_id item,
    get_item s item_id = Some item ->
    (LibraryItem.is_checked_out item = true <->
     List.length (holders s (LibraryItem.item_id item)) = 1%nat).

(** Every flagged catalog item is in the mapping of a registered patron. *)
Definition flag_held (s : t) : Prop :=
  forall item_id item,
    get_item s item_id = Some item ->
    LibraryItem.is_checked_out item = true ->
    exists k p,
      get_patron s k = Some p /\
      Dict.contains item_id (Patron.borrowed_items p) = true.

(** What holds in every reachable state, overflow or not. *)
Record consistent (s : t) : Prop := {
  items_wf : Dict.wf (_items s);
  patrons_wf : Dict.wf (_patrons s);
  item_keys : forall k item, get_item s k = Some item -> LibraryItem.item_id item = k;
  patron_keys : forall k p, get_patron s k = Some p -> Patron.person_id p = k;
  borrowed_wf : forall k p, get_patron s k = Some p -> Dict.wf (Patron.borrowed_items p);
  borrowed_flagged :
    forall k p item_id,
      get_patron s k = Some p ->
      Dict.contains item_id (Patron.borrowed_items p) = true ->
      exists item,
        get_item s item_id = Some item /\ LibraryItem.is_checked_out item = true;
  one_holder :
    forall k1 p1 k2 p2 item_id,
      get_patron s k1 = Some p1 -> get_patron s k2 = Some p2 ->
      Dict.contains item_id (Patron.borrowed_items p1) = true ->
      Dict.contains item_id (Patron.borrowed_items p2) = true ->
      k1 = k2;
  log_wf :
    forall tr,
      In tr (_transaction_log s) ->
      Transaction.type tr = "check_out"%string ->
      exists patron_id item_id due_days,
        Transaction.details_of tr = Transaction.OfCheckOut patron_id item_id due_days
}.

(** *** Notification *)

(** Every observer of the list is called with the message, in order. *)
Definition all_called (observers : list Observer.t) (message : string) : trace :=
  map (fun o => (Observer.obs_id o, message)) observers.

(** The observers up to and including the first whose [update] raises. *)
Fixpoint up_to_first_failure (observers : list Observer.t) (message : string)
  : list Observer.t :=
  match observers with
  | [] => []
  | o :: rest =>
      match Observer.update o message with
      | Returned _ => o :: up_to_first_failure rest message
      | Raised _ => [o]
      end
  end.

Definition accepts (message : string) (o : Observer.t) : Prop :=
  Observer.update o message = Returned tt.

(** *** Search *)

(** [up] is one of the capital letters A to Z and [low] is its small
    letter, 32 places further in the ASCII table. *)
Definition capital_of (low up : ascii) : Prop :=
  (65 <= nat_of_ascii up <= 90)%nat /\
  nat_of_ascii low = (nat_of_ascii up + 32)%nat.

(** Two characters that are the same when case is ignored. *)
Definition same_letter (a b : ascii) : Prop :=
  a = b \/ capital_of a b \/ capital_of b a.

(** Two strings that are the same, character by character, when case is
    ignored. *)
Inductive same_text : string -> string -> Prop :=
| same_text_empty : same_text EmptyString EmptyString
| same_text_letter a b s t :
    same_letter a b -> same_text s t -> same_text (String a s) (String b t).

(** [text] occurs in [item_text] when case is ignored: some contiguous
    part of [item_text] is [text] up to case. *)
Definition ci_substring (text item_text : string) : Prop :=
  exists before part after,
    item_text = (before ++ part ++ after)%string /\ same_text text part.

(** One criterion of a search, as the specification words it. *)
Definition criterion_holds (from_class : LibraryItem.class_attributes)
    (item : LibraryItem.t) (key : string) (value : pyval) : Prop :=
  if String.eqb key "checked_out"
  then py_eq (VBool (LibraryItem.is_checked_out item)) value = true
  else match LibraryItem.getattr from_class item key with
       | None => False
       | Some (VStr item_text) =>
           match value with
           | VStr text => ci_substring text item_text
           | _ => False
           end
       | Some item_value => py_eq item_value value = true
       end.

(** *** Popularity *)

(** The item ids of the "check_out" records, oldest first. *)
Fixpoint checkout_ids (log : list Transaction.t) : list string :=
  match log with
  | [] => []
  | tr :: rest =>
      if String.eqb (Transaction.type tr) "check_out" then
        match Transaction.details_of tr with
        | Transaction.OfCheckOut _ item_id _ => item_id :: checkout_ids rest
        | _ => checkout_ids rest
        end
      else checkout_ids rest
  end.

(** How many "check_out" records name [item_id]. *)
Definition times_checked_out (log : list Transaction.t) (item_id : string) : Z :=
  Z.of_nat (count_occ string_dec (checkout_ids log) item_id).

(** [checkout_counts.get(item_id, 0)] *)
Definition count_of (item_id : string) (counts : Dict.dict Z) : Z :=
  match Dict.get item_id counts with
  | Some n => n
  | None => 0
  end.

(** The counting pass over a list of ids. *)
Fixpoint tally (ids : list string) (counts : Dict.dict Z) : Dict.dict Z :=
  match ids with
  | [] => counts
  | item_id :: rest =>
      tally rest (Dict.set item_id (count_of item_id counts + 1) counts)
  end.

(** The distinct elements of a list in the order of their first occurrence. *)
Fixpoint first_occurrences (l : list string) : list string :=
  match l with
  | [] => []
  | x :: rest => x :: filter (fun y => negb (String.eqb y x)) (first_occurrences rest)
  end.

(** The pairs to rank: every counted id the catalog still has, with the
    item found under it and its count, in first-encounter order. *)
Definition candidates (s : t) : list (LibraryItem.t * Z) :=
  flat_map
    (fun item_id =>
       match get_item s item_id with
       | Some item => [(item, times_checked_out (_transaction_log s) item_id)]
       | None => []
       end)
    (first_occurrences (checkout_ids (_transaction_log s))).

Definition count_is {A} (c : Z) (p : A * Z) : bool := snd p =? c.

(** [output] is [input] sorted by descending count, pairs of equal count
    keeping the order they have in [input]. *)
Definition stable_desc_sort {A} (input output : list (A * Z)) : Prop :=
  Permutation input output /\
  StronglySorted (fun p q => snd q <= snd p) output /\
  forall c, filter (count_is c) output = filter (count_is c) input.

End Props.

(* ------------------------------------------------------------------ *)
(** ** A small library, after the demonstration in [main] *)

Module Sample.
Import LibrarySystem.

Definition DAY : Z := DateTime.US_PER_DAY.

(** The start of day 740000 of the calendar (a day in the 2020s). *)
Definition t0 : DateTime.datetime := 740000 * DAY.

Definition book1 : LibraryItem.t :=
  LibraryItem.init "Python Programming" "B1" t0
    (LibraryItem.Book
       {| LibraryItem._author := "John Smith";
          LibraryItem._isbn := "978-1234567890";
          LibraryItem._pages := 350;
          LibraryItem._publisher := "Tech Books";
          LibraryItem._year := 2020;
          LibraryItem._genre := Some "Computer Science"%string |}).

Definition dvd1 : LibraryItem.t :=
  LibraryItem.init "The Python Documentary" "D1" t0
    (LibraryItem.DVD
       {| LibraryItem._director := "Alice Brown";
          LibraryItem._runtime := 120;
          LibraryItem._release_year := 2018;
          LibraryItem._actors := ["David Python"; "Sarah Coder"]%string |}).

Definition patron1 : Patron.t :=
  Patron.init "Michael Johnson" "michael@example.com" "123 Main St" "555-1234"
    "P1" t0.

Definition patron2 : Patron.t :=
  Patron.init "Emily Davis" "emily@example.com" "456 Oak Ave" "555-5678"
    "P2" t0.

Definition email_notifier : Observer.t :=
  {| Observer.obs_id := 1;
     Observer.obs_impl := Observer.EmailNotifier "admin@library.com" |}.

Definition sms_notifier : Observer.t :=
  {| Observer.obs_id := 2;
     Observer.obs_impl := Observer.SMSNotifier "555-ADMIN" |}.

(** The library with two observers, two items and two patrons. *)
Definition setup : M bool :=
  attach email_notifier ;;
  attach sms_notifier ;;
  add_item book1 t0 ;;
  add_item dvd1 t0 ;;
  register_patron patron1 t0 ;;
  register_patron patron2 t0.

Definition library0 : t := state_of (setup (init "City Public Library")).

(** Michael has borrowed the book for fourteen days. *)
Definition library1 : t :=
  state_of (check_out_item "P1" "B1" 14 t0 t0 library0).

(** A loan of a thousand million days: [timedelta] refuses it. *)
Definition library_overflow : t :=
  state_of (check_out_item "P1" "B1" 1000000000 t0 t0 library0).

(** The book is borrowed three times and the DVD once, every loan
    returned on time; then the book is taken out of the catalog. *)
Definition loans : M bool :=
  check_out_item "P1" "B1" 14 t0 t0 ;;
  return_item "P1" "B1" t0 t0 t0 ;;
  check_out_item "P2" "D1" 14 t0 t0 ;;
  return_item "P2" "D1" t0 t0 t0 ;;
  check_out_item "P2" "B1" 14 t0 t0 ;;
  return_item "P2" "B1" t0 t0 t0 ;;
  check_out_item "P1" "B1" 14 t0 t0 ;;
  x <- return_item "P1" "B1" t0 t0 t0 ;;
  ret (fst x).

Definition library_loans : t := state_of (loans library0).

Definition library_removed : t := state_of (remove_item "B1" t0 library_loans).

(** Twenty days after Michael borrowed the book for fourteen. *)
Definition t20 : DateTime.datetime := t0 + 20 * DAY.

(** A sink that refuses every message. *)
Definition failing_sink : Observer.t :=
  {| Observer.obs_id := 3;
     Observer.obs_impl := Observer.Custom (fun _ => true) |}.

Definition newline : string := String (ascii_of_nat 10) EmptyString.

(** The docstrings of the three concrete classes, as the file writes
    them. *)
Definition docstring (item : LibraryItem.t) : string :=
  match LibraryItem.fields item with
  | LibraryItem.Book _ =>
      newline ++ "    Represents a physical book in the library."
      ++ newline ++ "    "
  | LibraryItem.EBook _ _ =>
      newline ++ "    Represents an electronic book in the library."
      ++ newline ++ "    Inherits from Book but adds file format and size."
      ++ newline ++ "    "
  | LibraryItem.DVD _ =>
      newline ++ "    Represents a DVD in the library."
      ++ newline ++ "    "
  end%string.

(** A table of class attributes for the examples: [__doc__] and
    [__weakref__] (which is [None] while nothing refers weakly to the
    item); the examples ask for no other name of the kind. *)
Definition from_class : LibraryItem.class_attributes :=
  fun item key =>
    if String.eqb key "__doc__" then Some (VStr (docstring item))
    else if String.eqb key "__weakref__" then Some VNone
    else None.

End Sample.

(* ================================================================== *)
(** * Part II: properties *)

(* ------------------------------------------------------------------ *)
(** ** Dictionaries *)

Module DictFacts.
Import Dict.

Section Facts.
Context {V : Type}.
Implicit Types (d : dict V) (k : string) (v : V).

Lemma get_set_eq k v d : get k (set k v d) = Some v.
Proof.
  induction d as [|[k' v'] rest IH]; simpl.
  - now rewrite String.eqb_refl.
  - destruct (String.eqb k' k) eqn:E; simpl.
    + now rewrite String.eqb_refl.
    + now rewrite E.
Qed.

Lemma get_set_ne k k' v d : k <> k' -> get k' (set k v d) = get k' d.
Proof.
  intros Hne. induction d as [|[k0 v0] rest IH]; simpl.
  - apply String.eqb_neq in Hne. now rewrite Hne.
  - destruct (String.eqb k0 k) eqn:E; simpl.
    + apply String.eqb_eq in E. subst k0.
      apply String.eqb_neq in Hne. now rewrite Hne.
    + now rewrite IH.
Qed.

Lemma set_same k v d : get k d = Some v -> set k v d = d.
Proof.
  induction d as [|[k0 v0] rest IH]; simpl; [discriminate|].
  destruct (String.eqb k0 k) eqn:E.
  - apply String.eqb_eq in E. now intros [= ->]; subst.
  - intros H. now rewrite IH.
Qed.

Lemma get_del_ne k k' d : k <> k' -> get k' (del k d) = get k' d.
Proof.
  intros Hne. induction d as [|[k0 v0] rest IH]; simpl; [reflexivity|].
  destruct (String.eqb k0 k) eqn:E; simpl.
  - apply String.eqb_eq in E. subst k0.
    apply String.eqb_neq in Hne. now rewrite Hne.
  - now rewrite IH.
Qed.

Lemma contains_keys k d : contains k d = true <-> In k (keys d).
Proof.
  unfold contains. induction d as [|[k0 v0] rest IH]; simpl.
  - split; [discriminate | contradiction].
  - destruct (String.eqb k0 k) eqn:E.
    + apply String.eqb_eq in E. tauto.
    + apply String.eqb_neq in E. rewrite IH. tauto.
Qed.

Lemma get_None_keys k d : get k d = None <-> ~ In k (keys d).
Proof.
  rewrite <- contains_keys. unfold contains.
  destruct (get k d); split; intros H; try reflexivity; try discriminate.
  - now destruct H.
Qed.

Lemma get_Some_keys k v d : get k d = Some v -> In k (keys d).
Proof.
  intros H. apply contains_keys. unfold contains. now rewrite H.
Qed.

Lemma get_del_eq k d : wf d -> get k (del k d) = None.
Proof.
  unfold wf. induction d as [|[k0 v0] rest IH]; simpl; [reflexivity|].
  intros Hnd. inversion Hnd as [|? ? Hnotin Hrest]; subst.
  destruct (String.eqb k0 k) eqn:E; simpl.
  - apply String.eqb_eq in E. subst k0. now apply get_None_keys.
  - rewrite E. now apply IH.
Qed.

Lemma keys_set k v d :
  keys (set k v d) = if contains k d then keys d else keys d ++ [k].
Proof.
  unfold contains. induction d as [|[k0 v0] rest IH]; simpl; [reflexivity|].
  destruct (String.eqb k0 k) eqn:E; simpl.
  - apply String.eqb_eq in E. now subst.
  - rewrite IH. now destruct (get k rest).
Qed.

Lemma keys_del_incl k d : incl (keys (del k d)) (keys d).
Proof.
  induction d as [|[k0 v0] rest IH]; simpl; [easy|].
  destruct (String.eqb k0 k); simpl.
  - now apply incl_tl.
  - intros x [->|Hx]; [now left | right; now apply IH].
Qed.

Lemma wf_set k v d : wf d -> wf (set k v d).
Proof.
  unfold wf. intros Hnd. rewrite keys_set.
  destruct (contains k d) eqn:E; [assumption|].
  apply NoDup_app; [assumption | repeat constructor; easy |].
  intros x Hx [<-|[]].
  apply contains_keys in Hx. congruence.
Qed.

Lemma wf_del k d : wf d -> wf (del k d).
Proof.
  unfold wf. induction d as [|[k0 v0] rest IH]; simpl; [easy|].
  intros Hnd. inversion Hnd as [|? ? Hnotin Hrest]; subst.
  destruct (String.eqb k0 k); simpl; [assumption|].
  constructor; [|now apply IH].
  intros Hin. apply Hnotin. now apply (keys_del_incl k rest).
Qed.

Lemma get_In k v d : get k d = Some v -> In (k, v) d.
Proof.
  induction d as [|[k0 v0] rest IH]; simpl; [discriminate|].
  destruct (String.eqb k0 k) eqn:E.
  - apply String.eqb_eq in E. intros [= ->]. subst. now left.
  - intros H. right. now apply IH.
Qed.

Lemma In_get k v d : wf d -> In (k, v) d -> get k d = Some v.
Proof.
  unfold wf. induction d as [|[k0 v0] rest IH]; simpl; [easy|].
  intros Hnd. inversion Hnd as [|? ? Hnotin Hrest]; subst.
  intros [[= -> ->]|Hin].
  - now rewrite String.eqb_refl.
  - destruct (String.eqb k0 k) eqn:E.
    + apply String.eqb_eq in E. subst k0. exfalso. apply Hnotin.
      change k with (fst (k, v)). now apply in_map.
    + now apply IH.
Qed.



Lemma contains_set k k' v d :
  contains k' (set k v d) = String.eqb k k' || contains k' d.
Proof.
  unfold contains. destruct (String.eqb k k') eqn:E.
  - apply String.eqb_eq in E. subst. now rewrite get_set_eq.
  - apply String.eqb_neq in E. now rewrite get_set_ne.
Qed.

Lemma contains_del_imp k k' d :
  contains k' (del k d) = true -> contains k' d = true.
Proof.
  rewrite !contains_keys. apply keys_del_incl.
Qed.

Lemma contains_del_eq k d : wf d -> contains k (del k d) = false.
Proof.
  intros H. unfold contains. now rewrite get_del_eq.
Qed.

Lemma contains_false_get k d : contains k d = false <-> get k d = None.
Proof.
  unfold contains. destruct (get k d); split; congruence.
Qed.

Lemma contains_true_get k d : contains k d = true <-> exists v, get k d = Some v.
Proof.
  unfold contains. destruct (get k d) as [v|]; split.
  - intros _. now exists v.
  - reflexivity.
  - discriminate.
  - intros [v H]. discriminate.
Qed.

Lemma contains_del_ne k k' d : k <> k' -> contains k' (del k d) = contains k' d.
Proof.
  intros H. unfold contains. now rewrite get_del_ne.
Qed.

Lemma keys_filter_NoDup (f : string * V -> bool) d : wf d -> wf (filter f d).
Proof.
  unfold wf, keys. induction d as [|[k v] rest IH]; simpl; [easy|].
  intros Hnd. inversion Hnd as [|? ? Hnotin Hrest]; subst.
  destruct (f (k, v)); simpl; [|now apply IH].
  constructor; [|now apply IH].
  intros Hin. apply Hnotin.
  apply in_map_iff in Hin. destruct Hin as [[k' v'] [Hk Hin]].
  apply filter_In in Hin. destruct Hin as [Hin _].
  simpl in Hk. subst k'. change k with (fst (k, v')). now apply in_map.
Qed.

End Facts.

End DictFacts.

(* ------------------------------------------------------------------ *)
(** ** Dates and amounts *)

Lemma plus_days_Returned now d t :
  DateTime.plus_days now d = Returned t ->
  t = now + d * DateTime.US_PER_DAY /\
  Z.abs d <= DateTime.MAX_DELTA_DAYS /\ 0 <= t <= DateTime.datetime_max.
Proof.
  unfold DateTime.plus_days, DateTime.timedelta_of_days, DateTime.add, bind_outcome.
  destruct (DateTime.MAX_DELTA_DAYS <? Z.abs d) eqn:Hd; [discriminate|].
  destruct (now + d * DateTime.US_PER_DAY <? 0) eqn:Hlo; [discriminate|].
  destruct (DateTime.datetime_max <? now + d * DateTime.US_PER_DAY) eqn:Hhi;
    [discriminate|].
  intros [= <-].
  apply Z.ltb_ge in Hd, Hlo, Hhi. repeat split; assumption.
Qed.

Lemma plus_days_in_range now d :
  Z.abs d <= DateTime.MAX_DELTA_DAYS ->
  0 <= now + d * DateTime.US_PER_DAY <= DateTime.datetime_max ->
  DateTime.plus_days now d = Returned (now + d * DateTime.US_PER_DAY).
Proof.
  intros Hd [Hlo Hhi].
  unfold DateTime.plus_days, DateTime.timedelta_of_days, DateTime.add, bind_outcome.
  apply Z.ltb_ge in Hd. rewrite Hd.
  apply Z.ltb_ge in Hlo, Hhi. rewrite Hlo, Hhi. reflexivity.
Qed.

Lemma plus_days_too_many now d :
  DateTime.MAX_DELTA_DAYS < Z.abs d ->
  DateTime.plus_days now d = Raised OverflowError.
Proof.
  intros Hd. unfold DateTime.plus_days, DateTime.timedelta_of_days, bind_outcome.
  apply Z.ltb_lt in Hd. now rewrite Hd.
Qed.


(* ------------------------------------------------------------------ *)
(** ** Notification (C2) *)

Lemma notify_all_accept observers message :
  Forall (Props.accepts message) observers ->
  Subject.notify observers message
  = (Returned tt, Props.all_called observers message).
Proof.
  induction 1 as [|o rest Ho _ IH]; simpl; [reflexivity|].
  unfold Props.accepts in Ho. now rewrite Ho, IH.
Qed.

Lemma notify_app_accept before rest message :
  Forall (Props.accepts message) before ->
  Subject.notify (before ++ rest) message
  = (fst (Subject.notify rest message),
     Props.all_called before message ++ snd (Subject.notify rest message)).
Proof.
  induction 1 as [|o before' Ho _ IH]; simpl.
  - now destruct (Subject.notify rest message).
  - unfold Props.accepts in Ho. now rewrite Ho, IH.
Qed.

(** C2, as stated, fails: with a sink whose [update] raises subscribed
    before a second sink, a broadcast calls the first sink only; the second
    never receives the message. *)
Lemma notify_skips_sinks_after_failure :
  let failing := {| Observer.obs_id := 1;
                    Observer.obs_impl := Observer.Custom (fun _ => true) |} in
  let email := {| Observer.obs_id := 2;
                  Observer.obs_impl := Observer.EmailNotifier "admin@library.com" |} in
  Subject.notify [failing; email] "New item added: X"
  = (Raised ObserverError, [(1%nat, "New item added: X"%string)]) /\
  snd (Subject.notify [failing; email] "New item added: X")
  <> Props.all_called [failing; email] "New item added: X".
Proof.
  split; [reflexivity | discriminate].
Qed.

(** C2, amended: a broadcast calls the subscribed sinks in subscription
    order for as long as they accept the message.  When all of them do,
    every sink is called once and [notify] returns.  When one raises,
    the sinks before it and that sink have been called, the exception
    leaves [notify], and no sink subscribed after it is called. *)
Theorem notify_until_first_failure :
  forall (before after : list Observer.t) (message : string),
    Forall (Props.accepts message) before ->
    Subject.notify before message
    = (Returned tt, Props.all_called before message) /\
    (forall o e,
       Observer.update o message = Raised e ->
       Subject.notify (before ++ o :: after) message
       = (Raised e, Props.all_called (before ++ [o]) message)).
Proof.
  intros before after message Hacc. split.
  - now apply notify_all_accept.
  - intros o e Hraise. rewrite notify_app_accept by assumption.
    simpl. rewrite Hraise. simpl.
    unfold Props.all_called. now rewrite map_app.
Qed.

Lemma notify_until_first_failure_witness :
  let email := {| Observer.obs_id := 1;
                  Observer.obs_impl := Observer.EmailNotifier "admin@library.com" |} in
  let failing := {| Observer.obs_id := 2;
                    Observer.obs_impl := Observer.Custom (fun _ => true) |} in
  let sms := {| Observer.obs_id := 3;
                Observer.obs_impl := Observer.SMSNotifier "555-ADMIN" |} in
  Subject.notify [email] "hello" = (Returned tt, [(1%nat, "hello"%string)]) /\
  Subject.notify [email; failing; sms] "hello"
  = (Raised ObserverError, [(1%nat, "hello"%string); (2%nat, "hello"%string)]).
Proof.
  intros email failing sms.
  assert (Hacc : Forall (Props.accepts "hello") [email])
    by (repeat constructor).
  destruct (notify_until_first_failure [email] [sms] "hello" Hacc) as [H1 H2].
  split.
  - exact H1.
  - exact (H2 failing ObserverError eq_refl).
Defined.

(* ------------------------------------------------------------------ *)
(** ** Late fees (C3) *)



(* ------------------------------------------------------------------ *)
(** ** Paying a fine (C9) *)

(** C9 does not hold of the code: [pay_fine] accepts a payment of NaN.
    The guard [amount <= 0 or amount > self._fine_amount] is there to let
    through only an amount that is strictly positive and not above the
    fine, but both comparisons are false for NaN.  So for every patron,
    whatever is owed, [pay_fine(nan)] returns [True] although NaN is not
    strictly positive and is not at most the fine, and the accumulated
    fine is NaN afterwards.  It stays NaN for good: whatever is paid
    later the fine is still NaN, and every later payment of a positive
    amount, however large, is accepted. *)
Theorem pay_fine_accepts_nan :
  forall (p : Patron.t),
    let p' := snd (Patron.pay_fine p PyFloat.NaN) in
    PyFloat.ltb PyFloat.zero PyFloat.NaN = false /\
    PyFloat.leb PyFloat.NaN (Patron.fine_amount p) = false /\
    fst (Patron.pay_fine p PyFloat.NaN) = true /\
    p' = Patron.with_fine_amount p PyFloat.NaN /\
    (forall amount,
       Patron.fine_amount (snd (Patron.pay_fine p' amount)) = PyFloat.NaN) /\
    (forall amount,
       PyFloat.ltb PyFloat.zero amount = true ->
       fst (Patron.pay_fine p' amount) = true).
Proof.
  intros p p'.
  assert (Hp' : p' = Patron.with_fine_amount p PyFloat.NaN).
  { subst p'. unfold Patron.pay_fine. cbn [PyFloat.leb PyFloat.gtb PyFloat.ltb].
    destruct (Patron._fine_amount p); reflexivity. }
  split; [reflexivity|]. split; [reflexivity|].
  split; [unfold Patron.pay_fine; destruct (Patron._fine_amount p); reflexivity|].
  split; [exact Hp'|].
  rewrite Hp'. split.
  - intros amount. unfold Patron.pay_fine, Patron.fine_amount.
    cbn [Patron._fine_amount Patron.with_fine_amount].
    destruct (PyFloat.leb amount PyFloat.zero || PyFloat.gtb amount PyFloat.NaN);
      cbn [snd Patron._fine_amount Patron.with_fine_amount]; reflexivity.
  - intros amount Hpos. unfold Patron.pay_fine.
    cbn [Patron._fine_amount Patron.with_fine_amount].
    destruct amount as [a|negative|]; [| |discriminate].
    + unfold PyFloat.ltb, PyFloat.zero in Hpos.
      apply negb_true_iff in Hpos.
      unfold PyFloat.leb, PyFloat.zero, PyFloat.gtb, PyFloat.ltb.
      now rewrite Hpos.
    + destruct negative; [discriminate | reflexivity].
Qed.

(** The guard of [pay_fine] on numbers: for an amount and an accumulated
    fine that are not NaN, [pay_fine] succeeds exactly when the amount is
    strictly positive and does not exceed the accumulated fine; it then
    lowers the fine by the amount and changes nothing else; otherwise it
    fails and the patron is unchanged.  A fine that is not negative stays
    so.  NaN is the one amount the guard lets through by mistake. *)
Theorem pay_fine_guard :
  forall (p : Patron.t) (amount : PyFloat.pyfloat),
    PyFloat.is_nan amount = false ->
    PyFloat.is_nan (Patron.fine_amount p) = false ->
    (fst (Patron.pay_fine p amount) = true <->
     PyFloat.ltb PyFloat.zero amount = true /\
     PyFloat.leb amount (Patron.fine_amount p) = true) /\
    (fst (Patron.pay_fine p amount) = true ->
     snd (Patron.pay_fine p amount)
     = Patron.with_fine_amount p (PyFloat.sub (Patron.fine_amount p) amount)) /\
    (fst (Patron.pay_fine p amount) = false ->
     snd (Patron.pay_fine p amount) = p) /\
    (PyFloat.ltb (Patron.fine_amount p) PyFloat.zero = false ->
     PyFloat.ltb (Patron.fine_amount (snd (Patron.pay_fine p amount))) PyFloat.zero
     = false).
Proof.
  intros p amount Hna Hnf.
  unfold Patron.pay_fine, Patron.fine_amount in *.
  destruct (PyFloat.leb amount PyFloat.zero
            || PyFloat.gtb amount (Patron._fine_amount p)) eqn:Hguard; simpl.
  - (* rejected *)
    repeat split; try discriminate; try reflexivity; try (intros; assumption).
    intros [Hpos Hle]. exfalso.
    apply orb_true_iff in Hguard.
    destruct amount as [a|na|]; [| |discriminate];
      destruct (Patron._fine_amount p) as [f|nf|]; try discriminate;
      unfold PyFloat.gtb, PyFloat.ltb, PyFloat.leb, PyFloat.zero in *;
      repeat match goal with
             | b : bool |- _ => destruct b
             end; simpl in *;
      try (destruct Hguard; discriminate).
    + destruct Hguard as [H|H].
      * rewrite H in Hpos. discriminate.
      * rewrite Hle in H. discriminate.
    + destruct Hguard as [H|H]; [|discriminate].
      rewrite H in Hpos. discriminate.
  - (* accepted *)
    apply orb_false_iff in Hguard. destruct Hguard as [Hpos Hle].
    repeat split; try discriminate; try reflexivity.
    + destruct amount as [a|na|]; [| |discriminate];
        unfold PyFloat.ltb, PyFloat.leb, PyFloat.zero in *.
      * now rewrite Hpos.
      * destruct na; [discriminate | reflexivity].
    + destruct amount as [a|na|]; [| |discriminate];
        destruct (Patron._fine_amount p) as [f|nf|]; try discriminate;
        unfold PyFloat.gtb, PyFloat.ltb, PyFloat.leb in *;
        repeat match goal with
               | b : bool |- _ => destruct b
               end; simpl in *; try discriminate; try reflexivity.
      now apply negb_false_iff in Hle.
    + intros Hnonneg.
      destruct amount as [a|na|]; [| |discriminate];
        destruct (Patron._fine_amount p) as [f|nf|]; try discriminate;
        unfold PyFloat.gtb, PyFloat.ltb, PyFloat.leb, PyFloat.sub, PyFloat.zero in *;
        repeat match goal with
               | b : bool |- _ => destruct b
               end; simpl in *; try discriminate; try reflexivity.
      apply negb_false_iff in Hle. apply Qle_bool_iff in Hle.
      apply negb_false_iff. apply Qle_bool_iff.
      lra.
Qed.

Lemma pay_fine_guard_witness :
  let p := Patron.with_fine_amount
             (Patron.init "Emily Davis" "emily@example.com" "456 Oak Ave"
                          "555-5678" "P2" 0)
             (PyFloat.Fin (3 # 4)) in
  fst (Patron.pay_fine p (PyFloat.Fin (1 # 2))) = true /\
  snd (Patron.pay_fine p (PyFloat.Fin (1 # 2)))
  = Patron.with_fine_amount p (PyFloat.Fin ((3 # 4) - (1 # 2))).
Proof.
  intros p.
  destruct (pay_fine_guard p (PyFloat.Fin (1 # 2)) eq_refl eq_refl)
    as (Hiff & Hok & _ & _).
  assert (H : fst (Patron.pay_fine p (PyFloat.Fin (1 # 2))) = true)
    by (apply Hiff; split; reflexivity).
  split; [exact H | exact (Hok H)].
Defined.

(* ------------------------------------------------------------------ *)
(** ** Stored objects *)

Lemma store_patron_same s patron_id patron :
  LibrarySystem.get_patron s patron_id = Some patron ->
  LibrarySystem.store_patron patron_id patron s = s.
Proof.
  unfold LibrarySystem.get_patron, LibrarySystem.store_patron,
    LibrarySystem.with_patrons.
  intros H. rewrite (DictFacts.set_same _ _ _ H). now destruct s.
Qed.

Lemma store_item_same s item_id item :
  LibrarySystem.get_item s item_id = Some item ->
  LibrarySystem.store_item item_id item s = s.
Proof.
  unfold LibrarySystem.get_item, LibrarySystem.store_item,
    LibrarySystem.with_items.
  intros H. rewrite (DictFacts.set_same _ _ _ H). now destruct s.
Qed.

Lemma borrow_item_refused_flag p item due_days now :
  LibraryItem.is_checked_out item = true ->
  Patron.borrow_item p item due_days now = (Returned false, p, item).
Proof.
  intros H. unfold Patron.borrow_item. now rewrite H.
Qed.

Lemma borrow_item_refused_held p item due_days now :
  Dict.contains (LibraryItem.item_id item) (Patron.borrowed_items p) = true ->
  Patron.borrow_item p item due_days now = (Returned false, p, item).
Proof.
  intros H. unfold Patron.borrow_item, Patron.borrowed_items in *.
  rewrite H. now rewrite orb_true_r.
Qed.

Lemma borrow_item_accepted p item due_days now :
  LibraryItem.is_checked_out item = false ->
  Dict.contains (LibraryItem.item_id item) (Patron.borrowed_items p) = false ->
  Patron.borrow_item p item due_days now
  = match DateTime.plus_days now due_days with
    | Returned due_date =>
        (Returned true,
         Patron.with_borrowed_items p
           (Dict.set (LibraryItem.item_id item) due_date (Patron.borrowed_items p)),
         LibraryItem.with_checked_out item true)
    | Raised e => (Raised e, p, LibraryItem.with_checked_out item true)
    end.
Proof.
  intros Hflag Hheld.
  unfold Patron.borrow_item, Patron.borrowed_items, LibraryItem.check_out,
    LibraryItem.is_checked_out in *.
  rewrite Hflag, Hheld. simpl. reflexivity.
Qed.

(* ------------------------------------------------------------------ *)
(** ** Refused check-out (C5) *)

(** C5: a check-out of an item whose checked-out flag is set returns
    [False]; the system is exactly as before (every item, every patron's
    mapping and fine, the transaction log), and no observer is called. *)
Theorem check_out_of_checked_out_item_fails :
  forall (s : LibrarySystem.t) (patron_id item_id : string) (due_days : Z)
         (now_due now_log : DateTime.datetime) (item : LibraryItem.t),
    LibrarySystem.get_item s item_id = Some item ->
    LibraryItem.is_checked_out item = true ->
    LibrarySystem.check_out_item patron_id item_id due_days now_due now_log s
    = (Returned false, s, []).
Proof.
  intros s patron_id item_id due_days now_due now_log item Hitem Hflag.
  unfold LibrarySystem.check_out_item, LibrarySystem.bind,
    LibrarySystem.get_state. simpl.
  rewrite Hitem.
  destruct (LibrarySystem.get_patron s patron_id) as [patron|] eqn:Hpatron;
    [|reflexivity].
  unfold LibrarySystem.call_borrow_item.
  rewrite (borrow_item_refused_flag _ _ _ _ Hflag).
  rewrite (store_patron_same _ _ _ Hpatron), (store_item_same _ _ _ Hitem).
  reflexivity.
Qed.

Lemma check_out_of_checked_out_item_fails_witness :
  LibrarySystem.check_out_item "P2" "B1" 14 Sample.t0 Sample.t0 Sample.library1
  = (Returned false, Sample.library1, []).
Proof.
  apply (check_out_of_checked_out_item_fails Sample.library1 "P2" "B1" 14
           Sample.t0 Sample.t0 (LibraryItem.with_checked_out Sample.book1 true)).
  - reflexivity.
  - reflexivity.
Defined.

(* ------------------------------------------------------------------ *)
(** ** What the projections see after a store *)

Lemma get_item_store_item_eq s item_id item :
  LibrarySystem.get_item (LibrarySystem.store_item item_id item s) item_id
  = Some item.
Proof. apply DictFacts.get_set_eq. Qed.

Lemma get_item_store_item_ne s item_id item k :
  item_id <> k ->
  LibrarySystem.get_item (LibrarySystem.store_item item_id item s) k
  = LibrarySystem.get_item s k.
Proof. intros H. now apply DictFacts.get_set_ne. Qed.

Lemma get_patron_store_patron_eq s patron_id patron :
  LibrarySystem.get_patron (LibrarySystem.store_patron patron_id patron s) patron_id
  = Some patron.
Proof. apply DictFacts.get_set_eq. Qed.

Lemma get_patron_store_patron_ne s patron_id patron k :
  patron_id <> k ->
  LibrarySystem.get_patron (LibrarySystem.store_patron patron_id patron s) k
  = LibrarySystem.get_patron s k.
Proof. intros H. now apply DictFacts.get_set_ne. Qed.

Lemma get_patron_store_item s item_id item k :
  LibrarySystem.get_patron (LibrarySystem.store_item item_id item s) k
  = LibrarySystem.get_patron s k.
Proof. reflexivity. Qed.

Lemma get_item_store_patron s patron_id patron k :
  LibrarySystem.get_item (LibrarySystem.store_patron patron_id patron s) k
  = LibrarySystem.get_item s k.
Proof. reflexivity. Qed.

Lemma store_item_store_patron s item_id item patron_id patron :
  LibrarySystem.store_item item_id item
    (LibrarySystem.store_patron patron_id patron s)
  = LibrarySystem.store_patron patron_id patron
      (LibrarySystem.store_item item_id item s).
Proof. reflexivity. Qed.

(** A patron found under [k] after a store under [patron_id]. *)
Lemma get_patron_store_patron_inv s patron_id patron k p :
  LibrarySystem.get_patron (LibrarySystem.store_patron patron_id patron s) k = Some p ->
  (k = patron_id /\ p = patron) \/
  (k <> patron_id /\ LibrarySystem.get_patron s k = Some p).
Proof.
  destruct (string_dec patron_id k) as [->|Hne].
  - rewrite get_patron_store_patron_eq. intros [= <-]. now left.
  - rewrite get_patron_store_patron_ne by assumption. intros H. right.
    split; [congruence | assumption].
Qed.

Lemma get_item_store_item_inv s item_id item k i :
  LibrarySystem.get_item (LibrarySystem.store_item item_id item s) k = Some i ->
  (k = item_id /\ i = item) \/
  (k <> item_id /\ LibrarySystem.get_item s k = Some i).
Proof.
  destruct (string_dec item_id k) as [->|Hne].
  - rewrite get_item_store_item_eq. intros [= <-]. now left.
  - rewrite get_item_store_item_ne by assumption. intros H. right.
    split; [congruence | assumption].
Qed.

(* ------------------------------------------------------------------ *)
(** ** Consistency of the stored data *)

Section Consistency.
Import LibrarySystem Props.

Lemma consistent_init name : consistent (init name).
Proof.
  constructor; simpl; try (constructor; fail); try discriminate;
    try (intros; discriminate); try contradiction.
Qed.

Lemma consistent_same_data s s' :
  _items s' = _items s -> _patrons s' = _patrons s ->
  _transaction_log s' = _transaction_log s ->
  consistent s -> consistent s'.
Proof.
  intros Hi Hp Hl [H1 H2 H3 H4 H5 H6 H7 H8].
  constructor; unfold get_item, get_patron in *;
    rewrite ?Hi, ?Hp, ?Hl; assumption.
Qed.

Lemma consistent_log s tr :
  (Transaction.type tr = "check_out"%string ->
   exists patron_id item_id due_days,
     Transaction.details_of tr = Transaction.OfCheckOut patron_id item_id due_days) ->
  consistent s ->
  consistent (with_transaction_log s (_transaction_log s ++ [tr])).
Proof.
  intros Htr [H1 H2 H3 H4 H5 H6 H7 H8].
  constructor; try assumption.
  simpl. intros tr' Hin. apply in_app_or in Hin.
  destruct Hin as [Hin|[<-|[]]]; [now apply H8 | exact Htr].
Qed.

Lemma consistent_update_item s item_id item item' :
  consistent s ->
  get_item s item_id = Some item ->
  LibraryItem.item_id item' = item_id ->
  (LibraryItem.is_checked_out item' = true \/
   forall k p, get_patron s k = Some p ->
               Dict.contains item_id (Patron.borrowed_items p) = false) ->
  consistent (store_item item_id item' s).
Proof.
  intros [H1 H2 H3 H4 H5 H6 H7 H8] Hget Hid Hflag.
  constructor; try assumption.
  - now apply DictFacts.wf_set.
  - intros k i Hk. apply get_item_store_item_inv in Hk.
    destruct Hk as [[-> ->]|[_ Hk]]; [assumption | now apply H3].
  - intros k p iid Hp Hheld. rewrite get_patron_store_item in Hp.
    destruct (string_dec item_id iid) as [<-|Hne].
    + rewrite get_item_store_item_eq. exists item'. split; [reflexivity|].
      destruct Hflag as [Hf|Hnone]; [assumption|].
      rewrite (Hnone _ _ Hp) in Hheld. discriminate.
    + rewrite get_item_store_item_ne by assumption. now apply (H6 k p).
Qed.

Lemma consistent_update_patron s patron_id p p' :
  consistent s ->
  get_patron s patron_id = Some p ->
  Patron.person_id p' = patron_id ->
  Dict.wf (Patron.borrowed_items p') ->
  (forall item_id,
     Dict.contains item_id (Patron.borrowed_items p') = true ->
     Dict.contains item_id (Patron.borrowed_items p) = true) ->
  consistent (store_patron patron_id p' s).
Proof.
  intros [H1 H2 H3 H4 H5 H6 H7 H8] Hget Hid Hwf Hsub.
  constructor; try assumption.
  - now apply DictFacts.wf_set.
  - intros k q Hk. apply get_patron_store_patron_inv in Hk.
    destruct Hk as [[-> ->]|[_ Hk]]; [assumption | now apply H4].
  - intros k q Hk. apply get_patron_store_patron_inv in Hk.
    destruct Hk as [[-> ->]|[_ Hk]]; [assumption | now apply (H5 k)].
  - intros k q iid Hk Hheld. rewrite get_item_store_patron.
    apply get_patron_store_patron_inv in Hk.
    destruct Hk as [[-> ->]|[_ Hk]].
    + apply (H6 patron_id p); [assumption | now apply Hsub].
    + now apply (H6 k q).
  - intros k1 q1 k2 q2 iid Hk1 Hk2 Hh1 Hh2.
    apply get_patron_store_patron_inv in Hk1, Hk2.
    destruct Hk1 as [[-> ->]|[Hn1 Hk1]], Hk2 as [[-> ->]|[Hn2 Hk2]].
    + reflexivity.
    + apply (H7 patron_id p k2 q2 iid); auto.
    + apply (H7 k1 q1 patron_id p iid); auto.
    + apply (H7 k1 q1 k2 q2 iid); auto.
Qed.

Lemma consistent_add_loan s patron_id p item_id item due :
  consistent s ->
  get_patron s patron_id = Some p ->
  get_item s item_id = Some item ->
  LibraryItem.is_checked_out item = true ->
  (forall k q, get_patron s k = Some q ->
               Dict.contains item_id (Patron.borrowed_items q) = false) ->
  consistent
    (store_patron patron_id
       (Patron.with_borrowed_items p (Dict.set item_id due (Patron.borrowed_items p)))
       s).
Proof.
  intros [H1 H2 H3 H4 H5 H6 H7 H8] Hp Hi Hflag Hnone.
  constructor; try assumption.
  - now apply DictFacts.wf_set.
  - intros k q Hk. apply get_patron_store_patron_inv in Hk.
    destruct Hk as [[-> ->]|[_ Hk]]; [now apply (H4 patron_id p) | now apply H4].
  - intros k q Hk. apply get_patron_store_patron_inv in Hk.
    destruct Hk as [[-> ->]|[_ Hk]]; [|now apply (H5 k)].
    simpl. apply DictFacts.wf_set. now apply (H5 patron_id).
  - intros k q iid Hk Hheld. rewrite get_item_store_patron.
    apply get_patron_store_patron_inv in Hk.
    destruct Hk as [[-> ->]|[_ Hk]]; [|now apply (H6 k q)].
    simpl in Hheld. rewrite DictFacts.contains_set in Hheld.
    apply orb_true_iff in Hheld. destruct Hheld as [E|Hheld].
    + apply String.eqb_eq in E. subst iid. now exists item.
    + now apply (H6 patron_id p).
  - assert (Hnew : forall q iid k,
               get_patron s k = Some q -> k <> patron_id ->
               Dict.contains iid
                 (Patron.borrowed_items
                    (Patron.with_borrowed_items p
                       (Dict.set item_id due (Patron.borrowed_items p)))) = true ->
               Dict.contains iid (Patron.borrowed_items q) = true ->
               False).
    { intros q iid k Hk Hne Hh1 Hh2. simpl in Hh1.
      rewrite DictFacts.contains_set in Hh1.
      apply orb_true_iff in Hh1. destruct Hh1 as [E|Hh1].
      - apply String.eqb_eq in E. subst iid.
        rewrite (Hnone _ _ Hk) in Hh2. discriminate.
      - apply Hne. apply (H7 k q patron_id p iid); auto. }
    intros k1 q1 k2 q2 iid Hk1 Hk2 Hh1 Hh2.
    apply get_patron_store_patron_inv in Hk1, Hk2.
    destruct Hk1 as [[-> ->]|[Hn1 Hk1]], Hk2 as [[-> ->]|[Hn2 Hk2]].
    + reflexivity.
    + exfalso. now apply (Hnew q2 iid k2).
    + exfalso. now apply (Hnew q1 iid k1).
    + apply (H7 k1 q1 k2 q2 iid); auto.
Qed.

End Consistency.

Section ConsistencyOfTheCatalog.
Import LibrarySystem Props.

Lemma consistent_add_item s item :
  consistent s ->
  Dict.contains (LibraryItem.item_id item) (_items s) = false ->
  consistent (with_items s (Dict.set (LibraryItem.item_id item) item (_items s))).
Proof.
  intros [H1 H2 H3 H4 H5 H6 H7 H8] Hnew.
  constructor; try assumption.
  - now apply DictFacts.wf_set.
  - intros k i Hk. apply (get_item_store_item_inv s) in Hk.
    destruct Hk as [[-> ->]|[_ Hk]]; [reflexivity | now apply H3].
  - intros k p iid Hp Hheld.
    destruct (H6 k p iid Hp Hheld) as (i & Hi & Hflag).
    exists i. split; [|assumption].
    change (get_item (store_item (LibraryItem.item_id item) item s) iid = Some i).
    rewrite get_item_store_item_ne; [assumption|].
    intros <-. apply DictFacts.contains_false_get in Hnew.
    unfold get_item in Hi. congruence.
Qed.

Lemma consistent_remove_item s item_id item :
  consistent s ->
  get_item s item_id = Some item ->
  LibraryItem.is_checked_out item = false ->
  consistent (with_items s (Dict.del item_id (_items s))).
Proof.
  intros [H1 H2 H3 H4 H5 H6 H7 H8] Hget Hflag.
  assert (Hsub : forall k i,
             Dict.get k (Dict.del item_id (_items s)) = Some i ->
             get_item s k = Some i).
  { intros k i Hk. destruct (string_dec item_id k) as [<-|Hne].
    - rewrite DictFacts.get_del_eq in Hk by assumption. discriminate.
    - now rewrite DictFacts.get_del_ne in Hk by assumption. }
  constructor; try assumption.
  - now apply DictFacts.wf_del.
  - intros k i Hk. apply H3. now apply Hsub.
  - intros k p iid Hp Hheld.
    destruct (H6 k p iid Hp Hheld) as (i & Hi & Hf).
    exists i. split; [|assumption].
    unfold get_item. simpl. rewrite DictFacts.get_del_ne; [assumption|].
    intros <-. congruence.
Qed.

Lemma consistent_register_patron s patron :
  consistent s ->
  Dict.contains (Patron.person_id patron) (_patrons s) = false ->
  Patron.borrowed_items patron = Dict.empty ->
  consistent
    (with_patrons s (Dict.set (Patron.person_id patron) patron (_patrons s))).
Proof.
  intros [H1 H2 H3 H4 H5 H6 H7 H8] Hnew Hempty.
  assert (Hinv := get_patron_store_patron_inv s (Patron.person_id patron) patron).
  unfold store_patron in Hinv.
  constructor; try assumption.
  - now apply DictFacts.wf_set.
  - intros k q Hk. apply Hinv in Hk.
    destruct Hk as [[-> ->]|[_ Hk]]; [reflexivity | now apply H4].
  - intros k q Hk. apply Hinv in Hk.
    destruct Hk as [[-> ->]|[_ Hk]]; [|now apply (H5 k)].
    rewrite Hempty. constructor.
  - intros k q iid Hk Hheld. apply Hinv in Hk.
    destruct Hk as [[-> ->]|[_ Hk]]; [|now apply (H6 k q)].
    rewrite Hempty in Hheld. discriminate.
  - intros k1 q1 k2 q2 iid Hk1 Hk2 Hh1 Hh2.
    apply Hinv in Hk1, Hk2.
    destruct Hk1 as [[-> ->]|[Hn1 Hk1]], Hk2 as [[-> ->]|[Hn2 Hk2]].
    + reflexivity.
    + rewrite Hempty in Hh1. discriminate.
    + rewrite Hempty in Hh2. discriminate.
    + apply (H7 k1 q1 k2 q2 iid); auto.
Qed.

(** Nobody holds an item that is not flagged. *)
Lemma unflagged_not_held s item_id item :
  consistent s ->
  get_item s item_id = Some item ->
  LibraryItem.is_checked_out item = false ->
  forall k p, get_patron s k = Some p ->
              Dict.contains item_id (Patron.borrowed_items p) = false.
Proof.
  intros Hc Hget Hflag k p Hp.
  destruct (Dict.contains item_id (Patron.borrowed_items p)) eqn:Hheld;
    [|reflexivity].
  destruct (borrowed_flagged s Hc k p item_id Hp Hheld) as (i & Hi & Hf).
  congruence.
Qed.

End ConsistencyOfTheCatalog.

(* ------------------------------------------------------------------ *)
(** ** The state after each operation *)

Section StateAfter.
Import LibrarySystem.

Lemma notify_state message s : state_of (notify message s) = s.
Proof.
  unfold notify, state_of. now destruct (Subject.notify (_observers s) message).
Qed.

Lemma add_item_state item now s :
  state_of (add_item item now s)
  = if Dict.contains (LibraryItem.item_id item) (_items s) then s
    else logged
           (with_items s (Dict.set (LibraryItem.item_id item) item (_items s)))
           "add_item" (Transaction.OfItem (LibraryItem.item_id item)) now.
Proof.
  unfold add_item, bind, get_state, modify, _log_transaction, notify, ret,
    state_of, logged. simpl.
  destruct (Dict.contains (LibraryItem.item_id item) (_items s)); [reflexivity|].
  simpl.
  destruct (Subject.notify (_observers s) _) as [[[]|e] calls]; reflexivity.
Qed.

Lemma remove_item_state item_id now s :
  state_of (remove_item item_id now s)
  = match get_item s item_id with
    | None => s
    | Some item =>
        if LibraryItem.is_checked_out item then s
        else logged (with_items s (Dict.del item_id (_items s)))
               "remove_item" (Transaction.OfItem item_id) now
    end.
Proof.
  unfold remove_item, bind, get_state, modify, _log_transaction, notify, ret,
    state_of, logged, get_item. simpl.
  destruct (Dict.get item_id (_items s)) as [item|]; [|reflexivity].
  destruct (LibraryItem.is_checked_out item); [reflexivity|].
  simpl.
  destruct (Subject.notify (_observers s) _) as [[[]|e] calls]; reflexivity.
Qed.

Lemma register_patron_state patron now s :
  state_of (register_patron patron now s)
  = if Dict.contains (Patron.person_id patron) (_patrons s) then s
    else logged
           (with_patrons s (Dict.set (Patron.person_id patron) patron (_patrons s)))
           "register_patron" (Transaction.OfPatron (Patron.person_id patron)) now.
Proof.
  unfold register_patron, bind, get_state, modify, _log_transaction, notify, ret,
    state_of, logged. simpl.
  destruct (Dict.contains (Patron.person_id patron) (_patrons s)); [reflexivity|].
  simpl.
  destruct (Subject.notify (_observers s) _) as [[[]|e] calls]; reflexivity.
Qed.

Lemma add_librarian_state librarian now s :
  state_of (add_librarian librarian now s)
  = if Dict.contains (Librarian.person_id librarian) (_librarians s) then s
    else logged
           (with_librarians s
              (Dict.set (Librarian.person_id librarian) librarian (_librarians s)))
           "add_librarian"
           (Transaction.OfLibrarian (Librarian.person_id librarian)) now.
Proof.
  unfold add_librarian, bind, get_state, modify, _log_transaction, ret,
    state_of, logged. simpl.
  destruct (Dict.contains (Librarian.person_id librarian) (_librarians s));
    reflexivity.
Qed.

End StateAfter.

Section StateAfterCirculation.
Import LibrarySystem.

Lemma check_out_item_state patron_id item_id due_days now_due now_log s :
  state_of (check_out_item patron_id item_id due_days now_due now_log s)
  = match get_patron s patron_id, get_item s item_id with
    | Some patron, Some item =>
        let b := Patron.borrow_item patron item due_days now_due in
        let s1 := store_item item_id (snd b) (store_patron patron_id (snd (fst b)) s) in
        match fst (fst b) with
        | Returned true =>
            logged s1 "check_out"
              (Transaction.OfCheckOut patron_id item_id due_days) now_log
        | _ => s1
        end
    | _, _ => s
    end.
Proof.
  unfold check_out_item, bind, get_state, call_borrow_item, modify,
    _log_transaction, notify, ret, state_of. simpl.
  destruct (get_patron s patron_id) as [patron|]; [|reflexivity].
  destruct (get_item s item_id) as [item|]; [|reflexivity].
  destruct (Patron.borrow_item patron item due_days now_due) as [[r p1] i1].
  simpl. destruct r as [[|]|e]; simpl; try reflexivity.
  destruct (Subject.notify _ _) as [[[]|e] calls]; reflexivity.
Qed.

Lemma return_item_state patron_id item_id now_cmp now_days now_log s :
  state_of (return_item patron_id item_id now_cmp now_days now_log s)
  = match get_patron s patron_id, get_item s item_id with
    | Some patron, Some item =>
        let r := Patron.return_item patron item now_cmp now_days in
        let s1 := store_item item_id (snd r) (store_patron patron_id (snd (fst r)) s) in
        if fst (fst (fst r))
        then logged s1 "return_item"
               (Transaction.OfReturn patron_id item_id (snd (fst (fst r)))) now_log
        else s1
    | _, _ => s
    end.
Proof.
  unfold return_item, bind, get_state, call_return_item, modify,
    _log_transaction, notify, ret, state_of. simpl.
  destruct (get_patron s patron_id) as [patron|]; [|reflexivity].
  destruct (get_item s item_id) as [item|]; [|reflexivity].
  destruct (Patron.return_item patron item now_cmp now_days) as [[[ok fine] p1] i1].
  simpl. destruct ok; simpl; try reflexivity.
  destruct (Subject.notify _ _) as [[[]|e] calls]; reflexivity.
Qed.

End StateAfterCirculation.

Section Preservation.
Import LibrarySystem Props.

Lemma consistent_logged s type details now :
  (type = "check_out"%string ->
   exists patron_id item_id due_days,
     details = Transaction.OfCheckOut patron_id item_id due_days) ->
  consistent s -> consistent (logged s type details now).
Proof.
  intros H Hc. unfold logged. now apply consistent_log.
Qed.

Ltac not_a_check_out := intros Htype; discriminate Htype.

Lemma consistent_borrowed s patron_id item_id patron item due_days now :
  consistent s ->
  get_patron s patron_id = Some patron ->
  get_item s item_id = Some item ->
  let b := Patron.borrow_item patron item due_days now in
  consistent (store_item item_id (snd b) (store_patron patron_id (snd (fst b)) s)).
Proof.
  intros Hc Hp Hi b. subst b.
  assert (Hid : LibraryItem.item_id item = item_id) by now apply (item_keys s Hc).
  destruct (LibraryItem.is_checked_out item) eqn:Hflag.
  { rewrite borrow_item_refused_flag by assumption. simpl.
    now rewrite (store_patron_same _ _ _ Hp), (store_item_same _ _ _ Hi). }
  destruct (Dict.contains (LibraryItem.item_id item) (Patron.borrowed_items patron))
    eqn:Hheld.
  { rewrite borrow_item_refused_held by assumption. simpl.
    now rewrite (store_patron_same _ _ _ Hp), (store_item_same _ _ _ Hi). }
  rewrite borrow_item_accepted by assumption.
  assert (Hflagged :
            consistent (store_item item_id (LibraryItem.with_checked_out item true) s)).
  { apply (consistent_update_item s item_id item); auto. }
  destruct (DateTime.plus_days now due_days) as [due|e]; simpl.
  - rewrite store_item_store_patron. rewrite Hid.
    apply (consistent_add_loan _ patron_id patron item_id
             (LibraryItem.with_checked_out item true) due).
    + exact Hflagged.
    + now rewrite get_patron_store_item.
    + apply get_item_store_item_eq.
    + reflexivity.
    + intros k q Hk. rewrite get_patron_store_item in Hk.
      now apply (unflagged_not_held s item_id item Hc Hi Hflag k q).
  - now rewrite (store_patron_same _ _ _ Hp).
Qed.

Lemma consistent_returned s patron_id item_id patron item now_cmp now_days :
  consistent s ->
  get_patron s patron_id = Some patron ->
  get_item s item_id = Some item ->
  let r := Patron.return_item patron item now_cmp now_days in
  consistent (store_item item_id (snd r) (store_patron patron_id (snd (fst r)) s)).
Proof.
  intros Hc Hp Hi r. subst r.
  assert (Hid : LibraryItem.item_id item = item_id) by now apply (item_keys s Hc).
  assert (Hwf : Dict.wf (Patron.borrowed_items patron))
    by now apply (borrowed_wf s Hc patron_id).
  unfold Patron.return_item. rewrite Hid.
  destruct (Dict.get item_id (Patron._borrowed_items patron)) as [due|] eqn:Hdue.
  2:{ simpl. now rewrite (store_patron_same _ _ _ Hp), (store_item_same _ _ _ Hi). }
  set (p1 := Patron.with_borrowed_items patron
               (Dict.del item_id (Patron._borrowed_items patron))).
  assert (Hreturned :
            forall p2,
              Patron.person_id p2 = Patron.person_id p1 ->
              Patron.borrowed_items p2 = Patron.borrowed_items p1 ->
              consistent
                (store_item item_id (snd (LibraryItem.check_in item))
                   (store_patron patron_id p2 s))).
  { intros p2 Hpid Hb.
    assert (Hc2 : consistent (store_patron patron_id p2 s)).
    { apply (consistent_update_patron s patron_id patron); auto.
      - rewrite Hpid. simpl. now apply (patron_keys s Hc).
      - rewrite Hb. simpl. now apply DictFacts.wf_del.
      - intros iid. rewrite Hb. simpl. apply DictFacts.contains_del_imp. }
    apply (consistent_update_item _ item_id item); auto.
    - unfold LibraryItem.check_in.
      destruct (negb (LibraryItem._checked_out item)); simpl; assumption.
    - right. intros k q Hk.
      apply get_patron_store_patron_inv in Hk.
      destruct Hk as [[-> ->]|[Hne Hk]].
      + rewrite Hb. simpl. now apply DictFacts.contains_del_eq.
      + destruct (Dict.contains item_id (Patron.borrowed_items q)) eqn:Hheld;
          [|reflexivity].
        exfalso. apply Hne.
        apply (one_holder s Hc k q patron_id patron item_id); auto.
        apply DictFacts.contains_true_get. now exists due. }
  destruct (DateTime.gtb now_cmp due); simpl; now apply Hreturned.
Qed.

Lemma step_consistent s e s' : consistent s -> Reach.step s e s' -> consistent s'.
Proof.
  intros Hc Hstep. destruct Hstep.
  - (* attach *) now apply (consistent_same_data s).
  - (* detach *) now apply (consistent_same_data s).
  - (* add_item *)
    rewrite add_item_state.
    destruct (Dict.contains _ (_items s)) eqn:Hnew; [assumption|].
    apply consistent_logged; [not_a_check_out|].
    now apply consistent_add_item.
  - (* remove_item *)
    rewrite remove_item_state.
    destruct (get_item s item_id) as [item|] eqn:Hi; [|assumption].
    destruct (LibraryItem.is_checked_out item) eqn:Hflag; [assumption|].
    apply consistent_logged; [not_a_check_out|].
    now apply (consistent_remove_item s item_id item).
  - (* register_patron *)
    rewrite register_patron_state.
    destruct (Dict.contains _ (_patrons s)) eqn:Hnew; [assumption|].
    apply consistent_logged; [not_a_check_out|].
    now apply consistent_register_patron.
  - (* add_librarian *)
    rewrite add_librarian_state.
    destruct (Dict.contains _ (_librarians s)); [assumption|].
    apply consistent_logged; [not_a_check_out|].
    now apply (consistent_same_data s).
  - (* check_out_item *)
    rewrite check_out_item_state.
    destruct (get_patron s patron_id) as [patron|] eqn:Hp; [|assumption].
    destruct (get_item s item_id) as [item|] eqn:Hi; [|assumption].
    assert (H := consistent_borrowed s patron_id item_id patron item due_days
                   now_due Hc Hp Hi).
    cbv zeta in *.
    destruct (fst (fst (Patron.borrow_item patron item due_days now_due)))
      as [[|]|e]; try assumption.
    apply consistent_logged; [|assumption].
    intros _. now exists patron_id, item_id, due_days.
  - (* return_item *)
    rewrite return_item_state.
    destruct (get_patron s patron_id) as [patron|] eqn:Hp; [|assumption].
    destruct (get_item s item_id) as [item|] eqn:Hi; [|assumption].
    assert (H := consistent_returned s patron_id item_id patron item now_cmp
                   now_days Hc Hp Hi).
    cbv zeta in *.
    destruct (fst (fst (fst (Patron.return_item patron item now_cmp now_days))));
      [|assumption].
    apply consistent_logged; [not_a_check_out|assumption].
  - (* pay_fine *)
    apply (consistent_update_patron s patron_id patron); auto.
    + unfold Patron.pay_fine.
      destruct (_ || _); simpl; now apply (patron_keys s Hc).
    + unfold Patron.pay_fine.
      destruct (_ || _); simpl; now apply (borrowed_wf s Hc patron_id).
    + intros iid. unfold Patron.pay_fine.
      destruct (_ || _); simpl; auto.
Qed.

Lemma reachable_consistent s : Reach.reachable s -> consistent s.
Proof.
  induction 1 as [name|s e s' _ IH Hstep].
  - apply consistent_init.
  - now apply (step_consistent s e).
Qed.

End Preservation.

(* ------------------------------------------------------------------ *)
(** ** Outcome, state and calls of a check-out and of a return *)

Section Circulation.
Import LibrarySystem.

Lemma check_out_item_run patron_id item_id due_days now_due now_log s :
  check_out_item patron_id item_id due_days now_due now_log s
  = match get_patron s patron_id, get_item s item_id with
    | Some patron, Some item =>
        let b := Patron.borrow_item patron item due_days now_due in
        let s1 := store_item item_id (snd b) (store_patron patron_id (snd (fst b)) s) in
        match fst (fst b) with
        | Returned true =>
            let n := Subject.notify (_observers s)
                       (Patron.name patron ++ " has borrowed: "
                        ++ LibraryItem.title item)%string in
            (after_notify n true,
             logged s1 "check_out"
               (Transaction.OfCheckOut patron_id item_id due_days) now_log,
             snd n)
        | Returned false => (Returned false, s1, [])
        | Raised e => (Raised e, s1, [])
        end
    | _, _ => (Returned false, s, [])
    end.
Proof.
  unfold check_out_item, bind, get_state, call_borrow_item, modify,
    _log_transaction, notify, ret, after_notify. simpl.
  destruct (get_patron s patron_id) as [patron|]; [|reflexivity].
  destruct (get_item s item_id) as [item|]; [|reflexivity].
  destruct (Patron.borrow_item patron item due_days now_due) as [[r p1] i1].
  simpl. destruct r as [[|]|e]; simpl; try reflexivity.
  destruct (Subject.notify _ _) as [[[]|e] calls]; simpl;
    rewrite ?app_nil_r; reflexivity.
Qed.

Lemma return_item_run patron_id item_id now_cmp now_days now_log s :
  return_item patron_id item_id now_cmp now_days now_log s
  = match get_patron s patron_id, get_item s item_id with
    | Some patron, Some item =>
        let r := Patron.return_item patron item now_cmp now_days in
        let s1 := store_item item_id (snd r) (store_patron patron_id (snd (fst r)) s) in
        let fine := snd (fst (fst r)) in
        if fst (fst (fst r)) then
          let n := Subject.notify (_observers s) (return_message patron item fine) in
          (after_notify n (true, fine),
           logged s1 "return_item"
             (Transaction.OfReturn patron_id item_id fine) now_log,
           snd n)
        else (Returned (false, PyFloat.zero), s1, [])
    | _, _ => (Returned (false, PyFloat.zero), s, [])
    end.
Proof.
  unfold return_item, bind, get_state, call_return_item, modify,
    _log_transaction, notify, ret, after_notify. simpl.
  destruct (get_patron s patron_id) as [patron|]; [|reflexivity].
  destruct (get_item s item_id) as [item|]; [|reflexivity].
  destruct (Patron.return_item patron item now_cmp now_days) as [[[ok fine] p1] i1].
  simpl. destruct ok; simpl; try reflexivity.
  destruct (Subject.notify _ _) as [[[]|e] calls]; simpl;
    rewrite ?app_nil_r; reflexivity.
Qed.

End Circulation.

(* ------------------------------------------------------------------ *)
(** ** Returning an item (C6) *)

Lemma patron_return_item_not_borrowed p item now_cmp now_days :
  Dict.contains (LibraryItem.item_id item) (Patron.borrowed_items p) = false ->
  Patron.return_item p item now_cmp now_days = ((false, PyFloat.zero), p, item).
Proof.
  intros H. apply DictFacts.contains_false_get in H.
  unfold Patron.return_item, Patron.borrowed_items in *. now rewrite H.
Qed.

Lemma patron_return_item_borrowed p item now_cmp now_days :
  Dict.contains (LibraryItem.item_id item) (Patron.borrowed_items p) = true ->
  let r := Patron.return_item p item now_cmp now_days in
  fst (fst (fst r)) = true /\
  Patron.borrowed_items (snd (fst r))
  = Dict.del (LibraryItem.item_id item) (Patron.borrowed_items p) /\
  LibraryItem.is_checked_out (snd r) = false.
Proof.
  intros H. apply DictFacts.contains_true_get in H. destruct H as [due Hdue].
  unfold Patron.return_item, Patron.borrowed_items in *. rewrite Hdue.
  assert (Hin : LibraryItem.is_checked_out (snd (LibraryItem.check_in item)) = false).
  { unfold LibraryItem.check_in, LibraryItem.is_checked_out.
    destruct (LibraryItem._checked_out item) eqn:E; simpl; [reflexivity | exact E]. }
  destruct (DateTime.gtb now_cmp due); simpl; auto.
Qed.

(** C6: in a reachable state, [return_item(patron_id, item_id)] fails,
    reporting a zero fine, exactly when the item id is not in the borrowed
    mapping of the patron registered under [patron_id] (no patron under
    that id included).  A failed return leaves the system as it was and
    calls no observer; a successful one has removed the entry from the
    patron's mapping and cleared the checked-out flag of the item. *)
Theorem return_item_fails_iff_not_borrowed :
  forall (s : LibrarySystem.t) (patron_id item_id : string)
         (now_cmp now_days now_log : DateTime.datetime),
    Reach.reachable s ->
    let r := LibrarySystem.return_item patron_id item_id now_cmp now_days now_log s in
    let borrowed :=
      exists patron,
        LibrarySystem.get_patron s patron_id = Some patron /\
        Dict.contains item_id (Patron.borrowed_items patron) = true in
    (LibrarySystem.result_of r = Returned (false, PyFloat.zero) <-> ~ borrowed) /\
    (forall fine,
       LibrarySystem.result_of r = Returned (false, fine) ->
       fine = PyFloat.zero /\ LibrarySystem.state_of r = s /\
       LibrarySystem.calls_of r = []) /\
    (forall fine,
       LibrarySystem.result_of r = Returned (true, fine) ->
       exists patron' item',
         LibrarySystem.get_patron (LibrarySystem.state_of r) patron_id = Some patron' /\
         Dict.contains item_id (Patron.borrowed_items patron') = false /\
         LibrarySystem.get_item (LibrarySystem.state_of r) item_id = Some item' /\
         LibraryItem.is_checked_out item' = false).
Proof.
  intros s patron_id item_id now_cmp now_days now_log Hreach r borrowed.
  assert (Hc := reachable_consistent s Hreach).
  subst r borrowed. rewrite return_item_run.
  unfold LibrarySystem.result_of, LibrarySystem.state_of, LibrarySystem.calls_of.
  destruct (LibrarySystem.get_patron s patron_id) as [patron|] eqn:Hp.
  2:{ simpl. split; [split; [|reflexivity] | split].
      - intros _ (p & Hp' & _). discriminate.
      - intros fine [= <-]. auto.
      - intros fine [=]. }
  destruct (Dict.contains item_id (Patron.borrowed_items patron)) eqn:Hheld.
  - (* the patron holds the item *)
    destruct (Props.borrowed_flagged s Hc patron_id patron item_id Hp Hheld)
      as (item & Hi & Hflag).
    rewrite Hi.
    assert (Hid : LibraryItem.item_id item = item_id)
      by now apply (Props.item_keys s Hc).
    rewrite <- Hid in Hheld.
    destruct (patron_return_item_borrowed patron item now_cmp now_days Hheld)
      as (Hok & Hdel & Hclear).
    cbv zeta. rewrite Hok.
    set (pr := Patron.return_item patron item now_cmp now_days) in *.
    set (n := Subject.notify _ _).
    unfold LibrarySystem.after_notify.
    simpl fst; simpl snd.
    split; [split|split].
    + destruct (fst n); intros [=].
    + intros Hnb. exfalso. apply Hnb. exists patron.
      rewrite Hid in Hheld. now split.
    + intros fine. destruct (fst n); intros [=].
    + intros fine _.
      exists (snd (fst pr)), (snd pr).
      repeat split.
      * apply get_patron_store_patron_eq.
      * rewrite Hdel. rewrite Hid. apply DictFacts.contains_del_eq.
        now apply (Props.borrowed_wf s Hc patron_id).
      * apply get_item_store_item_eq.
      * exact Hclear.
  - (* the patron does not hold the item *)
    assert (Hnot : ~ (exists patron0 : Patron.t,
                         Some patron = Some patron0 /\
                         Dict.contains item_id (Patron.borrowed_items patron0) = true)).
    { intros (p0 & [= <-] & Hh). congruence. }
    destruct (LibrarySystem.get_item s item_id) as [item|] eqn:Hi.
    2:{ simpl. split; [split; [intros _; exact Hnot | reflexivity] | split].
        - intros fine [= <-]. auto.
        - intros fine [=]. }
    assert (Hid : LibraryItem.item_id item = item_id)
      by now apply (Props.item_keys s Hc).
    rewrite <- Hid in Hheld.
    rewrite (patron_return_item_not_borrowed _ _ now_cmp now_days Hheld).
    simpl.
    rewrite (store_patron_same _ _ _ Hp), (store_item_same _ _ _ Hi).
    split; [split; [intros _; exact Hnot | reflexivity] | split].
    + intros fine [= <-]. auto.
    + intros fine [=].
Qed.

(** The sample libraries are reachable. *)
Lemma reachable_add_item s item now :
  Reach.reachable s ->
  LibraryItem.is_checked_out item = false ->
  Reach.reachable (LibrarySystem.state_of (LibrarySystem.add_item item now s)).
Proof.
  intros Hs Hflag. destruct item as [title id flag added fields].
  simpl in Hflag. subst flag.
  exact (Reach.reachable_step _ _ _ Hs (Reach.step_add_item s title id added fields now)).
Qed.

Lemma reachable_register_patron s patron now :
  Reach.reachable s ->
  Patron.borrowed_items patron = Dict.empty ->
  Patron.fine_amount patron = PyFloat.zero ->
  Reach.reachable (LibrarySystem.state_of (LibrarySystem.register_patron patron now s)).
Proof.
  intros Hs Hb Hf. destruct patron as [name email id reg address phone b f].
  simpl in Hb, Hf. subst b f.
  exact (Reach.reachable_step _ _ _ Hs
           (Reach.step_register_patron s name email address phone id reg now)).
Qed.

(** [H] shows the state reached step by step; the goal names the same
    state as the result of the whole program. *)
Ltac same_state H :=
  match type of H with
  | Reach.reachable ?x =>
      match goal with
      | |- Reach.reachable ?y =>
          let E := fresh "E" in
          assert (E : y = x) by (vm_compute; reflexivity);
          rewrite E; exact H
      end
  end.

Lemma library0_reachable : Reach.reachable Sample.library0.
Proof.
  pose proof (Reach.reachable_init "City Public Library") as H.
  apply (fun H => Reach.reachable_step _ _ _ H
                    (Reach.step_attach _ Sample.email_notifier)) in H.
  apply (fun H => Reach.reachable_step _ _ _ H
                    (Reach.step_attach _ Sample.sms_notifier)) in H.
  apply (fun H => reachable_add_item _ Sample.book1 Sample.t0 H eq_refl) in H.
  apply (fun H => reachable_add_item _ Sample.dvd1 Sample.t0 H eq_refl) in H.
  apply (fun H => reachable_register_patron _ Sample.patron1 Sample.t0 H
                    eq_refl eq_refl) in H.
  apply (fun H => reachable_register_patron _ Sample.patron2 Sample.t0 H
                    eq_refl eq_refl) in H.
  same_state H.
Qed.

Lemma library1_reachable : Reach.reachable Sample.library1.
Proof.
  exact (Reach.reachable_step _ _ _ library0_reachable
           (Reach.step_check_out_item _ "P1" "B1" 14 Sample.t0 Sample.t0)).
Qed.

Lemma library_overflow_reachable : Reach.reachable Sample.library_overflow.
Proof.
  exact (Reach.reachable_step _ _ _ library0_reachable
           (Reach.step_check_out_item _ "P1" "B1" 1000000000 Sample.t0 Sample.t0)).
Qed.

Lemma library_loans_reachable : Reach.reachable Sample.library_loans.
Proof.
  pose proof library0_reachable as H.
  apply (fun H => Reach.reachable_step _ _ _ H
           (Reach.step_check_out_item _ "P1" "B1" 14 Sample.t0 Sample.t0)) in H.
  apply (fun H => Reach.reachable_step _ _ _ H
           (Reach.step_return_item _ "P1" "B1" Sample.t0 Sample.t0 Sample.t0)) in H.
  apply (fun H => Reach.reachable_step _ _ _ H
           (Reach.step_check_out_item _ "P2" "D1" 14 Sample.t0 Sample.t0)) in H.
  apply (fun H => Reach.reachable_step _ _ _ H
           (Reach.step_return_item _ "P2" "D1" Sample.t0 Sample.t0 Sample.t0)) in H.
  apply (fun H => Reach.reachable_step _ _ _ H
           (Reach.step_check_out_item _ "P2" "B1" 14 Sample.t0 Sample.t0)) in H.
  apply (fun H => Reach.reachable_step _ _ _ H
           (Reach.step_return_item _ "P2" "B1" Sample.t0 Sample.t0 Sample.t0)) in H.
  apply (fun H => Reach.reachable_step _ _ _ H
           (Reach.step_check_out_item _ "P1" "B1" 14 Sample.t0 Sample.t0)) in H.
  apply (fun H => Reach.reachable_step _ _ _ H
           (Reach.step_return_item _ "P1" "B1" Sample.t0 Sample.t0 Sample.t0)) in H.
  same_state H.
Qed.

Lemma library_removed_reachable : Reach.reachable Sample.library_removed.
Proof.
  exact (Reach.reachable_step _ _ _ library_loans_reachable
           (Reach.step_remove_item _ "B1" Sample.t0)).
Qed.

Lemma return_item_fails_iff_not_borrowed_witness :
  let r := LibrarySystem.return_item "P2" "B1" Sample.t0 Sample.t0 Sample.t0
             Sample.library1 in
  LibrarySystem.result_of r = Returned (false, PyFloat.zero) /\
  LibrarySystem.state_of r = Sample.library1.
Proof.
  intros r.
  destruct (return_item_fails_iff_not_borrowed Sample.library1 "P2" "B1"
              Sample.t0 Sample.t0 Sample.t0 library1_reachable)
    as (Hiff & Hfail & _).
  assert (Hres : LibrarySystem.result_of r = Returned (false, PyFloat.zero)).
  { apply Hiff. intros (patron & Hp & Hheld).
    vm_compute in Hp. injection Hp as <-. vm_compute in Hheld. discriminate. }
  split; [exact Hres|].
  exact (proj1 (proj2 (Hfail _ Hres))).
Defined.

(* ------------------------------------------------------------------ *)
(** ** Search (C8) *)

Lemma prefix_spec needle hay :
  String.prefix needle hay = true <-> exists after, hay = (needle ++ after)%string.
Proof.
  revert hay. induction needle as [|c needle IH]; intros hay; simpl.
  - split; [intros _; now exists hay | now destruct hay].
  - destruct hay as [|c' hay]; simpl.
    + split; [discriminate | intros [after H]; discriminate].
    + destruct (Ascii.ascii_dec c c') as [->|Hne].
      * rewrite IH. split; intros [after H]; exists after; congruence.
      * split; [discriminate | intros [after H]; congruence].
Qed.

Lemma str_contains_unfold needle hay :
  Str.contains needle hay
  = (String.prefix needle hay
     || match hay with
        | EmptyString => false
        | String _ rest => Str.contains needle rest
        end)%bool.
Proof.
  destruct hay; cbn [Str.contains]; destruct (String.prefix needle _); reflexivity.
Qed.

Lemma str_contains_spec needle hay :
  Str.contains needle hay = true <->
  exists before after, hay = (before ++ needle ++ after)%string.
Proof.
  induction hay as [|c hay IH];
    rewrite str_contains_unfold, orb_true_iff, prefix_spec.
  - split.
    + intros [[after H]|H]; [|discriminate]. now exists EmptyString, after.
    + intros (before & after & H). left.
      destruct before as [|b before]; [|discriminate]. now exists after.
  - rewrite IH. split.
    + intros [[after H]|(before & after & H)].
      * now exists EmptyString, after.
      * exists (String c before), after. simpl. now rewrite H.
    + intros (before & after & H). destruct before as [|b before].
      * left. now exists after.
      * right. simpl in H. injection H as _ H. now exists before, after.
Qed.

(** The code's [lower] against the specification's "same when case is
    ignored". *)
Lemma nat_of_lower_ascii c :
  nat_of_ascii (Str.lower_ascii c)
  = if ((65 <=? nat_of_ascii c)%nat && (nat_of_ascii c <=? 90)%nat)%bool
    then (nat_of_ascii c + 32)%nat
    else nat_of_ascii c.
Proof.
  unfold Str.lower_ascii.
  destruct ((65 <=? nat_of_ascii c)%nat && (nat_of_ascii c <=? 90)%nat)%bool
    eqn:Hup; [|reflexivity].
  apply andb_true_iff in Hup. destruct Hup as [_ Hle].
  apply Nat.leb_le in Hle. apply nat_ascii_embedding. lia.
Qed.

Lemma nat_of_ascii_inj a b : nat_of_ascii a = nat_of_ascii b -> a = b.
Proof.
  intros H. rewrite <- (ascii_nat_embedding a), <- (ascii_nat_embedding b).
  now rewrite H.
Qed.

Ltac letter_bounds :=
  repeat match goal with
         | H : (_ && _)%bool = true |- _ =>
             apply andb_true_iff in H; destruct H
         | H : (_ && _)%bool = false |- _ => apply andb_false_iff in H
         | H : (_ <=? _)%nat = true |- _ => apply Nat.leb_le in H
         | H : (_ <=? _)%nat = false |- _ => apply Nat.leb_gt in H
         | H : _ \/ _ |- _ => destruct H
         | H : _ /\ _ |- _ => destruct H
         end.

Lemma lower_ascii_same_letter a b :
  Str.lower_ascii a = Str.lower_ascii b <-> Props.same_letter a b.
Proof.
  unfold Props.same_letter, Props.capital_of. split.
  - intros H. apply (f_equal nat_of_ascii) in H.
    rewrite !nat_of_lower_ascii in H.
    destruct ((65 <=? nat_of_ascii a)%nat && (nat_of_ascii a <=? 90)%nat)%bool
      eqn:Ha;
      destruct ((65 <=? nat_of_ascii b)%nat && (nat_of_ascii b <=? 90)%nat)%bool
        eqn:Hb.
    + left. apply nat_of_ascii_inj. lia.
    + right. right. letter_bounds; lia.
    + right. left. letter_bounds; lia.
    + left. now apply nat_of_ascii_inj.
  - intros H. apply nat_of_ascii_inj. rewrite !nat_of_lower_ascii.
    destruct ((65 <=? nat_of_ascii a)%nat && (nat_of_ascii a <=? 90)%nat)%bool
      eqn:Ha;
      destruct ((65 <=? nat_of_ascii b)%nat && (nat_of_ascii b <=? 90)%nat)%bool
        eqn:Hb;
      letter_bounds; subst; lia.
Qed.

Lemma lower_same_text s t :
  Str.lower s = Str.lower t <-> Props.same_text s t.
Proof.
  split.
  - revert t. induction s as [|a s IH]; intros [|b t] H; simpl in H;
      try discriminate.
    + constructor.
    + injection H as Hc Hrest. constructor.
      * now apply lower_ascii_same_letter.
      * now apply IH.
  - induction 1 as [|a b s t Hab _ IH]; simpl; [reflexivity|].
    apply lower_ascii_same_letter in Hab. now rewrite Hab, IH.
Qed.

Lemma lower_app s t :
  Str.lower (s ++ t) = (Str.lower s ++ Str.lower t)%string.
Proof.
  induction s as [|c s IH]; simpl; [reflexivity | now rewrite IH].
Qed.

Lemma lower_app_inv s x y :
  Str.lower s = (x ++ y)%string ->
  exists s1 s2, s = (s1 ++ s2)%string /\ Str.lower s1 = x /\ Str.lower s2 = y.
Proof.
  revert s. induction x as [|c x IH]; intros s H.
  - exists EmptyString, s. repeat split. exact H.
  - destruct s as [|a s]; simpl in H; [discriminate|].
    injection H as Hc Hrest.
    destruct (IH s Hrest) as (s1 & s2 & -> & H1 & H2).
    exists (String a s1), s2. simpl. repeat split; congruence.
Qed.

Lemma ci_substring_spec text item_text :
  Str.contains (Str.lower text) (Str.lower item_text) = true <->
  Props.ci_substring text item_text.
Proof.
  rewrite str_contains_spec. unfold Props.ci_substring. split.
  - intros (before & after & H).
    destruct (lower_app_inv _ _ _ H) as (s1 & rest & -> & _ & Hrest).
    destruct (lower_app_inv _ _ _ Hrest) as (part & s3 & -> & Hpart & _).
    exists s1, part, s3. split; [reflexivity|].
    apply lower_same_text. now symmetry.
  - intros (before & part & after & -> & Hsame).
    apply lower_same_text in Hsame.
    exists (Str.lower before), (Str.lower after).
    now rewrite !lower_app, Hsame.
Qed.

Lemma criterion_step from_class item key value rest :
  LibrarySystem.criteria_match from_class item ((key, value) :: rest) = true <->
  Props.criterion_holds from_class item key value /\
  LibrarySystem.criteria_match from_class item rest = true.
Proof.
  unfold Props.criterion_holds. cbn [LibrarySystem.criteria_match].
  destruct (String.eqb key "checked_out").
  - unfold py_ne.
    destruct (py_eq (VBool (LibraryItem.is_checked_out item)) value);
      cbn [negb].
    + tauto.
    + split; [discriminate | intros [H _]; discriminate].
  - destruct (LibraryItem.getattr from_class item key) as [item_value|].
    2:{ split; [discriminate | tauto]. }
    assert (Hexact :
              (if py_ne item_value value then false
               else LibrarySystem.criteria_match from_class item rest) = true <->
              py_eq item_value value = true /\
              LibrarySystem.criteria_match from_class item rest = true).
    { unfold py_ne. destruct (py_eq item_value value); cbn [negb].
      - tauto.
      - split; [discriminate | intros [H _]; discriminate]. }
    destruct item_value as [|b|z|f|item_text|l|t|o]; try exact Hexact.
    destruct value as [|b|z|f|text|l|t|o];
      try (split; [discriminate | tauto]).
    rewrite <- ci_substring_spec.
    destruct (Str.contains (Str.lower text) (Str.lower item_text)) eqn:Hc;
      cbn [negb].
    + tauto.
    + split; [discriminate|]. intros [H _]. discriminate.
Qed.

Lemma criteria_match_spec from_class item kwargs :
  LibrarySystem.criteria_match from_class item kwargs = true <->
  forall key value,
    In (key, value) kwargs -> Props.criterion_holds from_class item key value.
Proof.
  induction kwargs as [|[key value] rest IH].
  - simpl. split; [intros _ key value [] | reflexivity].
  - rewrite criterion_step, IH. split.
    + intros [H1 H2] k v [[= <- <-]|Hin]; [assumption | now apply H2].
    + intros H. split; [apply H; now left | intros k v Hin; apply H; now right].
Qed.





(* ------------------------------------------------------------------ *)
(** ** A successful check-out (C4) *)

(** C4, as stated, fails: with patron and item present, the item not
    checked out and not in the patron's mapping, a loan of a thousand
    million days does not succeed.  [timedelta] raises [OverflowError]; no
    due date and no "check_out" record are written and no observer is
    called. *)
Lemma check_out_item_overflow :
  let r := LibrarySystem.check_out_item "P1" "B1" 1000000000 Sample.t0 Sample.t0
             Sample.library0 in
  LibrarySystem.get_patron Sample.library0 "P1" = Some Sample.patron1 /\
  LibrarySystem.get_item Sample.library0 "B1" = Some Sample.book1 /\
  LibraryItem.is_checked_out Sample.book1 = false /\
  Dict.contains "B1" (Patron.borrowed_items Sample.patron1) = false /\
  LibrarySystem.result_of r = Raised OverflowError /\
  LibrarySystem.get_patron (LibrarySystem.state_of r) "P1" = Some Sample.patron1 /\
  LibrarySystem._transaction_log (LibrarySystem.state_of r)
  = LibrarySystem._transaction_log Sample.library0 /\
  LibrarySystem.calls_of r = [].
Proof.
  vm_compute. repeat split.
Qed.

(** C4, amended: when patron and item exist (the item stored under
    [item_id] carrying that id), the item is not checked out and not in the
    patron's mapping, the due date [now + due_days] is a date [datetime]
    can represent, and every subscribed observer accepts the message, then
    [check_out_item] returns [True]; afterwards the item is flagged, the
    patron's mapping holds [now + due_days] for the item, the log has
    exactly one more record, a "check_out" one, and every observer has been
    called once, with the message naming the patron and the item. *)
Theorem check_out_item_succeeds :
  forall (s : LibrarySystem.t) (patron_id item_id : string) (due_days : Z)
         (now_due now_log : DateTime.datetime)
         (patron : Patron.t) (item : LibraryItem.t),
    let message :=
      (Patron.name patron ++ " has borrowed: " ++ LibraryItem.title item)%string in
    let due := now_due + due_days * DateTime.US_PER_DAY in
    LibrarySystem.get_patron s patron_id = Some patron ->
    LibrarySystem.get_item s item_id = Some item ->
    LibraryItem.item_id item = item_id ->
    LibraryItem.is_checked_out item = false ->
    Dict.contains item_id (Patron.borrowed_items patron) = false ->
    Z.abs due_days <= DateTime.MAX_DELTA_DAYS ->
    0 <= due <= DateTime.datetime_max ->
    Forall (Props.accepts message) (LibrarySystem._observers s) ->
    exists s',
      LibrarySystem.check_out_item patron_id item_id due_days now_due now_log s
      = (Returned true, s', Props.all_called (LibrarySystem._observers s) message) /\
      LibrarySystem.get_item s' item_id
      = Some (LibraryItem.with_checked_out item true) /\
      LibrarySystem.get_patron s' patron_id
      = Some (Patron.with_borrowed_items patron
                (Dict.set item_id due (Patron.borrowed_items patron))) /\
      Dict.get item_id (Dict.set item_id due (Patron.borrowed_items patron))
      = Some due /\
      LibrarySystem._transaction_log s'
      = LibrarySystem._transaction_log s ++
        [{| Transaction.timestamp := now_log;
            Transaction.type := "check_out";
            Transaction.details_of :=
              Transaction.OfCheckOut patron_id item_id due_days |}].
Proof.
  intros s patron_id item_id due_days now_due now_log patron item message due
    Hp Hi Hid Hflag Hheld Hdays Hdue Hacc.
  rewrite check_out_item_run, Hp, Hi.
  rewrite <- Hid in Hheld.
  rewrite (borrow_item_accepted _ _ due_days now_due Hflag Hheld).
  rewrite (plus_days_in_range now_due due_days Hdays Hdue).
  cbv zeta. cbn [fst snd].
  fold message. rewrite (notify_all_accept _ _ Hacc).
  unfold LibrarySystem.after_notify. cbn [fst snd].
  rewrite Hid. fold due.
  eexists. split; [reflexivity|].
  split; [|split; [|split]].
  - apply get_item_store_item_eq.
  - apply (get_patron_store_patron_eq s).
  - apply DictFacts.get_set_eq.
  - reflexivity.
Qed.

Lemma check_out_item_succeeds_witness :
  exists s',
    LibrarySystem.check_out_item "P1" "B1" 14 Sample.t0 Sample.t0 Sample.library0
    = (Returned true, s',
       [(1%nat, "Michael Johnson has borrowed: Python Programming"%string);
        (2%nat, "Michael Johnson has borrowed: Python Programming"%string)]) /\
    LibrarySystem.get_item s' "B1"
    = Some (LibraryItem.with_checked_out Sample.book1 true).
Proof.
  destruct (check_out_item_succeeds Sample.library0 "P1" "B1" 14 Sample.t0
              Sample.t0 Sample.patron1 Sample.book1)
    as (s' & Hrun & Hitem & _).
  - reflexivity.
  - reflexivity.
  - reflexivity.
  - reflexivity.
  - reflexivity.
  - vm_compute. discriminate.
  - split; vm_compute; discriminate.
  - repeat constructor.
  - exists s'. split; [exact Hrun | exact Hitem].
Defined.

(* ------------------------------------------------------------------ *)
(** ** Sorting by count *)

Section SortByCount.
Context {A : Type}.
Implicit Types (x : A * Z) (l : list (A * Z)).

Let by_count_desc (p q : A * Z) : Prop := snd q <= snd p.

Lemma insert_by_count_perm x l : Permutation (x :: l) (insert_by_count x l).
Proof.
  induction l as [|y rest IH]; simpl; [reflexivity|].
  destruct (snd y <=? snd x); [reflexivity|].
  rewrite perm_swap. now constructor.
Qed.

Lemma sort_by_count_desc_perm l : Permutation l (sort_by_count_desc l).
Proof.
  induction l as [|x rest IH]; simpl; [constructor|].
  rewrite <- insert_by_count_perm. now constructor.
Qed.

Lemma insert_by_count_sorted x l :
  StronglySorted by_count_desc l ->
  StronglySorted by_count_desc (insert_by_count x l).
Proof.
  induction 1 as [|y rest Hrest IH Hy]; simpl.
  - repeat constructor.
  - destruct (snd y <=? snd x) eqn:E.
    + apply Z.leb_le in E. constructor.
      * now constructor.
      * constructor; [exact E|].
        eapply Forall_impl; [|exact Hy].
        unfold by_count_desc. intros z Hz. lia.
    + apply Z.leb_gt in E. constructor; [exact IH|].
      apply (Permutation_Forall (insert_by_count_perm x rest)).
      constructor; [unfold by_count_desc; lia | exact Hy].
Qed.

Lemma sort_by_count_desc_sorted l :
  StronglySorted by_count_desc (sort_by_count_desc l).
Proof.
  induction l as [|x rest IH]; simpl; [constructor|].
  now apply insert_by_count_sorted.
Qed.

Lemma insert_by_count_filter c x l :
  filter (Props.count_is c) (insert_by_count x l)
  = filter (Props.count_is c) (x :: l).
Proof.
  induction l as [|y rest IH]; [reflexivity|].
  cbn [insert_by_count].
  destruct (snd y <=? snd x) eqn:E; [reflexivity|].
  apply Z.leb_gt in E.
  cbn [filter] in *. rewrite IH.
  unfold Props.count_is.
  destruct (snd x =? c) eqn:Ex, (snd y =? c) eqn:Ey; try reflexivity.
  apply Z.eqb_eq in Ex, Ey. lia.
Qed.

Lemma sort_by_count_desc_stable c l :
  filter (Props.count_is c) (sort_by_count_desc l) = filter (Props.count_is c) l.
Proof.
  induction l as [|x rest IH]; [reflexivity|].
  cbn [sort_by_count_desc fold_right].
  change (fold_right insert_by_count [] rest) with (sort_by_count_desc rest).
  rewrite insert_by_count_filter. cbn [filter]. now rewrite IH.
Qed.

Lemma sort_by_count_desc_spec l : Props.stable_desc_sort l (sort_by_count_desc l).
Proof.
  split; [apply sort_by_count_desc_perm|].
  split; [apply sort_by_count_desc_sorted|].
  intros c. apply sort_by_count_desc_stable.
Qed.

Lemma filter_count_head x l :
  filter (Props.count_is (snd x)) (x :: l)
  = x :: filter (Props.count_is (snd x)) l.
Proof.
  simpl. unfold Props.count_is at 1. now rewrite Z.eqb_refl.
Qed.

Lemma In_of_filter_head c x rest l :
  filter (Props.count_is c) l = x :: rest -> In x l /\ snd x = c.
Proof.
  intros H. assert (Hin : In x (filter (Props.count_is c) l))
    by (rewrite H; now left).
  apply filter_In in Hin. destruct Hin as [Hin Hc].
  split; [exact Hin | now apply Z.eqb_eq in Hc].
Qed.

(** Two descending lists with the same pairs of every count, in the same
    order, are the same list: the ranking is determined. *)
Lemma stable_sorted_unique l1 l2 :
  StronglySorted by_count_desc l1 ->
  StronglySorted by_count_desc l2 ->
  (forall c, filter (Props.count_is c) l1 = filter (Props.count_is c) l2) ->
  l1 = l2.
Proof.
  intros Hs1. revert l2.
  induction Hs1 as [|x l1 Hs1 IH Hx]; intros l2 Hs2 Hsame.
  - destruct l2 as [|y l2]; [reflexivity|].
    specialize (Hsame (snd y)). rewrite filter_count_head in Hsame. discriminate.
  - destruct Hs2 as [|y l2 Hs2 Hy].
    { specialize (Hsame (snd x)). rewrite filter_count_head in Hsame.
      discriminate. }
    assert (Hxy : snd x = snd y).
    { pose proof (Hsame (snd x)) as H1. rewrite filter_count_head in H1.
      symmetry in H1. apply In_of_filter_head in H1. destruct H1 as [H1 _].
      pose proof (Hsame (snd y)) as H2. rewrite filter_count_head in H2.
      apply In_of_filter_head in H2. destruct H2 as [H2 _].
      assert (snd x <= snd y).
      { destruct H1 as [<-|H1]; [lia|].
        rewrite Forall_forall in Hy. exact (Hy x H1). }
      assert (snd y <= snd x).
      { destruct H2 as [<-|H2]; [lia|].
        rewrite Forall_forall in Hx. exact (Hx y H2). }
      lia. }
    assert (Heq : x = y).
    { pose proof (Hsame (snd x)) as H. rewrite filter_count_head in H.
      rewrite Hxy in H at 2. rewrite filter_count_head in H. congruence. }
    subst y. f_equal. apply IH; [exact Hs2|].
    intros c. specialize (Hsame c). simpl in Hsame.
    destruct (Props.count_is c x); congruence.
Qed.

Lemma stable_desc_sort_unique l r :
  Props.stable_desc_sort l r -> r = sort_by_count_desc l.
Proof.
  intros (_ & Hsorted & Hstable).
  destruct (sort_by_count_desc_spec l) as (_ & Hsorted' & Hstable').
  apply stable_sorted_unique; [exact Hsorted | exact Hsorted' |].
  intros c. now rewrite Hstable, Hstable'.
Qed.

Lemma In_firstn {B} (y : B) n (l : list B) : In y (firstn n l) -> In y l.
Proof.
  revert l. induction n as [|n IH]; intros [|z l]; simpl; try contradiction.
  intros [->|H]; [now left | right; now apply IH].
Qed.

Lemma In_slice_to {B} (y : B) (l : list B) limit : In y (slice_to l limit) -> In y l.
Proof.
  unfold slice_to. destruct (limit <? 0); apply In_firstn.
Qed.

Lemma slice_to_nonneg {B} (l : list B) limit :
  0 <= limit -> slice_to l limit = firstn (Z.to_nat limit) l.
Proof.
  intros H. unfold slice_to. apply Z.ltb_ge in H. now rewrite H.
Qed.

End SortByCount.

(* ------------------------------------------------------------------ *)
(** ** The counting pass *)

Section CountingPass.
Import LibrarySystem Props.

Lemma count_of_set k k' v (d : Dict.dict Z) :
  count_of k' (Dict.set k v d) = if String.eqb k k' then v else count_of k' d.
Proof.
  unfold count_of. destruct (String.eqb k k') eqn:E.
  - apply String.eqb_eq in E. subst. now rewrite DictFacts.get_set_eq.
  - apply String.eqb_neq in E. now rewrite DictFacts.get_set_ne.
Qed.

Lemma count_checkouts_tally log counts :
  (forall tr, In tr log -> Transaction.type tr = "check_out"%string ->
     exists patron_id item_id due_days,
       Transaction.details_of tr = Transaction.OfCheckOut patron_id item_id due_days) ->
  count_checkouts log counts = Returned (tally (checkout_ids log) counts).
Proof.
  revert counts. induction log as [|tr rest IH]; intros counts Hwf; simpl.
  - reflexivity.
  - assert (Hrest : forall tr', In tr' rest ->
                      Transaction.type tr' = "check_out"%string ->
                      exists patron_id item_id due_days,
                        Transaction.details_of tr'
                        = Transaction.OfCheckOut patron_id item_id due_days)
      by (intros tr' Hin; apply Hwf; now right).
    destruct (String.eqb (Transaction.type tr) "check_out") eqn:E.
    + apply String.eqb_eq in E.
      destruct (Hwf tr (or_introl eq_refl) E) as (p & i & d & Hd).
      rewrite Hd. simpl. now apply IH.
    + now apply IH.
Qed.

Lemma count_of_tally ids counts item_id :
  count_of item_id (tally ids counts)
  = count_of item_id counts + Z.of_nat (count_occ string_dec ids item_id).
Proof.
  revert counts. induction ids as [|x rest IH]; intros counts; simpl.
  - lia.
  - rewrite IH, count_of_set.
    destruct (string_dec x item_id) as [->|Hne].
    + rewrite String.eqb_refl. lia.
    + apply String.eqb_neq in Hne. rewrite Hne. lia.
Qed.

Lemma wf_tally ids counts : Dict.wf counts -> Dict.wf (tally ids counts).
Proof.
  revert counts. induction ids as [|x rest IH]; intros counts Hwf; simpl.
  - exact Hwf.
  - apply IH. now apply DictFacts.wf_set.
Qed.

Lemma filter_filter_and {B} (f g : B -> bool) (l : list B) :
  filter f (filter g l) = filter (fun b => g b && f b) l.
Proof.
  induction l as [|b l IH]; simpl; [reflexivity|].
  destruct (g b); simpl; [destruct (f b)|]; now rewrite IH.
Qed.

Lemma filter_all {B} (f : B -> bool) (l : list B) :
  (forall b, f b = true) -> filter f l = l.
Proof.
  intros H. induction l as [|b l IH]; simpl; [reflexivity|].
  now rewrite H, IH.
Qed.

Lemma keys_tally ids counts :
  Dict.keys (tally ids counts)
  = Dict.keys counts
    ++ filter (fun k => negb (Dict.contains k counts)) (first_occurrences ids).
Proof.
  revert counts. induction ids as [|x rest IH]; intros counts; simpl.
  - now rewrite app_nil_r.
  - rewrite IH, DictFacts.keys_set, filter_filter_and.
    assert (Hext : filter
                     (fun k => negb (Dict.contains k
                                       (Dict.set x (count_of x counts + 1) counts)))
                     (first_occurrences rest)
                   = filter
                       (fun b => negb (String.eqb b x)
                                 && negb (Dict.contains b counts))
                       (first_occurrences rest)).
    { apply filter_ext. intros k. rewrite DictFacts.contains_set.
      rewrite (String.eqb_sym x k). now rewrite negb_orb. }
    rewrite Hext.
    destruct (Dict.contains x counts); simpl; [reflexivity|].
    now rewrite <- app_assoc.
Qed.

Lemma items_from_keys (d : Dict.dict Z) :
  Dict.wf d -> Dict.items d = map (fun k => (k, count_of k d)) (Dict.keys d).
Proof.
  unfold Dict.wf, Dict.items. induction d as [|[k v] rest IH]; simpl.
  - reflexivity.
  - intros Hnd. inversion Hnd as [|? ? Hnotin Hrest]; subst.
    unfold count_of at 1. simpl. rewrite String.eqb_refl. f_equal.
    etransitivity; [exact (IH Hrest)|]. apply map_ext_in. intros k' Hin.
    unfold count_of. simpl.
    destruct (String.eqb k k') eqn:E; [|reflexivity].
    apply String.eqb_eq in E. subst. contradiction.
Qed.

Lemma tally_items ids :
  Dict.items (tally ids Dict.empty)
  = map (fun item_id => (item_id, Z.of_nat (count_occ string_dec ids item_id)))
        (first_occurrences ids).
Proof.
  rewrite items_from_keys by (apply wf_tally; constructor).
  rewrite keys_tally. simpl. rewrite filter_all by reflexivity.
  apply map_ext. intros k. now rewrite count_of_tally.
Qed.

Lemma collect_popular_map s (f : string -> Z) ids :
  collect_popular s (map (fun item_id => (item_id, f item_id)) ids)
  = flat_map
      (fun item_id =>
         match get_item s item_id with
         | Some item => [(item, f item_id)]
         | None => []
         end)
      ids.
Proof.
  induction ids as [|x rest IH]; simpl; [reflexivity|].
  destruct (get_item s x); simpl; now rewrite IH.
Qed.

Lemma get_popular_items_ranked s limit :
  consistent s ->
  get_popular_items s limit
  = Returned (slice_to (sort_by_count_desc (candidates s)) limit).
Proof.
  intros Hc. unfold get_popular_items.
  rewrite (count_checkouts_tally _ _ (log_wf s Hc)). simpl.
  rewrite tally_items, collect_popular_map. reflexivity.
Qed.

Lemma In_first_occurrences x l : In x (first_occurrences l) <-> In x l.
Proof.
  induction l as [|y rest IH]; simpl; [tauto|].
  rewrite filter_In, IH.
  destruct (string_dec y x) as [->|Hne].
  - tauto.
  - split.
    + intros [H|[H _]]; tauto.
    + intros [H|H]; [tauto|]. right. split; [assumption|].
      apply negb_true_iff. apply String.eqb_neq. congruence.
Qed.

Lemma In_candidates s item count :
  In (item, count) (candidates s) <->
  exists item_id,
    In item_id (checkout_ids (_transaction_log s)) /\
    get_item s item_id = Some item /\
    count = times_checked_out (_transaction_log s) item_id.
Proof.
  unfold candidates. rewrite in_flat_map. split.
  - intros (id & Hin & Hpair).
    apply (proj1 (In_first_occurrences _ _)) in Hin.
    exists id. destruct (get_item s id) as [i|]; [|contradiction].
    destruct Hpair as [[= -> ->]|[]]. auto.
  - intros (id & Hin & Hget & ->). exists id.
    split; [now apply (proj2 (In_first_occurrences _ _))|].
    rewrite Hget. now left.
Qed.

End CountingPass.

(* ------------------------------------------------------------------ *)
(** ** Most borrowed items (C7, C10) *)

Lemma NoDup_first_occurrences l : NoDup (Props.first_occurrences l).
Proof.
  induction l as [|x rest IH]; simpl; constructor.
  - rewrite filter_In, String.eqb_refl. intros [_ H]. discriminate.
  - now apply NoDup_filter.
Qed.

Lemma NoDup_of_two (x y : string) l :
  NoDup l -> x <> y -> In x l -> In y l ->
  (forall z, In z l -> z = x \/ z = y) ->
  l = [x; y] \/ l = [y; x].
Proof.
  intros Hnd Hxy Hx Hy Hall.
  destruct l as [|a [|b [|c l]]].
  - contradiction.
  - destruct Hx as [<-|[]], Hy as [<-|[]]. congruence.
  - inversion Hnd as [|? ? Hab _]; subst.
    assert (a <> b) by (intros ->; apply Hab; now left).
    destruct (Hall a (or_introl eq_refl)) as [->| ->],
             (Hall b (or_intror (or_introl eq_refl))) as [->| ->];
      try congruence; auto.
  - exfalso.
    inversion Hnd as [|? ? Ha Hnd']; subst.
    inversion Hnd' as [|? ? Hb _]; subst.
    assert (a <> b) by (intros ->; apply Ha; now left).
    assert (a <> c) by (intros ->; apply Ha; right; now left).
    assert (b <> c) by (intros ->; apply Hb; now left).
    destruct (Hall a (or_introl eq_refl)) as [->| ->],
             (Hall b (or_intror (or_introl eq_refl))) as [->| ->],
             (Hall c (or_intror (or_intror (or_introl eq_refl)))) as [->| ->];
      congruence.
Qed.

Lemma times_checked_out_In log item_id :
  0 < Props.times_checked_out log item_id <-> In item_id (Props.checkout_ids log).
Proof.
  unfold Props.times_checked_out.
  rewrite (count_occ_In string_dec). lia.
Qed.

(** C7, as stated, fails for a negative limit: Python's slice then drops
    pairs from the end of the ranking instead of returning none.  With the
    book borrowed three times and the DVD once, [get_popular_items(-1)]
    returns one pair. *)
Lemma get_popular_items_negative_limit :
  LibrarySystem.get_popular_items Sample.library_loans (-1)
  = Returned [(Sample.book1, 3)] /\
  LibrarySystem.get_popular_items Sample.library_loans (-1)
  <> Returned (firstn (Z.to_nat (-1))
                 (sort_by_count_desc (Props.candidates Sample.library_loans))).
Proof.
  split; [vm_compute; reflexivity | vm_compute; discriminate].
Qed.

(** C7, amended: in a reachable state and for a limit that is not
    negative, [get_popular_items(limit)] returns the first [limit] pairs of
    a ranking of the candidates: the ids of the "check_out" records that
    the catalog still has an item for, each with that item and the number
    of "check_out" records naming the id, in the order the ids first occur
    in the log.  The ranking is by descending count and keeps pairs of
    equal count in that first-encounter order.  In particular, when the
    log records three check-outs of X, one of Y and no other, and both are
    in the catalog, [get_popular_items(1)] is [[(X, 3)]]. *)
Theorem get_popular_items_top :
  forall (s : LibrarySystem.t) (limit : Z),
    Reach.reachable s ->
    0 <= limit ->
    (exists ranked,
       Props.stable_desc_sort (Props.candidates s) ranked /\
       LibrarySystem.get_popular_items s limit
       = Returned (firstn (Z.to_nat limit) ranked)) /\
    (forall x y item_x item_y,
       x <> y ->
       LibrarySystem.get_item s x = Some item_x ->
       LibrarySystem.get_item s y = Some item_y ->
       Props.times_checked_out (LibrarySystem._transaction_log s) x = 3 ->
       Props.times_checked_out (LibrarySystem._transaction_log s) y = 1 ->
       (forall z,
          In z (Props.checkout_ids (LibrarySystem._transaction_log s)) ->
          z = x \/ z = y) ->
       LibrarySystem.get_popular_items s 1 = Returned [(item_x, 3)]).
Proof.
  intros s limit Hreach Hlimit.
  assert (Hc := reachable_consistent s Hreach).
  split.
  - exists (sort_by_count_desc (Props.candidates s)).
    split; [apply sort_by_count_desc_spec|].
    rewrite (get_popular_items_ranked s limit Hc).
    now rewrite slice_to_nonneg.
  - intros x y item_x item_y Hxy Hx Hy H3 H1 Hall.
    rewrite (get_popular_items_ranked s 1 Hc).
    assert (Hinx : In x (Props.checkout_ids (LibrarySystem._transaction_log s)))
      by (apply times_checked_out_In; lia).
    assert (Hiny : In y (Props.checkout_ids (LibrarySystem._transaction_log s)))
      by (apply times_checked_out_In; lia).
    assert (Hfo : Props.first_occurrences
                    (Props.checkout_ids (LibrarySystem._transaction_log s)) = [x; y]
                  \/ Props.first_occurrences
                       (Props.checkout_ids (LibrarySystem._transaction_log s)) = [y; x]).
    { apply NoDup_of_two; auto.
      - apply NoDup_first_occurrences.
      - now apply In_first_occurrences.
      - now apply In_first_occurrences.
      - intros z Hz. apply Hall. now apply In_first_occurrences. }
    unfold Props.candidates.
    destruct Hfo as [-> | ->]; simpl; rewrite Hx, Hy, H3, H1; reflexivity.
Qed.

Lemma get_popular_items_top_witness :
  LibrarySystem.get_popular_items Sample.library_loans 1
  = Returned [(Sample.book1, 3)].
Proof.
  destruct (get_popular_items_top Sample.library_loans 1 library_loans_reachable)
    as [_ Hscenario].
  - vm_compute. discriminate.
  - apply (Hscenario "B1"%string "D1"%string Sample.book1 Sample.dvd1).
    + discriminate.
    + vm_compute. reflexivity.
    + vm_compute. reflexivity.
    + vm_compute. reflexivity.
    + vm_compute. reflexivity.
    + vm_compute. intros z [<-|[<-|[<-|[<-|[]]]]]; auto.
Defined.

(** C10: in a reachable state the counting pass of [get_popular_items]
    counts every "check_out" record under its item id, in the catalog or
    not; the method returns, and every pair it returns holds an item that
    the catalog has under the item's id, with the number of "check_out"
    records naming that id.  An id the catalog no longer has yields no
    pair, however often it was checked out, so the result can be shorter
    than the limit. *)
Theorem popular_items_are_in_catalog :
  forall (s : LibrarySystem.t) (limit : Z),
    Reach.reachable s ->
    exists checkout_counts result,
      LibrarySystem.count_checkouts (LibrarySystem._transaction_log s) Dict.empty
      = Returned checkout_counts /\
      (forall item_id,
         Props.count_of item_id checkout_counts
         = Props.times_checked_out (LibrarySystem._transaction_log s) item_id) /\
      LibrarySystem.get_popular_items s limit = Returned result /\
      (forall item count,
         In (item, count) result ->
         LibrarySystem.get_item s (LibraryItem.item_id item) = Some item /\
         count = Props.times_checked_out (LibrarySystem._transaction_log s)
                   (LibraryItem.item_id item) /\
         0 < count) /\
      (forall item_id,
         LibrarySystem.get_item s item_id = None ->
         forall item count,
           In (item, count) result -> LibraryItem.item_id item <> item_id).
Proof.
  intros s limit Hreach.
  assert (Hc := reachable_consistent s Hreach).
  eexists. eexists.
  split; [apply (count_checkouts_tally _ _ (Props.log_wf s Hc))|].
  split; [intros item_id; rewrite count_of_tally; reflexivity|].
  split; [apply (get_popular_items_ranked s limit Hc)|].
  assert (Hin : forall item count,
             In (item, count)
                (slice_to (sort_by_count_desc (Props.candidates s)) limit) ->
             LibrarySystem.get_item s (LibraryItem.item_id item) = Some item /\
             count = Props.times_checked_out (LibrarySystem._transaction_log s)
                       (LibraryItem.item_id item) /\
             0 < count).
  { intros item count H. apply In_slice_to in H.
    apply (Permutation_in _ (Permutation_sym (sort_by_count_desc_perm _))) in H.
    apply In_candidates in H. destruct H as (id & Hid & Hget & ->).
    rewrite (Props.item_keys s Hc id item Hget).
    repeat split; [assumption|]. now apply times_checked_out_In. }
  split; [exact Hin|].
  intros id Hnone item count H Heq.
  destruct (Hin item count H) as [Hget _]. congruence.
Qed.

Lemma popular_items_are_in_catalog_witness :
  LibrarySystem.get_item Sample.library_removed "B1" = None /\
  Props.times_checked_out
    (LibrarySystem._transaction_log Sample.library_removed) "B1" = 3 /\
  exists result,
    LibrarySystem.get_popular_items Sample.library_removed 2 = Returned result /\
    result = [(Sample.dvd1, 1)] /\
    forall item count, In (item, count) result -> LibraryItem.item_id item <> "B1"%string.
Proof.
  split; [vm_compute; reflexivity|].
  split; [vm_compute; reflexivity|].
  destruct (popular_items_are_in_catalog Sample.library_removed 2
              library_removed_reachable)
    as (counts & result & _ & _ & Hrun & _ & Hgone).
  exists result. split; [exact Hrun|].
  split.
  - assert (H : LibrarySystem.get_popular_items Sample.library_removed 2
                = Returned [(Sample.dvd1, 1)]) by (vm_compute; reflexivity).
    rewrite Hrun in H. now injection H.
  - apply Hgone. vm_compute. reflexivity.
Defined.

(* ------------------------------------------------------------------ *)
(** ** The loan invariant on the runs without overflow *)

Section LoanInvariant.
Import LibrarySystem Props.

Lemma In_holders s item_id k :
  consistent s ->
  In k (holders s item_id) <->
  exists p, get_patron s k = Some p /\
            Dict.contains item_id (Patron.borrowed_items p) = true.
Proof.
  intros Hc. unfold holders, Dict.keys. rewrite in_map_iff. split.
  - intros ([k' p] & Hk & Hin). simpl in Hk. subst k'.
    apply filter_In in Hin. destruct Hin as [Hin Hheld].
    exists p. split; [|exact Hheld].
    apply DictFacts.In_get; [exact (patrons_wf s Hc) | exact Hin].
  - intros (p & Hp & Hheld). exists (k, p). split; [reflexivity|].
    apply filter_In. split; [now apply DictFacts.get_In | exact Hheld].
Qed.

Lemma at_most_one (l : list string) :
  NoDup l -> (forall a b, In a l -> In b l -> a = b) -> (List.length l <= 1)%nat.
Proof.
  intros Hnd Hsame. destruct l as [|a [|b l]]; simpl; try lia.
  exfalso. inversion Hnd as [|? ? Hnotin _]; subst. apply Hnotin.
  left. apply Hsame; [right; now left | now left].
Qed.

Lemma holders_at_most_one s item_id :
  consistent s -> (List.length (holders s item_id) <= 1)%nat.
Proof.
  intros Hc. apply at_most_one.
  - unfold holders. apply DictFacts.keys_filter_NoDup. exact (patrons_wf s Hc).
  - intros a b Ha Hb.
    apply (In_holders s item_id a Hc) in Ha. destruct Ha as (pa & Hpa & Hha).
    apply (In_holders s item_id b Hc) in Hb. destruct Hb as (pb & Hpb & Hhb).
    exact (one_holder s Hc a pa b pb item_id Hpa Hpb Hha Hhb).
Qed.

(** In every reachable state an item that a patron holds is flagged, and
    no two patrons hold the same item. *)
Lemma held_items_are_flagged s item_id item :
  Reach.reachable s ->
  get_item s item_id = Some item ->
  (List.length (holders s (LibraryItem.item_id item)) <= 1)%nat /\
  (List.length (holders s (LibraryItem.item_id item)) = 1%nat ->
   LibraryItem.is_checked_out item = true).
Proof.
  intros Hreach Hget. assert (Hc := reachable_consistent s Hreach).
  split; [now apply holders_at_most_one|].
  rewrite (item_keys s Hc item_id item Hget). intros Hone.
  destruct (holders s item_id) as [|k l] eqn:Hh; [discriminate|].
  assert (Hin : In k (holders s item_id)) by (rewrite Hh; now left).
  apply (In_holders s item_id k Hc) in Hin. destruct Hin as (p & Hp & Hheld).
  destruct (borrowed_flagged s Hc k p item_id Hp Hheld) as (i & Hi & Hflag).
  congruence.
Qed.

Lemma loan_invariant_of s : consistent s -> flag_held s -> loan_invariant s.
Proof.
  intros Hc Hfh item_id item Hget.
  rewrite (item_keys s Hc item_id item Hget). split.
  - intros Hflag. destruct (Hfh item_id item Hget Hflag) as (k & p & Hp & Hheld).
    assert (Hin : In k (holders s item_id))
      by (apply (In_holders s item_id k Hc); now exists p).
    pose proof (holders_at_most_one s item_id Hc) as Hle.
    destruct (holders s item_id); [contradiction | simpl in *; lia].
  - intros Hone.
    destruct (holders s item_id) as [|k l] eqn:Hh; [discriminate|].
    assert (Hin : In k (holders s item_id)) by (rewrite Hh; now left).
    apply (In_holders s item_id k Hc) in Hin. destruct Hin as (p & Hp & Hheld).
    destruct (borrowed_flagged s Hc k p item_id Hp Hheld) as (i & Hi & Hflag).
    congruence.
Qed.

Lemma flag_held_same_data s s' :
  _items s' = _items s -> _patrons s' = _patrons s ->
  flag_held s -> flag_held s'.
Proof.
  intros Hi Hp H. unfold flag_held, get_item, get_patron in *.
  now rewrite Hi, Hp.
Qed.

Lemma flag_held_logged s type details now :
  flag_held s -> flag_held (logged s type details now).
Proof. now apply flag_held_same_data. Qed.

Lemma plus_days_Raised now d e :
  DateTime.plus_days now d = Raised e -> e = OverflowError.
Proof.
  unfold DateTime.plus_days, DateTime.timedelta_of_days, DateTime.add, bind_outcome.
  destruct (DateTime.MAX_DELTA_DAYS <? Z.abs d); [now intros [= <-]|].
  destruct (_ || _); [now intros [= <-] | discriminate].
Qed.

Lemma flag_held_borrowed s patron_id item_id patron item due_days now :
  consistent s -> flag_held s ->
  get_patron s patron_id = Some patron ->
  get_item s item_id = Some item ->
  let b := Patron.borrow_item patron item due_days now in
  fst (fst b) <> Raised OverflowError ->
  flag_held (store_item item_id (snd b) (store_patron patron_id (snd (fst b)) s)).
Proof.
  intros Hc Hfh Hp Hi b Hcalm. subst b.
  assert (Hid : LibraryItem.item_id item = item_id) by now apply (item_keys s Hc).
  destruct (LibraryItem.is_checked_out item) eqn:Hflag.
  { rewrite borrow_item_refused_flag by assumption. simpl.
    now rewrite (store_patron_same _ _ _ Hp), (store_item_same _ _ _ Hi). }
  destruct (Dict.contains (LibraryItem.item_id item) (Patron.borrowed_items patron))
    eqn:Hheld.
  { rewrite borrow_item_refused_held by assumption. simpl.
    now rewrite (store_patron_same _ _ _ Hp), (store_item_same _ _ _ Hi). }
  rewrite borrow_item_accepted in * by assumption.
  destruct (DateTime.plus_days now due_days) as [due|e] eqn:Hdate.
  2:{ exfalso. apply Hcalm. simpl. f_equal. now apply (plus_days_Raised now due_days). }
  simpl. rewrite Hid.
  intros k i Hk Hkflag.
  destruct (string_dec item_id k) as [<-|Hne].
  - exists patron_id. eexists. split.
    + rewrite get_patron_store_item. apply get_patron_store_patron_eq.
    + simpl. rewrite DictFacts.contains_set. now rewrite String.eqb_refl.
  - rewrite get_item_store_item_ne in Hk by assumption.
    rewrite get_item_store_patron in Hk.
    destruct (Hfh k i Hk Hkflag) as (k' & p' & Hp' & Hheld').
    destruct (string_dec patron_id k') as [<-|Hnp].
    + exists patron_id. eexists. split.
      * rewrite get_patron_store_item. apply get_patron_store_patron_eq.
      * simpl. rewrite DictFacts.contains_set.
        assert (p' = patron) by congruence. subst p'.
        rewrite Hheld'. apply orb_true_r.
    + exists k', p'. split; [|exact Hheld'].
      rewrite get_patron_store_item.
      now rewrite get_patron_store_patron_ne.
Qed.

Lemma flag_held_returned s patron_id item_id patron item now_cmp now_days :
  consistent s -> flag_held s ->
  get_patron s patron_id = Some patron ->
  get_item s item_id = Some item ->
  let r := Patron.return_item patron item now_cmp now_days in
  flag_held (store_item item_id (snd r) (store_patron patron_id (snd (fst r)) s)).
Proof.
  intros Hc Hfh Hp Hi r. subst r.
  assert (Hid : LibraryItem.item_id item = item_id) by now apply (item_keys s Hc).
  destruct (Dict.contains (LibraryItem.item_id item) (Patron.borrowed_items patron))
    eqn:Hheld.
  2:{ rewrite patron_return_item_not_borrowed by assumption. simpl.
      now rewrite (store_patron_same _ _ _ Hp), (store_item_same _ _ _ Hi). }
  destruct (patron_return_item_borrowed patron item now_cmp now_days Hheld)
    as (_ & Hdel & Hclear).
  set (pr := Patron.return_item patron item now_cmp now_days) in *.
  intros k i Hk Hkflag.
  destruct (string_dec item_id k) as [<-|Hne].
  - rewrite get_item_store_item_eq in Hk. injection Hk as <-. congruence.
  - rewrite get_item_store_item_ne in Hk by assumption.
    rewrite get_item_store_patron in Hk.
    destruct (Hfh k i Hk Hkflag) as (k' & p' & Hp' & Hheld').
    destruct (string_dec patron_id k') as [<-|Hnp].
    + exists patron_id, (snd (fst pr)). split.
      * rewrite get_patron_store_item. apply get_patron_store_patron_eq.
      * rewrite Hdel, Hid. rewrite DictFacts.contains_del_ne by assumption.
        assert (p' = patron) by congruence. now subst p'.
    + exists k', p'. split; [|exact Hheld'].
      rewrite get_patron_store_item.
      now rewrite get_patron_store_patron_ne.
Qed.

Lemma step_flag_held s e s' :
  consistent s -> flag_held s -> Reach.step s e s' ->
  e <> Some OverflowError -> flag_held s'.
Proof.
  intros Hc Hfh Hstep Hcalm. destruct Hstep.
  - (* attach *) now apply (flag_held_same_data s).
  - (* detach *) now apply (flag_held_same_data s).
  - (* add_item *)
    rewrite add_item_state.
    destruct (Dict.contains _ (_items s)) eqn:Hnew; [assumption|].
    apply flag_held_logged. intros k i Hk Hflag.
    apply (get_item_store_item_inv s) in Hk.
    destruct Hk as [[-> ->]|[_ Hk]]; [discriminate | now apply (Hfh k i)].
  - (* remove_item *)
    rewrite remove_item_state.
    destruct (get_item s item_id) as [item|] eqn:Hi; [|assumption].
    destruct (LibraryItem.is_checked_out item) eqn:Hflag; [assumption|].
    apply flag_held_logged. intros k i Hk Hkflag.
    apply (Hfh k i); [|assumption].
    unfold get_item in Hk. simpl in Hk.
    destruct (string_dec item_id k) as [<-|Hne].
    + rewrite DictFacts.get_del_eq in Hk by exact (items_wf s Hc). discriminate.
    + now rewrite DictFacts.get_del_ne in Hk by assumption.
  - (* register_patron *)
    rewrite register_patron_state.
    destruct (Dict.contains _ (_patrons s)) eqn:Hnew; [assumption|].
    apply flag_held_logged. intros k i Hk Hflag.
    destruct (Hfh k i Hk Hflag) as (k' & p' & Hp' & Hheld').
    exists k', p'. split; [|exact Hheld'].
    change (get_patron
              (store_patron person_id
                 (Patron.init name email address phone person_id registered) s) k'
            = Some p').
    rewrite get_patron_store_patron_ne; [assumption|].
    intros <-. apply DictFacts.contains_false_get in Hnew.
    unfold get_patron in Hp'. simpl in Hnew. congruence.
  - (* add_librarian *)
    rewrite add_librarian_state.
    destruct (Dict.contains _ (_librarians s)); [assumption|].
    apply flag_held_logged. now apply (flag_held_same_data s).
  - (* check_out_item *)
    unfold Reach.raised, result_of in Hcalm.
    rewrite check_out_item_run in Hcalm. rewrite check_out_item_state.
    destruct (get_patron s patron_id) as [patron|] eqn:Hp; [|assumption].
    destruct (get_item s item_id) as [item|] eqn:Hi; [|assumption].
    assert (H := flag_held_borrowed s patron_id item_id patron item due_days
                   now_due Hc Hfh Hp Hi).
    cbv zeta in *.
    destruct (fst (fst (Patron.borrow_item patron item due_days now_due)))
      as [[|]|e] eqn:Hb.
    + apply flag_held_logged. apply H. discriminate.
    + apply H. discriminate.
    + apply H. simpl in Hcalm. congruence.
  - (* return_item *)
    rewrite return_item_state.
    destruct (get_patron s patron_id) as [patron|] eqn:Hp; [|assumption].
    destruct (get_item s item_id) as [item|] eqn:Hi; [|assumption].
    assert (H := flag_held_returned s patron_id item_id patron item now_cmp
                   now_days Hc Hfh Hp Hi).
    cbv zeta in *.
    destruct (fst (fst (fst (Patron.return_item patron item now_cmp now_days))));
      [|assumption].
    now apply flag_held_logged.
  - (* pay_fine *)
    intros k i Hk Hflag. rewrite get_item_store_patron in Hk.
    destruct (Hfh k i Hk Hflag) as (k' & p' & Hp' & Hheld').
    destruct (string_dec patron_id k') as [<-|Hnp].
    + exists patron_id. eexists. split; [apply get_patron_store_patron_eq|].
      assert (p' = patron) by congruence. subst p'.
      unfold Patron.pay_fine. destruct (_ || _); exact Hheld'.
    + exists k', p'. split; [|exact Hheld'].
      now rewrite get_patron_store_patron_ne.
Qed.

Lemma calm_reachable s : Reach.reachable_without_overflow s -> Reach.reachable s.
Proof.
  induction 1 as [name|s e s' _ IH Hstep _].
  - constructor.
  - now apply (Reach.reachable_step s e).
Qed.

(** The loan invariant holds in every state reached by calls that did not
    end with an [OverflowError]. *)
Lemma loan_invariant_without_overflow s :
  Reach.reachable_without_overflow s -> loan_invariant s.
Proof.
  intros Hcalm. apply loan_invariant_of.
  - apply reachable_consistent. now apply calm_reachable.
  - induction Hcalm as [name|s e s' Hs IH Hstep He].
    + intros k i Hk. discriminate.
    + apply (step_flag_held s e); auto.
      apply reachable_consistent. now apply calm_reachable.
Qed.

End LoanInvariant.

(* ------------------------------------------------------------------ *)
(** ** The loan invariant (C1) *)

(** C1 at the input on which the code breaks it: the book is added, the
    patron registered, and the patron checks the book out for a thousand
    million days.  [borrow_item] has set the flag of the book when
    [timedelta] raises [OverflowError]; the state the call leaves behind is
    reachable, the book is flagged as checked out, and no patron holds it. *)
Theorem overflowing_check_out_breaks_loan_invariant :
  Reach.reachable Sample.library_overflow /\
  LibrarySystem.result_of
    (LibrarySystem.check_out_item "P1" "B1" 1000000000 Sample.t0 Sample.t0
       Sample.library0)
  = Raised OverflowError /\
  LibrarySystem.get_item Sample.library_overflow "B1"
  = Some (LibraryItem.with_checked_out Sample.book1 true) /\
  Props.holders Sample.library_overflow "B1" = [] /\
  ~ Props.loan_invariant Sample.library_overflow.
Proof.
  split; [exact library_overflow_reachable|].
  split; [vm_compute; reflexivity|].
  split; [vm_compute; reflexivity|].
  split; [vm_compute; reflexivity|].
  intros Hinv.
  destruct (Hinv "B1"%string (LibraryItem.with_checked_out Sample.book1 true))
    as [Hflag _].
  - vm_compute. reflexivity.
  - specialize (Hflag eq_refl). vm_compute in Hflag. discriminate.
Qed.

(* ================================================================== *)
(** * Part III: further properties of the library *)

(* ------------------------------------------------------------------ *)
(** ** More on dictionaries *)

Section MoreDictFacts.
Context {V : Type}.
Implicit Types (d : Dict.dict V) (k : string) (v : V).

Lemma del_set_fresh k v d :
  Dict.contains k d = false -> Dict.del k (Dict.set k v d) = d.
Proof.
  unfold Dict.contains. induction d as [|[k0 v0] rest IH]; simpl.
  - now rewrite String.eqb_refl.
  - destruct (String.eqb k0 k) eqn:E; [discriminate|].
    intros H. simpl. rewrite E. now rewrite IH.
Qed.

Lemma set_set k v v' d : Dict.set k v' (Dict.set k v d) = Dict.set k v' d.
Proof.
  induction d as [|[k0 v0] rest IH]; simpl.
  - now rewrite String.eqb_refl.
  - destruct (String.eqb k0 k) eqn:E; simpl.
    + now rewrite String.eqb_refl.
    + now rewrite E, IH.
Qed.

End MoreDictFacts.

(* ------------------------------------------------------------------ *)
(** ** Subscribing and unsubscribing observers *)

Lemma subscribed_iff (o : Observer.t) (observers : list Observer.t) :
  existsb (Subject.same o) observers = true <->
  In (Observer.obs_id o) (map Observer.obs_id observers).
Proof.
  rewrite existsb_exists, in_map_iff. unfold Subject.same.
  split; intros (x & H1 & H2); exists x.
  - apply Nat.eqb_eq in H2. auto.
  - split; [assumption|]. apply Nat.eqb_eq. auto.
Qed.

Lemma not_subscribed_iff (o : Observer.t) (observers : list Observer.t) :
  existsb (Subject.same o) observers = false <->
  ~ In (Observer.obs_id o) (map Observer.obs_id observers).
Proof.
  rewrite <- subscribed_iff.
  destruct (existsb (Subject.same o) observers); split; congruence.
Qed.

Lemma remove_first_absent (o : Observer.t) (observers : list Observer.t) :
  existsb (Subject.same o) observers = false ->
  Subject.remove_first o observers = observers.
Proof.
  induction observers as [|x rest IH]; simpl; [reflexivity|].
  intros H. apply orb_false_iff in H. destruct H as [Hx Hrest].
  unfold Subject.same in *. rewrite Nat.eqb_sym in Hx. rewrite Hx.
  now rewrite IH.
Qed.

Lemma remove_first_last (o : Observer.t) (observers : list Observer.t) :
  existsb (Subject.same o) observers = false ->
  Subject.remove_first o (observers ++ [o]) = observers.
Proof.
  induction observers as [|x rest IH]; simpl.
  - intros _. unfold Subject.same. now rewrite Nat.eqb_refl.
  - intros H. apply orb_false_iff in H. destruct H as [Hx Hrest].
    unfold Subject.same in *. rewrite Nat.eqb_sym in Hx. rewrite Hx.
    now rewrite IH.
Qed.

Lemma remove_first_ids (o : Observer.t) (observers : list Observer.t) i :
  In i (map Observer.obs_id (Subject.remove_first o observers)) ->
  In i (map Observer.obs_id observers).
Proof.
  induction observers as [|x rest IH]; simpl; [easy|].
  destruct (Subject.same x o); simpl; [now right|].
  intros [H|H]; [now left | right; now apply IH].
Qed.

Lemma remove_first_gone (o : Observer.t) (observers : list Observer.t) :
  NoDup (map Observer.obs_id observers) ->
  ~ In (Observer.obs_id o)
       (map Observer.obs_id (Subject.remove_first o observers)).
Proof.
  induction observers as [|x rest IH]; simpl; [easy|].
  intros Hnd. inversion Hnd as [|? ? Hnotin Hrest]; subst.
  destruct (Subject.same x o) eqn:E; unfold Subject.same in E.
  - apply Nat.eqb_eq in E. now rewrite <- E.
  - apply Nat.eqb_neq in E. simpl. intros [H|H]; [congruence | now apply IH].
Qed.

Lemma notify_calls_ids observers message i m :
  In (i, m) (snd (Subject.notify observers message)) ->
  In i (map Observer.obs_id observers) /\ m = message.
Proof.
  induction observers as [|x rest IH]; simpl; [easy|].
  destruct (Observer.update x message).
  - destruct (Subject.notify rest message) as [r calls]. simpl in *.
    intros [[= <- <-]|H]; [now split; [left|] |].
    destruct (IH H) as [H1 H2]. split; [now right | exact H2].
  - simpl. intros [[= <- <-]|[]]. split; [now left | reflexivity].
Qed.

(** X1: [attach] subscribes an observer once.  On a list of observers
    with distinct identities the list after [attach] still has distinct
    identities and contains the observer; the earlier subscribers keep
    their places; attaching the same observer again changes nothing. *)
Theorem attach_subscribes_once :
  forall (observers : list Observer.t) (o : Observer.t),
    NoDup (map Observer.obs_id observers) ->
    NoDup (map Observer.obs_id (Subject.attach observers o)) /\
    existsb (Subject.same o) (Subject.attach observers o) = true /\
    (exists tail, Subject.attach observers o = observers ++ tail) /\
    Subject.attach (Subject.attach observers o) o = Subject.attach observers o.
Proof.
  intros observers o Hnd. unfold Subject.attach.
  destruct (existsb (Subject.same o) observers) eqn:E.
  - rewrite E. repeat split; try assumption.
    exists []. now rewrite app_nil_r.
  - assert (Hin : existsb (Subject.same o) (observers ++ [o]) = true).
    { rewrite existsb_app. simpl. unfold Subject.same at 2.
      rewrite Nat.eqb_refl. now rewrite orb_true_r. }
    rewrite Hin. repeat split; try assumption.
    + rewrite map_app. simpl. apply NoDup_app; [assumption | repeat constructor; easy |].
      intros i Hi [<-|[]]. now apply not_subscribed_iff in E.
    + now exists [o].
Qed.

Lemma attach_subscribes_once_witness :
  Subject.attach
    (Subject.attach [Sample.email_notifier; Sample.sms_notifier] Sample.failing_sink)
    Sample.failing_sink
  = [Sample.email_notifier; Sample.sms_notifier; Sample.failing_sink].
Proof.
  destruct (attach_subscribes_once
              [Sample.email_notifier; Sample.sms_notifier] Sample.failing_sink)
    as (_ & _ & _ & Hagain).
  - repeat constructor; simpl; intuition discriminate.
  - rewrite Hagain. reflexivity.
Defined.

(** X2: [detach] unsubscribes.  On a list of observers with distinct
    identities the observer is not in the list after [detach] and no later
    broadcast calls it; detaching an observer that is not subscribed leaves
    the list as it is (the [ValueError] is swallowed), and detaching one
    that was just attached gives back the list from before. *)
Theorem detach_unsubscribes :
  forall (observers : list Observer.t) (o : Observer.t),
    NoDup (map Observer.obs_id observers) ->
    existsb (Subject.same o) (Subject.detach observers o) = false /\
    (forall message m,
       ~ In (Observer.obs_id o, m)
            (snd (Subject.notify (Subject.detach observers o) message))) /\
    (existsb (Subject.same o) observers = false ->
     Subject.detach observers o = observers /\
     Subject.detach (Subject.attach observers o) o = observers).
Proof.
  intros observers o Hnd. unfold Subject.detach.
  assert (Hgone := remove_first_gone o observers Hnd).
  split; [now apply not_subscribed_iff|]. split.
  - intros message m Hcall. apply notify_calls_ids in Hcall.
    now destruct Hcall.
  - intros Habsent. split; [now apply remove_first_absent|].
    unfold Subject.attach. rewrite Habsent. now apply remove_first_last.
Qed.

Lemma detach_unsubscribes_witness :
  Subject.detach
    [Sample.email_notifier; Sample.failing_sink; Sample.sms_notifier]
    Sample.failing_sink
  = [Sample.email_notifier; Sample.sms_notifier] /\
  existsb (Subject.same Sample.failing_sink)
    (Subject.detach
       [Sample.email_notifier; Sample.failing_sink; Sample.sms_notifier]
       Sample.failing_sink) = false.
Proof.
  split; [reflexivity|].
  apply (detach_unsubscribes
           [Sample.email_notifier; Sample.failing_sink; Sample.sms_notifier]
           Sample.failing_sink).
  repeat constructor; simpl; intuition discriminate.
Defined.

(* ------------------------------------------------------------------ *)
(** ** The actors of a DVD *)

(** X3: [add_actor] keeps the actor list ordered and free of repetitions:
    a list without repetitions stays so, the actor is in the list
    afterwards, the names already there keep their places, nothing else of
    the DVD changes, and adding the same actor again changes nothing. *)
Theorem add_actor_ordered_unique :
  forall (d : LibraryItem.DVDFields) (actor : string),
    NoDup (LibraryItem._actors d) ->
    let d' := LibraryItem.add_actor d actor in
    NoDup (LibraryItem._actors d') /\
    In actor (LibraryItem._actors d') /\
    (exists tail, LibraryItem._actors d' = LibraryItem._actors d ++ tail) /\
    LibraryItem._director d' = LibraryItem._director d /\
    LibraryItem._runtime d' = LibraryItem._runtime d /\
    LibraryItem._release_year d' = LibraryItem._release_year d /\
    LibraryItem.add_actor d' actor = d'.
Proof.
  intros d actor Hnd d'. subst d'. unfold LibraryItem.add_actor.
  destruct (existsb (String.eqb actor) (LibraryItem._actors d)) eqn:E.
  - rewrite E. repeat split; try assumption.
    + apply existsb_exists in E. destruct E as (x & Hx & Hxe).
      apply String.eqb_eq in Hxe. now subst.
    + exists []. now rewrite app_nil_r.
  - simpl.
    assert (Hin : existsb (String.eqb actor) (LibraryItem._actors d ++ [actor]) = true).
    { rewrite existsb_app. simpl. rewrite String.eqb_refl. now rewrite orb_true_r. }
    rewrite Hin. repeat split.
    + apply NoDup_app; [assumption | repeat constructor; easy |].
      intros x Hx [Heq|[]]. subst x.
      assert (existsb (String.eqb actor) (LibraryItem._actors d) = true);
        [|congruence].
      apply existsb_exists. exists actor.
      split; [assumption | apply String.eqb_refl].
    + apply in_or_app. right. now left.
    + now exists [actor].
Qed.

Lemma add_actor_ordered_unique_witness :
  let d := {| LibraryItem._director := "Alice Brown";
              LibraryItem._runtime := 120;
              LibraryItem._release_year := 2018;
              LibraryItem._actors := ["David Python"]%string |} in
  LibraryItem._actors (LibraryItem.add_actor d "Sarah Coder")
  = ["David Python"; "Sarah Coder"]%string /\
  LibraryItem.add_actor (LibraryItem.add_actor d "Sarah Coder") "Sarah Coder"
  = LibraryItem.add_actor d "Sarah Coder".
Proof.
  intros d. split; [reflexivity|].
  apply (add_actor_ordered_unique d "Sarah Coder").
  repeat constructor; simpl; intuition discriminate.
Defined.

(* ------------------------------------------------------------------ *)
(** ** Adding and removing items, registering people *)

Section CatalogAndRegistry.
Import LibrarySystem.

Lemma add_item_run item now s :
  add_item item now s
  = if Dict.contains (LibraryItem.item_id item) (_items s)
    then (Returned false, s, [])
    else
      let n := Subject.notify (_observers s)
                 ("New item added: " ++ LibraryItem.title item)%string in
      (after_notify n true,
       logged (with_items s (Dict.set (LibraryItem.item_id item) item (_items s)))
         "add_item" (Transaction.OfItem (LibraryItem.item_id item)) now,
       snd n).
Proof.
  unfold add_item, bind, get_state, modify, _log_transaction, notify, ret,
    after_notify. simpl.
  destruct (Dict.contains (LibraryItem.item_id item) (_items s)); [reflexivity|].
  simpl.
  destruct (Subject.notify (_observers s) _) as [[[]|e] calls]; simpl;
    rewrite ?app_nil_r; reflexivity.
Qed.

Lemma remove_item_run item_id now s :
  remove_item item_id now s
  = match get_item s item_id with
    | None => (Returned false, s, [])
    | Some item =>
        if LibraryItem.is_checked_out item then (Returned false, s, [])
        else
          let n := Subject.notify (_observers s)
                     ("Item removed: " ++ LibraryItem.title item)%string in
          (after_notify n true,
           logged (with_items s (Dict.del item_id (_items s)))
             "remove_item" (Transaction.OfItem item_id) now,
           snd n)
    end.
Proof.
  unfold remove_item, bind, get_state, modify, _log_transaction, notify, ret,
    after_notify, get_item. simpl.
  destruct (Dict.get item_id (_items s)) as [item|]; [|reflexivity].
  destruct (LibraryItem.is_checked_out item); [reflexivity|].
  simpl.
  destruct (Subject.notify (_observers s) _) as [[[]|e] calls]; simpl;
    rewrite ?app_nil_r; reflexivity.
Qed.

Lemma register_patron_run patron now s :
  register_patron patron now s
  = if Dict.contains (Patron.person_id patron) (_patrons s)
    then (Returned false, s, [])
    else
      let n := Subject.notify (_observers s)
                 ("New patron registered: " ++ Patron.name patron)%string in
      (after_notify n true,
       logged
         (with_patrons s (Dict.set (Patron.person_id patron) patron (_patrons s)))
         "register_patron" (Transaction.OfPatron (Patron.person_id patron)) now,
       snd n).
Proof.
  unfold register_patron, bind, get_state, modify, _log_transaction, notify, ret,
    after_notify. simpl.
  destruct (Dict.contains (Patron.person_id patron) (_patrons s)); [reflexivity|].
  simpl.
  destruct (Subject.notify (_observers s) _) as [[[]|e] calls]; simpl;
    rewrite ?app_nil_r; reflexivity.
Qed.

Lemma add_librarian_run librarian now s :
  add_librarian librarian now s
  = if Dict.contains (Librarian.person_id librarian) (_librarians s)
    then (Returned false, s, [])
    else
      (Returned true,
       logged
         (with_librarians s
            (Dict.set (Librarian.person_id librarian) librarian (_librarians s)))
         "add_librarian"
         (Transaction.OfLibrarian (Librarian.person_id librarian)) now,
       []).
Proof.
  unfold add_librarian, bind, get_state, modify, _log_transaction, ret. simpl.
  destruct (Dict.contains (Librarian.person_id librarian) (_librarians s));
    reflexivity.
Qed.

Lemma after_notify_accept {A} observers message (a : A) :
  Forall (Props.accepts message) observers ->
  after_notify (Subject.notify observers message) a = Returned a /\
  snd (Subject.notify observers message) = Props.all_called observers message.
Proof.
  intros H. rewrite (notify_all_accept _ _ H). split; reflexivity.
Qed.

Lemma after_notify_not_false n : after_notify n true <> Returned false.
Proof.
  unfold after_notify. destruct (fst n); discriminate.
Qed.

End CatalogAndRegistry.

(** X4: [add_item] with an id the catalog does not have stores the item:
    afterwards [get_item] finds it under its id, every other id answers as
    before, the patrons are untouched and the log has one more record, an
    "add_item" one -- whether an observer raised or not.  When every
    observer accepts the message the call returns [True] and each observer
    was called once. *)
Theorem add_item_stores_item :
  forall (s : LibrarySystem.t) (item : LibraryItem.t) (now : DateTime.datetime),
    Dict.contains (LibraryItem.item_id item) (LibrarySystem._items s) = false ->
    let r := LibrarySystem.add_item item now s in
    let s' := LibrarySystem.state_of r in
    let message := ("New item added: " ++ LibraryItem.title item)%string in
    LibrarySystem.get_item s' (LibraryItem.item_id item) = Some item /\
    (forall k, k <> LibraryItem.item_id item ->
               LibrarySystem.get_item s' k = LibrarySystem.get_item s k) /\
    LibrarySystem._patrons s' = LibrarySystem._patrons s /\
    LibrarySystem._transaction_log s'
    = LibrarySystem._transaction_log s ++
      [{| Transaction.timestamp := now;
          Transaction.type := "add_item";
          Transaction.details_of := Transaction.OfItem (LibraryItem.item_id item) |}] /\
    (Forall (Props.accepts message) (LibrarySystem._observers s) ->
     LibrarySystem.result_of r = Returned true /\
     LibrarySystem.calls_of r
     = Props.all_called (LibrarySystem._observers s) message).
Proof.
  intros s item now Hnew r s' message. subst r s'.
  rewrite add_item_run, Hnew.
  unfold LibrarySystem.state_of, LibrarySystem.result_of, LibrarySystem.calls_of.
  cbv zeta. cbn [fst snd]. fold message.
  split; [apply (get_item_store_item_eq s)|].
  split; [intros k Hk; apply (get_item_store_item_ne s); congruence|].
  split; [reflexivity|]. split; [reflexivity|].
  intros Hacc. now apply after_notify_accept.
Qed.

Lemma add_item_stores_item_witness :
  LibrarySystem.get_item
    (LibrarySystem.state_of
       (LibrarySystem.add_item Sample.book1 Sample.t0
          (LibrarySystem.init "City Public Library")))
    "B1"
  = Some Sample.book1.
Proof.
  apply (add_item_stores_item (LibrarySystem.init "City Public Library")
           Sample.book1 Sample.t0).
  reflexivity.
Defined.

(** X5: [remove_item] returns [False] exactly when the id is unknown or
    the item is checked out, and then changes nothing and calls no
    observer. *)
Theorem remove_item_refusal :
  forall (s : LibrarySystem.t) (item_id : string) (now : DateTime.datetime),
    let r := LibrarySystem.remove_item item_id now s in
    (LibrarySystem.result_of r = Returned false <->
     LibrarySystem.get_item s item_id = None \/
     exists item,
       LibrarySystem.get_item s item_id = Some item /\
       LibraryItem.is_checked_out item = true) /\
    (LibrarySystem.result_of r = Returned false ->
     LibrarySystem.state_of r = s /\ LibrarySystem.calls_of r = []).
Proof.
  intros s item_id now r. subst r. rewrite remove_item_run.
  unfold LibrarySystem.state_of, LibrarySystem.result_of, LibrarySystem.calls_of.
  destruct (LibrarySystem.get_item s item_id) as [item|] eqn:Hi.
  2:{ simpl. split; [split; auto | auto]. }
  destruct (LibraryItem.is_checked_out item) eqn:Hflag.
  - simpl. split; [split; [|reflexivity] | auto].
    intros _. right. now exists item.
  - cbv zeta. cbn [fst snd]. split; [split|].
    + intros H. now apply after_notify_not_false in H.
    + intros [H|(i & [= <-] & H)]; [discriminate | congruence].
    + intros H. now apply after_notify_not_false in H.
Qed.

(** X6: [remove_item] of an item that is in the catalog and not checked
    out takes it out: afterwards [get_item] does not find the id, every
    other id answers as before, and the log has one more record, a
    "remove_item" one; when every observer accepts the message the call
    returns [True]. *)
Theorem remove_item_removes :
  forall (s : LibrarySystem.t) (item_id : string) (now : DateTime.datetime)
         (item : LibraryItem.t),
    Dict.wf (LibrarySystem._items s) ->
    LibrarySystem.get_item s item_id = Some item ->
    LibraryItem.is_checked_out item = false ->
    let r := LibrarySystem.remove_item item_id now s in
    let s' := LibrarySystem.state_of r in
    let message := ("Item removed: " ++ LibraryItem.title item)%string in
    LibrarySystem.get_item s' item_id = None /\
    (forall k, k <> item_id ->
               LibrarySystem.get_item s' k = LibrarySystem.get_item s k) /\
    LibrarySystem._transaction_log s'
    = LibrarySystem._transaction_log s ++
      [{| Transaction.timestamp := now;
          Transaction.type := "remove_item";
          Transaction.details_of := Transaction.OfItem item_id |}] /\
    (Forall (Props.accepts message) (LibrarySystem._observers s) ->
     LibrarySystem.result_of r = Returned true).
Proof.
  intros s item_id now item Hwf Hi Hflag r s' message. subst r s'.
  rewrite remove_item_run, Hi, Hflag.
  unfold LibrarySystem.state_of, LibrarySystem.result_of.
  cbv zeta. cbn [fst snd]. fold message.
  split; [now apply DictFacts.get_del_eq|].
  split; [intros k Hk; apply DictFacts.get_del_ne; congruence|].
  split; [reflexivity|].
  intros Hacc. now apply after_notify_accept.
Qed.

Lemma remove_item_removes_witness :
  LibrarySystem.get_item Sample.library_removed "B1" = None /\
  LibrarySystem.get_item Sample.library_removed "D1" = Some Sample.dvd1.
Proof.
  destruct (remove_item_removes Sample.library_loans "B1" Sample.t0 Sample.book1)
    as (Hgone & Hothers & _).
  - exact (Props.items_wf _ (reachable_consistent _ library_loans_reachable)).
  - vm_compute. reflexivity.
  - reflexivity.
  - split; [exact Hgone|].
    unfold Sample.library_removed. rewrite Hothers by discriminate.
    vm_compute. reflexivity.
Defined.

(** X7: adding an item under a new id and removing it again gives back
    the catalog as it was, the order of its entries included; the patrons
    are untouched and the log has grown by the two records. *)
Theorem add_then_remove_restores_catalog :
  forall (s : LibrarySystem.t) (item : LibraryItem.t)
         (now_add now_remove : DateTime.datetime),
    Dict.contains (LibraryItem.item_id item) (LibrarySystem._items s) = false ->
    LibraryItem.is_checked_out item = false ->
    let s1 := LibrarySystem.state_of (LibrarySystem.add_item item now_add s) in
    let s2 := LibrarySystem.state_of
                (LibrarySystem.remove_item (LibraryItem.item_id item) now_remove s1) in
    LibrarySystem._items s2 = LibrarySystem._items s /\
    LibrarySystem._patrons s2 = LibrarySystem._patrons s /\
    LibrarySystem._transaction_log s2
    = LibrarySystem._transaction_log s ++
      [{| Transaction.timestamp := now_add;
          Transaction.type := "add_item";
          Transaction.details_of := Transaction.OfItem (LibraryItem.item_id item) |};
       {| Transaction.timestamp := now_remove;
          Transaction.type := "remove_item";
          Transaction.details_of := Transaction.OfItem (LibraryItem.item_id item) |}].
Proof.
  intros s item now_add now_remove Hnew Hflag s1 s2. subst s1 s2.
  rewrite remove_item_state, add_item_state, Hnew.
  change (LibrarySystem.get_item
            (LibrarySystem.logged
               (LibrarySystem.with_items s
                  (Dict.set (LibraryItem.item_id item) item (LibrarySystem._items s)))
               "add_item" (Transaction.OfItem (LibraryItem.item_id item)) now_add)
            (LibraryItem.item_id item))
    with (LibrarySystem.get_item
            (LibrarySystem.store_item (LibraryItem.item_id item) item s)
            (LibraryItem.item_id item)).
  rewrite get_item_store_item_eq, Hflag.
  simpl. rewrite del_set_fresh by assumption.
  split; [reflexivity|]. split; [reflexivity|].
  now rewrite <- app_assoc.
Qed.

Lemma add_then_remove_restores_catalog_witness :
  LibrarySystem._items
    (LibrarySystem.state_of
       (LibrarySystem.remove_item "B1" Sample.t20
          (LibrarySystem.state_of
             (LibrarySystem.add_item Sample.book1 Sample.t0
                (LibrarySystem.init "City Public Library")))))
  = [].
Proof.
  apply (add_then_remove_restores_catalog
           (LibrarySystem.init "City Public Library") Sample.book1
           Sample.t0 Sample.t20); reflexivity.
Defined.

(** X8: [register_patron] with an id the registry does not have registers
    the patron: afterwards [get_patron] finds the patron under the id,
    every other id answers as before, the catalog is untouched and the log
    has one more record, a "register_patron" one; when every observer
    accepts the message the call returns [True] and each observer was
    called once. *)
Theorem register_patron_registers :
  forall (s : LibrarySystem.t) (patron : Patron.t) (now : DateTime.datetime),
    Dict.contains (Patron.person_id patron) (LibrarySystem._patrons s) = false ->
    let r := LibrarySystem.register_patron patron now s in
    let s' := LibrarySystem.state_of r in
    let message := ("New patron registered: " ++ Patron.name patron)%string in
    LibrarySystem.get_patron s' (Patron.person_id patron) = Some patron /\
    (forall k, k <> Patron.person_id patron ->
               LibrarySystem.get_patron s' k = LibrarySystem.get_patron s k) /\
    LibrarySystem._items s' = LibrarySystem._items s /\
    LibrarySystem._transaction_log s'
    = LibrarySystem._transaction_log s ++
      [{| Transaction.timestamp := now;
          Transaction.type := "register_patron";
          Transaction.details_of := Transaction.OfPatron (Patron.person_id patron) |}] /\
    (Forall (Props.accepts message) (LibrarySystem._observers s) ->
     LibrarySystem.result_of r = Returned true /\
     LibrarySystem.calls_of r
     = Props.all_called (LibrarySystem._observers s) message).
Proof.
  intros s patron now Hnew r s' message. subst r s'.
  rewrite register_patron_run, Hnew.
  unfold LibrarySystem.state_of, LibrarySystem.result_of, LibrarySystem.calls_of.
  cbv zeta. cbn [fst snd]. fold message.
  split; [apply (get_patron_store_patron_eq s)|].
  split; [intros k Hk; apply (get_patron_store_patron_ne s); congruence|].
  split; [reflexivity|]. split; [reflexivity|].
  intros Hacc. now apply after_notify_accept.
Qed.

Lemma register_patron_registers_witness :
  LibrarySystem.get_patron
    (LibrarySystem.state_of
       (LibrarySystem.register_patron Sample.patron1 Sample.t0
          (LibrarySystem.init "City Public Library")))
    "P1"
  = Some Sample.patron1.
Proof.
  apply (register_patron_registers (LibrarySystem.init "City Public Library")
           Sample.patron1 Sample.t0).
  reflexivity.
Defined.

(** X9: [add_librarian] is logged but never broadcast: it calls no
    observer and cannot raise, whatever observers are subscribed; it leaves
    catalog, patrons and observers as they are, and with a new id it
    returns [True], [get_librarian] finds the librarian afterwards and the
    log has exactly one more record, an "add_librarian" one with the id. *)
Theorem add_librarian_is_silent :
  forall (s : LibrarySystem.t) (librarian : Librarian.t) (now : DateTime.datetime),
    let r := LibrarySystem.add_librarian librarian now s in
    let s' := LibrarySystem.state_of r in
    LibrarySystem.calls_of r = [] /\
    Reach.raised r = None /\
    LibrarySystem._items s' = LibrarySystem._items s /\
    LibrarySystem._patrons s' = LibrarySystem._patrons s /\
    LibrarySystem._observers s' = LibrarySystem._observers s /\
    (Dict.contains (Librarian.person_id librarian) (LibrarySystem._librarians s)
     = false ->
     LibrarySystem.result_of r = Returned true /\
     LibrarySystem.get_librarian s' (Librarian.person_id librarian)
     = Some librarian /\
     LibrarySystem._transaction_log s'
     = LibrarySystem._transaction_log s ++
       [{| Transaction.timestamp := now;
           Transaction.type := "add_librarian";
           Transaction.details_of :=
             Transaction.OfLibrarian (Librarian.person_id librarian) |}]).
Proof.
  intros s librarian now r s'. subst r s'. rewrite add_librarian_run.
  unfold Reach.raised, LibrarySystem.state_of, LibrarySystem.result_of,
    LibrarySystem.calls_of.
  destruct (Dict.contains _ (LibrarySystem._librarians s)); cbn [fst snd].
  - repeat split; discriminate.
  - repeat split. unfold LibrarySystem.get_librarian. simpl.
    apply DictFacts.get_set_eq.
Qed.

(** X10: [add_item], [register_patron] and [add_librarian] return [False]
    exactly when the id of the object is already taken, and a call that
    returned [False] has changed nothing and called no observer. *)
Theorem duplicate_ids_are_refused :
  forall (s : LibrarySystem.t) (now : DateTime.datetime),
    (forall item,
       (LibrarySystem.result_of (LibrarySystem.add_item item now s) = Returned false <->
        Dict.contains (LibraryItem.item_id item) (LibrarySystem._items s) = true) /\
       (LibrarySystem.result_of (LibrarySystem.add_item item now s) = Returned false ->
        LibrarySystem.add_item item now s = (Returned false, s, []))) /\
    (forall patron,
       (LibrarySystem.result_of (LibrarySystem.register_patron patron now s)
        = Returned false <->
        Dict.contains (Patron.person_id patron) (LibrarySystem._patrons s) = true) /\
       (LibrarySystem.result_of (LibrarySystem.register_patron patron now s)
        = Returned false ->
        LibrarySystem.register_patron patron now s = (Returned false, s, []))) /\
    (forall librarian,
       (LibrarySystem.result_of (LibrarySystem.add_librarian librarian now s)
        = Returned false <->
        Dict.contains (Librarian.person_id librarian) (LibrarySystem._librarians s)
        = true) /\
       (LibrarySystem.result_of (LibrarySystem.add_librarian librarian now s)
        = Returned false ->
        LibrarySystem.add_librarian librarian now s = (Returned false, s, []))).
Proof.
  intros s now. unfold LibrarySystem.result_of. split; [|split].
  - intros item. rewrite add_item_run.
    destruct (Dict.contains _ (LibrarySystem._items s)); cbv zeta; cbn [fst snd].
    + split; [split|]; reflexivity.
    + split; [split; [|discriminate] |];
        intros H; now apply after_notify_not_false in H.
  - intros patron. rewrite register_patron_run.
    destruct (Dict.contains _ (LibrarySystem._patrons s)); cbv zeta; cbn [fst snd].
    + split; [split|]; reflexivity.
    + split; [split; [|discriminate] |];
        intros H; now apply after_notify_not_false in H.
  - intros librarian. rewrite add_librarian_run.
    destruct (Dict.contains _ (LibrarySystem._librarians s)); cbn [fst snd].
    + split; [split|]; reflexivity.
    + split; [split|]; discriminate.
Qed.

(** X11: [check_out_item] returns [False] exactly when the patron is
    unknown, the item is unknown, the item is flagged as checked out, or
    the item's id is already in the patron's mapping; a check-out that
    returned [False] has changed nothing and called no observer. *)
Theorem check_out_item_refusal :
  forall (s : LibrarySystem.t) (patron_id item_id : string) (due_days : Z)
         (now_due now_log : DateTime.datetime),
    let r := LibrarySystem.check_out_item patron_id item_id due_days
               now_due now_log s in
    (LibrarySystem.result_of r = Returned false <->
     LibrarySystem.get_patron s patron_id = None \/
     LibrarySystem.get_item s item_id = None \/
     exists patron item,
       LibrarySystem.get_patron s patron_id = Some patron /\
       LibrarySystem.get_item s item_id = Some item /\
       (LibraryItem.is_checked_out item = true \/
        Dict.contains (LibraryItem.item_id item) (Patron.borrowed_items patron)
        = true)) /\
    (LibrarySystem.result_of r = Returned false -> r = (Returned false, s, [])).
Proof.
  intros s patron_id item_id due_days now_due now_log r. subst r.
  rewrite check_out_item_run. unfold LibrarySystem.result_of.
  destruct (LibrarySystem.get_patron s patron_id) as [patron|] eqn:Hp.
  2:{ split; [split; auto | auto]. }
  destruct (LibrarySystem.get_item s item_id) as [item|] eqn:Hi.
  2:{ split; [split; auto | auto]. }
  destruct (LibraryItem.is_checked_out item) eqn:Hflag.
  { rewrite (borrow_item_refused_flag _ _ _ _ Hflag). cbv zeta. cbn [fst snd].
    rewrite (store_patron_same _ _ _ Hp), (store_item_same _ _ _ Hi).
    split; [split; [|reflexivity] | reflexivity].
    intros _. right. right. exists patron, item. auto. }
  destruct (Dict.contains (LibraryItem.item_id item) (Patron.borrowed_items patron))
    eqn:Hheld.
  { rewrite (borrow_item_refused_held _ _ _ _ Hheld). cbv zeta. cbn [fst snd].
    rewrite (store_patron_same _ _ _ Hp), (store_item_same _ _ _ Hi).
    split; [split; [|reflexivity] | reflexivity].
    intros _. right. right. exists patron, item. auto. }
  rewrite (borrow_item_accepted _ _ due_days now_due Hflag Hheld).
  destruct (DateTime.plus_days now_due due_days) as [due|e];
    cbv zeta; cbn [fst snd].
  - split; [split|].
    + intros H. now apply after_notify_not_false in H.
    + intros [H|[H|(p & i & [= <-] & [= <-] & [H|H])]]; congruence.
    + intros H. now apply after_notify_not_false in H.
  - split; [split|]; try discriminate.
    intros [H|[H|(p & i & [= <-] & [= <-] & [H|H])]]; congruence.
Qed.

(* ------------------------------------------------------------------ *)
(** ** The transaction log only grows *)

(** X12: the transaction log is append-only.  Whatever a call does --
    return [True], return [False] or raise -- the log afterwards is the
    log before followed by at most one new record. *)
Theorem log_is_append_only :
  forall (s s' : LibrarySystem.t) (e : option exn),
    Reach.step s e s' ->
    exists suffix,
      LibrarySystem._transaction_log s'
      = LibrarySystem._transaction_log s ++ suffix /\
      (List.length suffix <= 1)%nat.
Proof.
  intros s s' e Hstep.
  assert (Hsame : forall s0 : LibrarySystem.t,
             LibrarySystem._transaction_log s0
             = LibrarySystem._transaction_log s ->
             exists suffix,
               LibrarySystem._transaction_log s0
               = LibrarySystem._transaction_log s ++ suffix /\
               (List.length suffix <= 1)%nat).
  { intros s0 H. exists []. rewrite app_nil_r. split; [exact H | simpl; lia]. }
  assert (Hone : forall (s0 : LibrarySystem.t) type details now,
             LibrarySystem._transaction_log s0
             = LibrarySystem._transaction_log s ->
             exists suffix,
               LibrarySystem._transaction_log
                 (LibrarySystem.logged s0 type details now)
               = LibrarySystem._transaction_log s ++ suffix /\
               (List.length suffix <= 1)%nat).
  { intros s0 type details now H. eexists. simpl. rewrite H.
    split; [reflexivity | simpl; lia]. }
  destruct Hstep.
  - now apply Hsame.
  - now apply Hsame.
  - rewrite add_item_state.
    destruct (Dict.contains _ _); [now apply Hsame | now apply Hone].
  - rewrite remove_item_state.
    destruct (LibrarySystem.get_item s item_id) as [item|]; [|now apply Hsame].
    destruct (LibraryItem.is_checked_out item); [now apply Hsame | now apply Hone].
  - rewrite register_patron_state.
    destruct (Dict.contains _ _); [now apply Hsame | now apply Hone].
  - rewrite add_librarian_state.
    destruct (Dict.contains _ _); [now apply Hsame | now apply Hone].
  - rewrite check_out_item_state.
    destruct (LibrarySystem.get_patron s patron_id); [|now apply Hsame].
    destruct (LibrarySystem.get_item s item_id); [|now apply Hsame].
    cbv zeta.
    destruct (fst (fst (Patron.borrow_item _ _ _ _))) as [[|]|err];
      [now apply Hone | now apply Hsame | now apply Hsame].
  - rewrite return_item_state.
    destruct (LibrarySystem.get_patron s patron_id); [|now apply Hsame].
    destruct (LibrarySystem.get_item s item_id); [|now apply Hsame].
    cbv zeta.
    destruct (fst (fst (fst (Patron.return_item _ _ _ _))));
      [now apply Hone | now apply Hsame].
  - now apply Hsame.
Qed.

Lemma log_is_append_only_witness :
  exists suffix,
    LibrarySystem._transaction_log Sample.library1
    = LibrarySystem._transaction_log Sample.library0 ++ suffix /\
    (List.length suffix <= 1)%nat.
Proof.
  exact (log_is_append_only Sample.library0 Sample.library1 _
           (Reach.step_check_out_item Sample.library0 "P1" "B1" 14
              Sample.t0 Sample.t0)).
Defined.

(* ------------------------------------------------------------------ *)
(** ** Checked-out and available items *)

Lemma filter_partition_perm {B} (f : B -> bool) (l : list B) :
  Permutation (filter f l ++ filter (fun b => negb (f b)) l) l.
Proof.
  induction l as [|b l IH]; simpl; [constructor|].
  destruct (f b); simpl.
  - now constructor.
  - rewrite <- Permutation_middle. now constructor.
Qed.

(** X13: [get_checked_out_items] and [get_available_items] split the
    catalog: together they hold every item of the catalog as often as the
    catalog does, the first exactly the flagged items and the second
    exactly the others, so no item is in both. *)
Theorem checked_out_and_available_split_catalog :
  forall (s : LibrarySystem.t),
    Permutation
      (LibrarySystem.get_checked_out_items s ++ LibrarySystem.get_available_items s)
      (Dict.values (LibrarySystem._items s)) /\
    (forall item,
       In item (LibrarySystem.get_checked_out_items s) <->
       In item (Dict.values (LibrarySystem._items s)) /\
       LibraryItem.is_checked_out item = true) /\
    (forall item,
       In item (LibrarySystem.get_available_items s) <->
       In item (Dict.values (LibrarySystem._items s)) /\
       LibraryItem.is_checked_out item = false) /\
    (forall item,
       In item (LibrarySystem.get_checked_out_items s) ->
       ~ In item (LibrarySystem.get_available_items s)).
Proof.
  intros s.
  unfold LibrarySystem.get_checked_out_items, LibrarySystem.get_available_items.
  split; [apply filter_partition_perm|].
  split; [intros item; apply filter_In|].
  split.
  - intros item. rewrite filter_In, negb_true_iff. reflexivity.
  - intros item H1 H2. apply filter_In in H1, H2.
    destruct H1 as [_ H1], H2 as [_ H2]. rewrite H1 in H2. discriminate.
Qed.

(* ------------------------------------------------------------------ *)
(** ** Overdue items *)

Section Overdue.
Import LibrarySystem.

Lemma In_patron_overdue s now borrowed item due :
  In (item, due) (patron_overdue s now borrowed) <->
  exists item_id,
    In (item_id, due) borrowed /\ due < now /\ get_item s item_id = Some item.
Proof.
  induction borrowed as [|[id d] rest IH]; simpl.
  - split; [contradiction | intros (i & [] & _)].
  - unfold DateTime.gtb. destruct (d <? now) eqn:Hlate.
    + apply Z.ltb_lt in Hlate.
      destruct (get_item s id) as [i|] eqn:Hi.
      * simpl. rewrite IH. split.
        -- intros [[= <- <-]|(i0 & Hin & H)].
           ++ exists id. auto.
           ++ exists i0. tauto.
        -- intros (i0 & [[= <- <-]|Hin] & Hd & Hg).
           ++ left. congruence.
           ++ right. exists i0. auto.
      * rewrite IH. split.
        -- intros (i0 & Hin & H). exists i0. tauto.
        -- intros (i0 & [[= <- <-]|Hin] & Hd & Hg); [congruence|].
           exists i0. auto.
    + apply Z.ltb_ge in Hlate. rewrite IH. split.
      * intros (i0 & Hin & H). exists i0. tauto.
      * intros (i0 & [[= <- <-]|Hin] & Hd & Hg); [lia|].
        exists i0. auto.
Qed.

Lemma collect_overdue_get s now patrons acc patron_id :
  Dict.wf patrons ->
  Dict.get patron_id (collect_overdue s now patrons acc)
  = match Dict.get patron_id patrons with
    | Some patron =>
        match patron_overdue s now (Dict.items (Patron.borrowed_items patron)) with
        | [] => Dict.get patron_id acc
        | first :: others => Some (first :: others)
        end
    | None => Dict.get patron_id acc
    end.
Proof.
  unfold Dict.wf. revert acc.
  induction patrons as [|[k p] rest IH]; intros acc Hnd; simpl; [reflexivity|].
  inversion Hnd as [|? ? Hnotin Hrest]; subst.
  assert (Hk : Dict.get k rest = None) by now apply DictFacts.get_None_keys.
  destruct (patron_overdue s now (Dict.items (Patron.borrowed_items p)))
    as [|first others] eqn:Hpo.
  - rewrite IH by assumption.
    destruct (String.eqb k patron_id) eqn:E; [|reflexivity].
    apply String.eqb_eq in E. subst. now rewrite Hk, Hpo.
  - rewrite IH by assumption.
    destruct (String.eqb k patron_id) eqn:E.
    + apply String.eqb_eq in E. subst. rewrite Hk, Hpo.
      apply DictFacts.get_set_eq.
    + apply String.eqb_neq in E.
      rewrite DictFacts.get_set_ne by assumption. reflexivity.
Qed.

End Overdue.

(** X14: in a reachable state [get_overdue_items] reports exactly the
    overdue loans.  A patron id has an entry only for a registered patron
    and the entry is never an empty list; a pair (item, due date) is in
    the entry exactly when the patron's mapping holds that due date for the
    item's id, the date is strictly before now, and the item is the one the
    catalog has under the id; and every loan of a registered patron that is
    due before now is reported. *)
Theorem get_overdue_items_spec :
  forall (s : LibrarySystem.t) (now : DateTime.datetime),
    Reach.reachable s ->
    (forall patron_id entry,
       Dict.get patron_id (LibrarySystem.get_overdue_items s now) = Some entry ->
       entry <> [] /\
       exists patron,
         LibrarySystem.get_patron s patron_id = Some patron /\
         forall item due,
           In (item, due) entry <->
           Dict.get (LibraryItem.item_id item) (Patron.borrowed_items patron)
           = Some due /\
           due < now /\
           LibrarySystem.get_item s (LibraryItem.item_id item) = Some item) /\
    (forall patron_id patron item_id due,
       LibrarySystem.get_patron s patron_id = Some patron ->
       Dict.get item_id (Patron.borrowed_items patron) = Some due ->
       due < now ->
       exists entry item,
         Dict.get patron_id (LibrarySystem.get_overdue_items s now) = Some entry /\
         In (item, due) entry /\ LibraryItem.item_id item = item_id).
Proof.
  intros s now Hreach.
  assert (Hc := reachable_consistent s Hreach).
  assert (Hget : forall patron_id,
             Dict.get patron_id (LibrarySystem.get_overdue_items s now)
             = match LibrarySystem.get_patron s patron_id with
               | Some patron =>
                   match LibrarySystem.patron_overdue s now
                           (Dict.items (Patron.borrowed_items patron)) with
                   | [] => None
                   | first :: others => Some (first :: others)
                   end
               | None => None
               end).
  { intros pid. unfold LibrarySystem.get_overdue_items.
    rewrite collect_overdue_get by exact (Props.patrons_wf s Hc).
    unfold LibrarySystem.get_patron, Dict.items.
    destruct (Dict.get pid (LibrarySystem._patrons s)); reflexivity. }
  assert (Hin : forall patron_id patron item due,
             LibrarySystem.get_patron s patron_id = Some patron ->
             In (item, due)
                (LibrarySystem.patron_overdue s now
                   (Dict.items (Patron.borrowed_items patron))) <->
             Dict.get (LibraryItem.item_id item) (Patron.borrowed_items patron)
             = Some due /\
             due < now /\
             LibrarySystem.get_item s (LibraryItem.item_id item) = Some item).
  { intros pid patron item due Hp. rewrite In_patron_overdue. split.
    - intros (id & Hb & Hlate & Hi).
      rewrite (Props.item_keys s Hc id item Hi).
      repeat split; try assumption.
      apply DictFacts.In_get; [exact (Props.borrowed_wf s Hc pid patron Hp)|].
      exact Hb.
    - intros (Hb & Hlate & Hi). exists (LibraryItem.item_id item).
      repeat split; try assumption. now apply DictFacts.get_In. }
  split.
  - intros pid entry Hentry. rewrite Hget in Hentry.
    destruct (LibrarySystem.get_patron s pid) as [patron|] eqn:Hp; [|discriminate].
    destruct (LibrarySystem.patron_overdue s now _) as [|first others] eqn:Hpo;
      [discriminate|].
    injection Hentry as <-. split; [discriminate|].
    exists patron. split; [reflexivity|].
    intros item due. rewrite <- Hpo. now apply (Hin pid).
  - intros pid patron id due Hp Hb Hlate.
    assert (Hheld : Dict.contains id (Patron.borrowed_items patron) = true)
      by (apply DictFacts.contains_true_get; now exists due).
    destruct (Props.borrowed_flagged s Hc pid patron id Hp Hheld)
      as (item & Hi & _).
    assert (Hid := Props.item_keys s Hc id item Hi).
    assert (Hmem : In (item, due)
                      (LibrarySystem.patron_overdue s now
                         (Dict.items (Patron.borrowed_items patron)))).
    { apply (Hin pid patron item due Hp). rewrite Hid. auto. }
    rewrite Hget, Hp.
    destruct (LibrarySystem.patron_overdue s now _) as [|first others];
      [contradiction|].
    exists (first :: others), item. auto.
Qed.

Lemma get_overdue_items_spec_witness :
  exists entry item,
    Dict.get "P1" (LibrarySystem.get_overdue_items Sample.library1 Sample.t20)
    = Some entry /\
    In (item, Sample.t0 + 14 * Sample.DAY) entry /\
    LibraryItem.item_id item = "B1"%string.
Proof.
  destruct (get_overdue_items_spec Sample.library1 Sample.t20 library1_reachable)
    as [_ Hall].
  apply (Hall "P1"%string
           (Patron.with_borrowed_items Sample.patron1
              [("B1"%string, Sample.t0 + 14 * Sample.DAY)])).
  - vm_compute. reflexivity.
  - vm_compute. reflexivity.
  - vm_compute. reflexivity.
Defined.

(* ------------------------------------------------------------------ *)
(** ** A loan from check-out to return *)

Lemma with_checked_out_back item :
  LibraryItem.is_checked_out item = false ->
  snd (LibraryItem.check_in (LibraryItem.with_checked_out item true)) = item.
Proof.
  destruct item as [title id flag added fields]. simpl. now intros ->.
Qed.

Lemma with_borrowed_items_back p item_id due :
  Dict.contains item_id (Patron.borrowed_items p) = false ->
  Patron.with_borrowed_items
    (Patron.with_borrowed_items p (Dict.set item_id due (Patron.borrowed_items p)))
    (Dict.del item_id (Dict.set item_id due (Patron.borrowed_items p)))
  = p.
Proof.
  intros H. destruct p as [name email id reg address phone b f].
  unfold Patron.with_borrowed_items. simpl in *. now rewrite del_set_fresh.
Qed.

Lemma patron_borrow_then_return p item due_days now due now_cmp now_days :
  LibraryItem.is_checked_out item = false ->
  Dict.contains (LibraryItem.item_id item) (Patron.borrowed_items p) = false ->
  DateTime.plus_days now due_days = Returned due ->
  let p1 := Patron.with_borrowed_items p
              (Dict.set (LibraryItem.item_id item) due (Patron.borrowed_items p)) in
  let item1 := LibraryItem.with_checked_out item true in
  let fee := PyFloat.mul (PyFloat.of_int (DateTime.days (DateTime.sub now_days due)))
               PyFloat.quarter in
  Patron.borrow_item p item due_days now = (Returned true, p1, item1) /\
  Patron.return_item p1 item1 now_cmp now_days
  = if DateTime.gtb now_cmp due
    then ((true, fee),
          Patron.with_fine_amount p (PyFloat.add (Patron.fine_amount p) fee),
          item)
    else ((true, PyFloat.zero), p, item).
Proof.
  intros Hflag Hheld Hdue p1 item1 fee.
  split.
  - rewrite (borrow_item_accepted _ _ due_days now Hflag Hheld). now rewrite Hdue.
  - unfold Patron.return_item. subst p1 item1.
    change (LibraryItem.item_id (LibraryItem.with_checked_out item true))
      with (LibraryItem.item_id item).
    change (Patron._borrowed_items
              (Patron.with_borrowed_items p
                 (Dict.set (LibraryItem.item_id item) due (Patron.borrowed_items p))))
      with (Dict.set (LibraryItem.item_id item) due (Patron.borrowed_items p)).
    rewrite DictFacts.get_set_eq.
    rewrite (with_checked_out_back item Hflag).
    rewrite (with_borrowed_items_back p _ due Hheld).
    destruct (DateTime.gtb now_cmp due); reflexivity.
Qed.




(** X16: a check-out followed by a return on time gives back the catalog
    and the registry exactly as they were, the order of their entries
    included; only the log has grown, by the "check_out" and the
    "return_item" record, the latter with a zero fee. *)
Theorem check_out_then_return_restores :
  forall (s : LibrarySystem.t) (patron_id item_id : string) (due_days : Z)
         (now_due now_log now_cmp now_days now_log' : DateTime.datetime)
         (patron : Patron.t) (item : LibraryItem.t),
    LibrarySystem.get_patron s patron_id = Some patron ->
    LibrarySystem.get_item s item_id = Some item ->
    LibraryItem.item_id item = item_id ->
    LibraryItem.is_checked_out item = false ->
    Dict.contains item_id (Patron.borrowed_items patron) = false ->
    Z.abs due_days <= DateTime.MAX_DELTA_DAYS ->
    0 <= now_due + due_days * DateTime.US_PER_DAY <= DateTime.datetime_max ->
    now_cmp <= now_due + due_days * DateTime.US_PER_DAY ->
    let s1 := LibrarySystem.state_of
                (LibrarySystem.check_out_item patron_id item_id due_days
                   now_due now_log s) in
    let s2 := LibrarySystem.state_of
                (LibrarySystem.return_item patron_id item_id
                   now_cmp now_days now_log' s1) in
    LibrarySystem._items s2 = LibrarySystem._items s /\
    LibrarySystem._patrons s2 = LibrarySystem._patrons s /\
    LibrarySystem._transaction_log s2
    = LibrarySystem._transaction_log s ++
      [{| Transaction.timestamp := now_log;
          Transaction.type := "check_out";
          Transaction.details_of :=
            Transaction.OfCheckOut patron_id item_id due_days |};
       {| Transaction.timestamp := now_log';
          Transaction.type := "return_item";
          Transaction.details_of :=
            Transaction.OfReturn patron_id item_id PyFloat.zero |}].
Proof.
  intros s patron_id item_id due_days now_due now_log now_cmp now_days now_log'
    patron item Hp Hi Hid Hflag Hheld Hdays Hrange Hontime s1 s2.
  rewrite <- Hid in Hheld.
  destruct (patron_borrow_then_return patron item due_days now_due
              (now_due + due_days * DateTime.US_PER_DAY) now_cmp now_days
              Hflag Hheld (plus_days_in_range now_due due_days Hdays Hrange))
    as [Hborrow Hreturn].
  assert (Hnotlate :
            DateTime.gtb now_cmp (now_due + due_days * DateTime.US_PER_DAY) = false)
    by (unfold DateTime.gtb; now apply Z.ltb_ge).
  rewrite Hnotlate in Hreturn. cbv zeta in Hborrow, Hreturn.
  assert (Hs1 : s1 = LibrarySystem.logged
                       (LibrarySystem.store_item item_id
                          (LibraryItem.with_checked_out item true)
                          (LibrarySystem.store_patron patron_id
                             (Patron.with_borrowed_items patron
                                (@Dict.set DateTime.datetime
                                   (LibraryItem.item_id item)
                                   (now_due + due_days * DateTime.US_PER_DAY)
                                   (Patron.borrowed_items patron))) s))
                       "check_out"
                       (Transaction.OfCheckOut patron_id item_id due_days) now_log).
  { subst s1. rewrite check_out_item_state, Hp, Hi. cbv zeta.
    rewrite Hborrow. reflexivity. }
  subst s2. rewrite return_item_state. rewrite Hs1.
  change (LibrarySystem.get_patron (LibrarySystem.logged ?x _ _ _) ?k)
    with (LibrarySystem.get_patron x k).
  change (LibrarySystem.get_item (LibrarySystem.logged ?x _ _ _) ?k)
    with (LibrarySystem.get_item x k).
  rewrite get_patron_store_item, get_patron_store_patron_eq,
    get_item_store_item_eq.
  cbv zeta. rewrite Hreturn. cbn [fst snd].
  unfold LibrarySystem.logged, LibrarySystem.store_item,
    LibrarySystem.store_patron. simpl.
  rewrite !set_set.
  unfold LibrarySystem.get_item, LibrarySystem.get_patron in Hi, Hp.
  rewrite (DictFacts.set_same _ _ _ Hi), (DictFacts.set_same _ _ _ Hp).
  split; [reflexivity|]. split; [reflexivity|].
  now rewrite <- app_assoc.
Qed.

Lemma check_out_then_return_restores_witness :
  let s2 := LibrarySystem.state_of
              (LibrarySystem.return_item "P1" "B1" Sample.t0 Sample.t0 Sample.t0
                 Sample.library1) in
  LibrarySystem._items s2 = LibrarySystem._items Sample.library0 /\
  LibrarySystem._patrons s2 = LibrarySystem._patrons Sample.library0.
Proof.
  destruct (check_out_then_return_restores Sample.library0 "P1" "B1" 14
              Sample.t0 Sample.t0 Sample.t0 Sample.t0 Sample.t0
              Sample.patron1 Sample.book1)
    as (Hitems & Hpatrons & _).
  - reflexivity.
  - reflexivity.
  - reflexivity.
  - reflexivity.
  - reflexivity.
  - vm_compute. discriminate.
  - split; vm_compute; discriminate.
  - vm_compute. discriminate.
  - split; [exact Hitems | exact Hpatrons].
Defined.

(* ------------------------------------------------------------------ *)
(** ** Paying a fine in full *)

Lemma Qle_bool_false x y : Qle_bool x y = false <-> (y < x)%Q.
Proof.
  split.
  - intros H. apply Qnot_le_lt. intros Hle.
    apply Qle_bool_iff in Hle. congruence.
  - intros H. destruct (Qle_bool x y) eqn:E; [|reflexivity].
    apply Qle_bool_iff in E. exfalso. apply (Qlt_not_le _ _ H E).
Qed.

(** X17: a patron who owes a positive amount can pay it in full: the call
    succeeds, the fine left is zero and the borrowed mapping is untouched;
    after that every further payment of a number (not NaN) is refused and
    leaves the patron as is. *)
Theorem pay_fine_in_full :
  forall (p : Patron.t) (f : Q),
    Patron.fine_amount p = PyFloat.Fin f ->
    (0 < f)%Q ->
    exists p' rest,
      Patron.pay_fine p (PyFloat.Fin f) = (true, p') /\
      Patron.fine_amount p' = PyFloat.Fin rest /\
      (rest == 0)%Q /\
      Patron.borrowed_items p' = Patron.borrowed_items p /\
      forall amount,
        PyFloat.is_nan amount = false ->
        Patron.pay_fine p' amount = (false, p').
Proof.
  intros p f Hf Hpos. unfold Patron.fine_amount in Hf.
  exists (Patron.with_fine_amount p (PyFloat.Fin (f - f))), (f - f)%Q.
  split.
  - unfold Patron.pay_fine. rewrite Hf.
    unfold PyFloat.leb, PyFloat.gtb, PyFloat.ltb, PyFloat.zero, PyFloat.sub.
    assert (H1 : Qle_bool f 0 = false) by now apply Qle_bool_false.
    assert (H2 : Qle_bool f f = true) by (apply Qle_bool_iff; lra).
    now rewrite H1, H2.
  - split; [reflexivity|]. split; [ring|]. split; [reflexivity|].
    intros amount Hnan. unfold Patron.pay_fine.
    cbn [Patron._fine_amount Patron.with_fine_amount].
    assert (Hguard : PyFloat.leb amount PyFloat.zero
                     || PyFloat.gtb amount (PyFloat.Fin (f - f)) = true).
    { destruct amount as [a|[|]|]; simpl; try reflexivity; try discriminate.
      unfold PyFloat.gtb, PyFloat.ltb.
      destruct (Qle_bool a 0) eqn:Ha; [reflexivity|]. simpl.
      apply Qle_bool_false in Ha. apply negb_true_iff. apply Qle_bool_false.
      lra. }
    now rewrite Hguard.
Qed.

Lemma pay_fine_in_full_witness :
  exists p',
    Patron.pay_fine
      (Patron.with_fine_amount Sample.patron1 (PyFloat.Fin (3 # 4)))
      (PyFloat.Fin (3 # 4))
    = (true, p') /\
    Patron.pay_fine p' (PyFloat.Fin (1 # 4)) = (false, p').
Proof.
  destruct (pay_fine_in_full
              (Patron.with_fine_amount Sample.patron1 (PyFloat.Fin (3 # 4)))
              (3 # 4) eq_refl eq_refl)
    as (p' & rest & Hpay & _ & _ & _ & Hmore).
  exists p'. split; [exact Hpay|]. now apply Hmore.
Defined.

(* ------------------------------------------------------------------ *)
(** ** The fee of a return, as the system reports it *)

(** X18: when a registered patron returns an item of the mapping in a
    reachable state, the fee [Patron.return_item] computes is the one the
    system reports, the one in the "return_item" record it appends to the
    log, and the one its message is built from: a result that is returned
    is [(True, fee)], the log has exactly one more record, carrying the
    fee, every observer that is called gets the message for that fee, and
    when all observers accept it the call returns. *)
Theorem return_item_reports_logged_fee :
  forall (s : LibrarySystem.t) (patron_id item_id : string)
         (now_cmp now_days now_log : DateTime.datetime) (patron : Patron.t),
    Reach.reachable s ->
    LibrarySystem.get_patron s patron_id = Some patron ->
    Dict.contains item_id (Patron.borrowed_items patron) = true ->
    let r := LibrarySystem.return_item patron_id item_id now_cmp now_days now_log s in
    exists item fee,
      LibrarySystem.get_item s item_id = Some item /\
      fst (fst (Patron.return_item patron item now_cmp now_days)) = (true, fee) /\
      LibrarySystem._transaction_log (LibrarySystem.state_of r)
      = LibrarySystem._transaction_log s ++
        [{| Transaction.timestamp := now_log;
            Transaction.type := "return_item";
            Transaction.details_of :=
              Transaction.OfReturn patron_id item_id fee |}] /\
      (forall ok f,
         LibrarySystem.result_of r = Returned (ok, f) -> ok = true /\ f = fee) /\
      (forall i m,
         In (i, m) (LibrarySystem.calls_of r) ->
         m = LibrarySystem.return_message patron item fee) /\
      (Forall (Props.accepts (LibrarySystem.return_message patron item fee))
              (LibrarySystem._observers s) ->
       LibrarySystem.result_of r = Returned (true, fee)).
Proof.
  intros s patron_id item_id now_cmp now_days now_log patron Hreach Hp Hheld r.
  assert (Hc := reachable_consistent s Hreach).
  destruct (Props.borrowed_flagged s Hc patron_id patron item_id Hp Hheld)
    as (item & Hi & _).
  assert (Hid := Props.item_keys s Hc item_id item Hi).
  rewrite <- Hid in Hheld.
  destruct (patron_return_item_borrowed patron item now_cmp now_days Hheld)
    as (Hok & _ & _).
  subst r. rewrite return_item_run, Hp, Hi. cbv zeta.
  set (pr := Patron.return_item patron item now_cmp now_days) in *.
  rewrite Hok.
  unfold LibrarySystem.state_of, LibrarySystem.result_of, LibrarySystem.calls_of.
  cbn [fst snd].
  exists item, (snd (fst (fst pr))).
  split; [reflexivity|]. split.
  { destruct (fst (fst pr)) as [ok fee] eqn:E. fold pr. rewrite E.
    simpl in Hok. now subst ok. }
  split; [reflexivity|]. split; [|split].
  - intros ok f. unfold LibrarySystem.after_notify.
    destruct (fst (Subject.notify _ _)); intros [= <- <-]. auto.
  - intros i m Hcall. now apply notify_calls_ids in Hcall.
  - intros Hacc. now apply after_notify_accept.
Qed.

Lemma return_item_reports_logged_fee_witness :
  LibrarySystem.result_of
    (LibrarySystem.return_item "P1" "B1" Sample.t20 Sample.t20 Sample.t20
       Sample.library1)
  = Returned (true, PyFloat.Fin (inject_Z 6 * (1 # 4))).
Proof.
  destruct (return_item_reports_logged_fee Sample.library1 "P1" "B1"
              Sample.t20 Sample.t20 Sample.t20
              (Patron.with_borrowed_items Sample.patron1
                 [("B1"%string, Sample.t0 + 14 * Sample.DAY)])
              library1_reachable)
    as (item & fee & Hitem & Hfee & _ & Hres & _ & _).
  - vm_compute. reflexivity.
  - vm_compute. reflexivity.
  - assert (Hrun : LibrarySystem.result_of
                     (LibrarySystem.return_item "P1" "B1" Sample.t20 Sample.t20
                        Sample.t20 Sample.library1)
                   = Returned (true, PyFloat.Fin (inject_Z 6 * (1 # 4))))
      by (vm_compute; reflexivity).
    exact Hrun.
Defined.

(* ------------------------------------------------------------------ *)
(** ** Searching with more criteria *)

Lemma criteria_match_app from_class item k1 k2 :
  LibrarySystem.criteria_match from_class item (k1 ++ k2)
  = LibrarySystem.criteria_match from_class item k1
    && LibrarySystem.criteria_match from_class item k2.
Proof.
  apply eq_iff_eq_true.
  rewrite andb_true_iff, !criteria_match_spec. split.
  - intros H. split; intros key value Hin; apply H; apply in_or_app; auto.
  - intros [H1 H2] key value Hin. apply in_app_or in Hin.
    destruct Hin; [now apply H1 | now apply H2].
Qed.

(** X19: criteria combine by conjunction.  A search with more criteria is
    the search with the first criteria filtered by the others, so it
    returns a part of that result, in the same order; and the order in
    which the criteria are given does not change the result. *)
Theorem search_items_narrows :
  forall (from_class : LibraryItem.class_attributes)
         (s : LibrarySystem.t) (k1 k2 : list (string * pyval)),
    LibrarySystem.search_items from_class s (k1 ++ k2)
    = filter (fun item => LibrarySystem.criteria_match from_class item k2)
             (LibrarySystem.search_items from_class s k1) /\
    (forall item,
       In item (LibrarySystem.search_items from_class s (k1 ++ k2)) ->
       In item (LibrarySystem.search_items from_class s k1)) /\
    LibrarySystem.search_items from_class s (k1 ++ k2)
    = LibrarySystem.search_items from_class s (k2 ++ k1).
Proof.
  intros from_class s k1 k2.
  assert (Hsplit : LibrarySystem.search_items from_class s (k1 ++ k2)
                   = filter (fun item =>
                               LibrarySystem.criteria_match from_class item k2)
                            (LibrarySystem.search_items from_class s k1)).
  { unfold LibrarySystem.search_items. rewrite filter_filter_and.
    apply filter_ext. intros item. apply criteria_match_app. }
  split; [exact Hsplit|]. split.
  - intros item. rewrite Hsplit. intros H. now apply filter_In in H.
  - unfold LibrarySystem.search_items. apply filter_ext. intros item.
    rewrite !criteria_match_app. apply andb_comm.
Qed.

(* ------------------------------------------------------------------ *)
(** ** What every reachable state satisfies *)

(** X20: in every reachable state the catalog and the registry are keyed
    by the objects' own ids: an item found under an id carries that id, a
    patron found under an id carries that id, and no id occurs twice among
    the keys of either dictionary. *)
Theorem stored_under_own_id :
  forall (s : LibrarySystem.t),
    Reach.reachable s ->
    (forall k item,
       LibrarySystem.get_item s k = Some item -> LibraryItem.item_id item = k) /\
    (forall k patron,
       LibrarySystem.get_patron s k = Some patron -> Patron.person_id patron = k) /\
    NoDup (Dict.keys (LibrarySystem._items s)) /\
    NoDup (Dict.keys (LibrarySystem._patrons s)).
Proof.
  intros s Hreach. assert (Hc := reachable_consistent s Hreach).
  split; [exact (Props.item_keys s Hc)|].
  split; [exact (Props.patron_keys s Hc)|].
  split; [exact (Props.items_wf s Hc) | exact (Props.patrons_wf s Hc)].
Qed.

Lemma stored_under_own_id_witness :
  Reach.reachable Sample.library_loans /\
  NoDup (Dict.keys (LibrarySystem._items Sample.library_loans)) /\
  NoDup (Dict.keys (LibrarySystem._patrons Sample.library_loans)).
Proof.
  split; [exact library_loans_reachable|].
  exact (proj2 (proj2 (stored_under_own_id Sample.library_loans
                         library_loans_reachable))).
Defined.

(** X21: in every reachable state, also after a call that raised, a
    patron's borrowed mapping names only items that are in the catalog and
    flagged as checked out, and no item id is in the mappings of two
    patrons. *)
Theorem borrowed_ids_are_flagged_items :
  forall (s : LibrarySystem.t) (patron_id item_id : string) (patron : Patron.t),
    Reach.reachable s ->
    LibrarySystem.get_patron s patron_id = Some patron ->
    Dict.contains item_id (Patron.borrowed_items patron) = true ->
    (exists item,
       LibrarySystem.get_item s item_id = Some item /\
       LibraryItem.item_id item = item_id /\
       LibraryItem.is_checked_out item = true) /\
    (forall other_id other,
       LibrarySystem.get_patron s other_id = Some other ->
       Dict.contains item_id (Patron.borrowed_items other) = true ->
       other_id = patron_id).
Proof.
  intros s patron_id item_id patron Hreach Hp Hheld.
  assert (Hc := reachable_consistent s Hreach). split.
  - destruct (Props.borrowed_flagged s Hc patron_id patron item_id Hp Hheld)
      as (item & Hi & Hflag).
    exists item. repeat split; try assumption.
    exact (Props.item_keys s Hc item_id item Hi).
  - intros other_id other Ho Hoheld.
    exact (Props.one_holder s Hc other_id other patron_id patron item_id
             Ho Hp Hoheld Hheld).
Qed.

Lemma borrowed_ids_are_flagged_items_witness :
  exists item,
    LibrarySystem.get_item Sample.library1 "B1" = Some item /\
    LibraryItem.item_id item = "B1"%string /\
    LibraryItem.is_checked_out item = true.
Proof.
  apply (borrowed_ids_are_flagged_items Sample.library1 "P1" "B1"
           (Patron.with_borrowed_items Sample.patron1
              [("B1"%string, Sample.t0 + 14 * Sample.DAY)])
           library1_reachable).
  - vm_compute. reflexivity.
  - vm_compute. reflexivity.
Defined.

(** The sample library with the book on loan is reached without any
    overflow. *)
Lemma library1_calm : Reach.reachable_without_overflow Sample.library1.
Proof.
  pose proof (Reach.calm_init "City Public Library") as H.
  pose proof (Reach.calm_step _ _ _ H
                (Reach.step_attach _ Sample.email_notifier)) as H1.
  specialize (H1 ltac:(vm_compute; discriminate)). clear H.
  pose proof (Reach.calm_step _ _ _ H1
                (Reach.step_attach _ Sample.sms_notifier)) as H2.
  specialize (H2 ltac:(vm_compute; discriminate)). clear H1.
  pose proof (Reach.calm_step _ _ _ H2
                (Reach.step_add_item _ "Python Programming" "B1" Sample.t0
                   (LibraryItem.fields Sample.book1) Sample.t0)) as H3.
  specialize (H3 ltac:(vm_compute; discriminate)). clear H2.
  pose proof (Reach.calm_step _ _ _ H3
                (Reach.step_add_item _ "The Python Documentary" "D1" Sample.t0
                   (LibraryItem.fields Sample.dvd1) Sample.t0)) as H4.
  specialize (H4 ltac:(vm_compute; discriminate)). clear H3.
  pose proof (Reach.calm_step _ _ _ H4
                (Reach.step_register_patron _ "Michael Johnson"
                   "michael@example.com" "123 Main St" "555-1234" "P1"
                   Sample.t0 Sample.t0)) as H5.
  specialize (H5 ltac:(vm_compute; discriminate)). clear H4.
  pose proof (Reach.calm_step _ _ _ H5
                (Reach.step_register_patron _ "Emily Davis"
                   "emily@example.com" "456 Oak Ave" "555-5678" "P2"
                   Sample.t0 Sample.t0)) as H6.
  specialize (H6 ltac:(vm_compute; discriminate)). clear H5.
  pose proof (Reach.calm_step _ _ _ H6
                (Reach.step_check_out_item _ "P1" "B1" 14 Sample.t0 Sample.t0))
    as H7.
  specialize (H7 ltac:(vm_compute; discriminate)). clear H6.
  match type of H7 with
  | Reach.reachable_without_overflow ?x =>
      assert (E : Sample.library1 = x) by (vm_compute; reflexivity)
  end.
  rewrite E. exact H7.
Qed.

(** X22: the loan invariant on the runs without overflow.  In every state
    reached by calls none of which ended with an [OverflowError] -- calls
    that returned [False] or in which an observer raised included -- a
    catalog item is flagged as checked out exactly when one registered
    patron has its id in the borrowed mapping. *)
Theorem loan_invariant_on_runs_without_overflow :
  forall (s : LibrarySystem.t) (item_id : string) (item : LibraryItem.t),
    Reach.reachable_without_overflow s ->
    LibrarySystem.get_item s item_id = Some item ->
    (LibraryItem.is_checked_out item = true <->
     List.length (Props.holders s (LibraryItem.item_id item)) = 1%nat).
Proof.
  intros s item_id item Hcalm Hget.
  exact (loan_invariant_without_overflow s Hcalm item_id item Hget).
Qed.

Lemma loan_invariant_on_runs_without_overflow_witness :
  List.length (Props.holders Sample.library1 "B1") = 1%nat.
Proof.
  apply (loan_invariant_on_runs_without_overflow Sample.library1 "B1"
           (LibraryItem.with_checked_out Sample.book1 true) library1_calm).
  - vm_compute. reflexivity.
  - reflexivity.
Defined.

(* ------------------------------------------------------------------ *)
(** ** Size and shape of the popularity ranking *)

Lemma NoDup_firstn {B} n (l : list B) : NoDup l -> NoDup (firstn n l).
Proof.
  intros H. rewrite <- (firstn_skipn n l) in H.
  now apply NoDup_app_remove_r in H.
Qed.

Lemma StronglySorted_firstn {B} (R : B -> B -> Prop) n (l : list B) :
  StronglySorted R l -> StronglySorted R (firstn n l).
Proof.
  intros H. revert n. induction H as [|x l Hl IH Hx]; intros [|n]; simpl;
    try constructor.
  - apply IH.
  - rewrite Forall_forall in *. intros y Hy. apply Hx.
    now apply In_firstn in Hy.
Qed.

Lemma candidate_ids s :
  Props.consistent s ->
  map (fun p => LibraryItem.item_id (fst p)) (Props.candidates s)
  = filter (fun item_id =>
              match LibrarySystem.get_item s item_id with
              | Some _ => true
              | None => false
              end)
           (Props.first_occurrences
              (Props.checkout_ids (LibrarySystem._transaction_log s))).
Proof.
  intros Hc. unfold Props.candidates.
  induction (Props.first_occurrences
               (Props.checkout_ids (LibrarySystem._transaction_log s)))
    as [|id rest IH]; simpl; [reflexivity|].
  rewrite map_app, IH.
  destruct (LibrarySystem.get_item s id) as [item|] eqn:Hi; [|reflexivity].
  simpl. now rewrite (Props.item_keys s Hc id item Hi).
Qed.

(** X23: in a reachable state [get_popular_items] returns a prefix of the
    full ranking, the list it returns when the limit is the number of
    candidates: the candidates in descending order of count.  For a limit
    that is not negative the result is the first [limit] pairs of the
    ranking (all of them when there are fewer); for a negative limit it is
    the ranking without its last [|limit|] pairs.  So the pairs returned
    are in descending order of count and name pairwise different items. *)
Theorem get_popular_items_shape :
  forall (s : LibrarySystem.t) (limit : Z),
    Reach.reachable s ->
    exists ranking result,
      LibrarySystem.get_popular_items s
        (Z.of_nat (List.length (Props.candidates s))) = Returned ranking /\
      Permutation (Props.candidates s) ranking /\
      LibrarySystem.get_popular_items s limit = Returned result /\
      (0 <= limit -> result = firstn (Z.to_nat limit) ranking) /\
      (limit < 0 ->
       result
       = firstn (List.length ranking - Z.to_nat (- limit))%nat ranking) /\
      StronglySorted (fun p q => snd q <= snd p) result /\
      NoDup (map (fun p => LibraryItem.item_id (fst p)) result) /\
      (0 <= limit ->
       List.length result
       = Nat.min (Z.to_nat limit) (List.length (Props.candidates s))) /\
      (limit < 0 ->
       List.length result
       = (List.length (Props.candidates s) - Z.to_nat (- limit))%nat).
Proof.
  intros s limit Hreach.
  assert (Hc := reachable_consistent s Hreach).
  destruct (sort_by_count_desc_spec (Props.candidates s))
    as (Hperm & Hsorted & _).
  assert (Hlen : List.length (sort_by_count_desc (Props.candidates s))
                 = List.length (Props.candidates s))
    by (symmetry; now apply Permutation_length).
  assert (Hnd : NoDup (map (fun p => LibraryItem.item_id (fst p))
                         (sort_by_count_desc (Props.candidates s)))).
  { apply (Permutation_NoDup
             (Permutation_map (fun p => LibraryItem.item_id (fst p)) Hperm)).
    rewrite (candidate_ids s Hc). apply NoDup_filter.
    apply NoDup_first_occurrences. }
  exists (sort_by_count_desc (Props.candidates s)),
         (slice_to (sort_by_count_desc (Props.candidates s)) limit).
  split.
  { rewrite (get_popular_items_ranked s _ Hc). f_equal.
    unfold slice_to.
    destruct (Z.of_nat (List.length (Props.candidates s)) <? 0) eqn:Hneg;
      [apply Z.ltb_lt in Hneg; lia|].
    rewrite Nat2Z.id, <- Hlen. apply firstn_all. }
  split; [exact Hperm|].
  split; [apply (get_popular_items_ranked s limit Hc)|].
  unfold slice_to. destruct (limit <? 0) eqn:Hneg.
  - apply Z.ltb_lt in Hneg.
    split; [lia|].
    split; [intros _; f_equal; lia|].
    split; [now apply StronglySorted_firstn|].
    split; [rewrite <- firstn_map; now apply NoDup_firstn|].
    split; [lia|]. intros _. rewrite length_firstn, Hlen. lia.
  - apply Z.ltb_ge in Hneg.
    split; [reflexivity|].
    split; [lia|].
    split; [now apply StronglySorted_firstn|].
    split; [rewrite <- firstn_map; now apply NoDup_firstn|].
    split; [|lia]. intros _. now rewrite length_firstn, Hlen.
Qed.

Lemma get_popular_items_shape_witness :
  exists ranking result,
    LibrarySystem.get_popular_items Sample.library_loans 2 = Returned ranking /\
    LibrarySystem.get_popular_items Sample.library_loans (-1) = Returned result /\
    result = firstn 1 ranking /\
    List.length result = 1%nat.
Proof.
  destruct (get_popular_items_shape Sample.library_loans (-1)
              library_loans_reachable)
    as (ranking & result & Hfull & Hperm & Hrun & _ & Hcut & _ & _ & _ & Hlen).
  exists ranking, result.
  assert (Hsize : List.length ranking = 2%nat).
  { rewrite <- (Permutation_length Hperm). vm_compute. reflexivity. }
  split; [exact Hfull|]. split; [exact Hrun|]. split.
  - rewrite (Hcut ltac:(lia)), Hsize. reflexivity.
  - rewrite (Hlen ltac:(lia)). vm_compute. reflexivity.
Defined.

(* ------------------------------------------------------------------ *)
(** ** What a check-out does to the popularity counts *)

Lemma checkout_ids_app log1 log2 :
  Props.checkout_ids (log1 ++ log2)
  = Props.checkout_ids log1 ++ Props.checkout_ids log2.
Proof.
  induction log1 as [|tr rest IH]; simpl; [reflexivity|].
  destruct (String.eqb (Transaction.type tr) "check_out"); [|exact IH].
  destruct (Transaction.details_of tr); simpl; now rewrite IH.
Qed.

(** X24: the popularity count of an item is the number of its successful
    check-outs.  A check-out that goes through (patron and item present,
    the item free, the due date representable) raises the count of the
    item by exactly one and leaves the count of every other id as it is;
    a return leaves every count as it is. *)
Theorem check_out_counts_once :
  forall (s : LibrarySystem.t) (patron_id item_id : string) (due_days : Z)
         (now_due now_log : DateTime.datetime)
         (patron : Patron.t) (item : LibraryItem.t),
    LibrarySystem.get_patron s patron_id = Some patron ->
    LibrarySystem.get_item s item_id = Some item ->
    LibraryItem.is_checked_out item = false ->
    Dict.contains (LibraryItem.item_id item) (Patron.borrowed_items patron) = false ->
    Z.abs due_days <= DateTime.MAX_DELTA_DAYS ->
    0 <= now_due + due_days * DateTime.US_PER_DAY <= DateTime.datetime_max ->
    let s1 := LibrarySystem.state_of
                (LibrarySystem.check_out_item patron_id item_id due_days
                   now_due now_log s) in
    Props.times_checked_out (LibrarySystem._transaction_log s1) item_id
    = Props.times_checked_out (LibrarySystem._transaction_log s) item_id + 1 /\
    (forall k, k <> item_id ->
       Props.times_checked_out (LibrarySystem._transaction_log s1) k
       = Props.times_checked_out (LibrarySystem._transaction_log s) k) /\
    (forall p i now_cmp now_days now_log' k,
       Props.times_checked_out
         (LibrarySystem._transaction_log
            (LibrarySystem.state_of
               (LibrarySystem.return_item p i now_cmp now_days now_log' s1))) k
       = Props.times_checked_out (LibrarySystem._transaction_log s1) k).
Proof.
  intros s patron_id item_id due_days now_due now_log patron item
    Hp Hi Hflag Hheld Hdays Hrange s1.
  assert (Hlog : LibrarySystem._transaction_log s1
                 = LibrarySystem._transaction_log s ++
                   [{| Transaction.timestamp := now_log;
                       Transaction.type := "check_out";
                       Transaction.details_of :=
                         Transaction.OfCheckOut patron_id item_id due_days |}]).
  { subst s1. rewrite check_out_item_state, Hp, Hi. cbv zeta.
    rewrite (borrow_item_accepted _ _ due_days now_due Hflag Hheld).
    rewrite (plus_days_in_range now_due due_days Hdays Hrange). reflexivity. }
  assert (Hids : Props.checkout_ids (LibrarySystem._transaction_log s1)
                 = Props.checkout_ids (LibrarySystem._transaction_log s)
                   ++ [item_id]).
  { rewrite Hlog, checkout_ids_app. reflexivity. }
  unfold Props.times_checked_out. split; [|split].
  - rewrite Hids, count_occ_app. simpl.
    destruct (string_dec item_id item_id); [lia | congruence].
  - intros k Hk. rewrite Hids, count_occ_app. simpl.
    destruct (string_dec item_id k); [congruence | lia].
  - intros p i now_cmp now_days now_log' k. f_equal. f_equal.
    rewrite return_item_state.
    destruct (LibrarySystem.get_patron s1 p); [|reflexivity].
    destruct (LibrarySystem.get_item s1 i); [|reflexivity].
    cbv zeta.
    destruct (fst (fst (fst (Patron.return_item _ _ _ _)))); [|reflexivity].
    unfold LibrarySystem.logged. simpl.
    rewrite checkout_ids_app. simpl. now rewrite app_nil_r.
Qed.

Lemma check_out_counts_once_witness :
  Props.times_checked_out (LibrarySystem._transaction_log Sample.library1) "B1"
  = Props.times_checked_out (LibrarySystem._transaction_log Sample.library0) "B1"
    + 1.
Proof.
  apply (check_out_counts_once Sample.library0 "P1" "B1" 14 Sample.t0 Sample.t0
           Sample.patron1 Sample.book1).
  - reflexivity.
  - reflexivity.
  - reflexivity.
  - reflexivity.
  - vm_compute. discriminate.
  - split; vm_compute; discriminate.
Defined.
